(** * AEMET Temperaturas: a shallow embedding of [aemet_temperaturas.py]

    The script is dynamically typed, so the embedding works on a type of
    Python values ([pyval]) and on computations that either return a value
    or raise one of Python's exceptions ([result]).  Each function of the
    script is translated statement by statement; the theorems at the end
    talk about these translations. *)

From Stdlib Require Import ZArith QArith Qround List String Ascii Bool Lia PeanoNat.
From Stdlib Require Import Sorting.Sorted Sorting.Permutation.
From Stdlib Require OrderedTypeEx.
Import ListNotations.

Set Warnings "-abstract-large-number".

Open Scope string_scope.
Open Scope Z_scope.

(** ** Python values and exceptions *)

(** A Python float.  A finite float is represented by the rational it
    denotes, and the operations below compute on rationals.  They agree
    with Python's on the floats that the script computes from integers
    (the halves [k/2] below 2^53, on which dividing and rounding to one
    decimal are exact); on other floats they leave out the rounding of the
    last bit. *)
Inductive pyfloat : Type :=
| FNaN
| FInf (neg : bool)
| FFin (q : Q).

(** What [json.loads] can produce (and so everything the script handles):
    [None], booleans, integers, floats, strings, lists and dicts with
    string keys.  A dict keeps its insertion order, so it is an association
    list; a key occurs once. *)
#[warnings="-register-all"]
Inductive pyval : Type :=
| PNone
| PBool (b : bool)
| PInt (z : Z)
| PFloat (f : pyfloat)
| PStr (s : string)
| PList (l : list pyval)
| PDict (d : list (string * pyval)).

Inductive exn : Type :=
| IndexError
| KeyError
| TypeError
| AttributeError
| ValueError
| OverflowError
| JSONDecodeError
| RequestException
| UnicodeDecodeError
| RecursionError
| SystemExit (code : Z).

Inductive result (A : Type) : Type :=
| Ok (a : A)
| Raise (e : exn).

Arguments Ok {A} a.
Arguments Raise {A} e.

Definition bind {A B : Type} (m : result A) (k : A -> result B) : result B :=
  match m with
  | Ok a => k a
  | Raise e => Raise e
  end.

Declare Scope py_scope.
Delimit Scope py_scope with py.
Notation "x <- m ;; k" := (bind m (fun x => k))
  (at level 61, m at next level, right associativity) : py_scope.
Notation "' pat <- m ;; k" := (bind m (fun x => match x with pat => k end))
  (at level 61, pat pattern, m at next level, right associativity) : py_scope.
Open Scope py_scope.

Definition exn_eqb (a b : exn) : bool :=
  match a, b with
  | IndexError, IndexError | KeyError, KeyError | TypeError, TypeError
  | AttributeError, AttributeError | ValueError, ValueError
  | OverflowError, OverflowError | JSONDecodeError, JSONDecodeError
  | RequestException, RequestException
  | UnicodeDecodeError, UnicodeDecodeError
  | RecursionError, RecursionError => true
  | SystemExit m, SystemExit n => Z.eqb m n
  | _, _ => false
  end.

Definition atrapa (clases : list exn) (e : exn) : bool :=
  existsb (exn_eqb e) clases.

(** ** The operations on values that the script uses *)

Module Py.

Fixpoint lookup (k : string) (d : list (string * pyval)) : option pyval :=
  match d with
  | [] => None
  | (k', v) :: d' => if String.eqb k k' then Some v else lookup k d'
  end.

(** [v.get(k, dflt)]: only a dict has the method. *)
Definition get (v : pyval) (k : string) (dflt : pyval) : result pyval :=
  match v with
  | PDict d => Ok (match lookup k d with Some x => x | None => dflt end)
  | _ => Raise AttributeError
  end.

(** [v[k]] with a string key. *)
Definition getitem (v : pyval) (k : string) : result pyval :=
  match v with
  | PDict d => match lookup k d with Some x => Ok x | None => Raise KeyError end
  | _ => Raise TypeError
  end.

Definition char_str (c : ascii) : pyval := PStr (String c EmptyString).

(** [v[0]]. *)
Definition getitem0 (v : pyval) : result pyval :=
  match v with
  | PList (x :: _) => Ok x
  | PList [] => Raise IndexError
  | PStr (String c _) => Ok (char_str c)
  | PStr EmptyString => Raise IndexError
  | PDict _ => Raise KeyError
  | _ => Raise TypeError
  end.

(** [v[:n]].  On a dict the slice is looked up as a key, which fails
    (with a [TypeError] up to Python 3.11, where a slice cannot be
    hashed). *)
Definition slice_to (n : nat) (v : pyval) : result pyval :=
  match v with
  | PStr s => Ok (PStr (substring 0 n s))
  | PList l => Ok (PList (firstn n l))
  | _ => Raise TypeError
  end.

(** [v[n:]]. *)
Definition slice_from (n : nat) (v : pyval) : result pyval :=
  match v with
  | PStr s => Ok (PStr (substring n (String.length s - n) s))
  | PList l => Ok (PList (skipn n l))
  | _ => Raise TypeError
  end.

Fixpoint chars (s : string) : list pyval :=
  match s with
  | EmptyString => []
  | String c s' => char_str c :: chars s'
  end.

(** What [for x in v] goes through. *)
Definition iter (v : pyval) : result (list pyval) :=
  match v with
  | PList l => Ok l
  | PDict d => Ok (map (fun kv => PStr (fst kv)) d)
  | PStr s => Ok (chars s)
  | _ => Raise TypeError
  end.

Definition Qzero (q : Q) : bool := Z.eqb (Qnum q) 0.

(** Truth value, as [if v] and [not v] see it. *)
Definition truthy (v : pyval) : bool :=
  match v with
  | PNone => false
  | PBool b => b
  | PInt z => negb (Z.eqb z 0)
  | PFloat (FFin q) => negb (Qzero q)
  | PFloat _ => true
  | PStr s => negb (String.eqb s "")
  | PList l => match l with [] => false | _ => true end
  | PDict d => match d with [] => false | _ => true end
  end.

Definition is_none (v : pyval) : bool :=
  match v with PNone => true | _ => false end.

Definition is_dict (v : pyval) : bool :=
  match v with PDict _ => true | _ => false end.

Definition is_list (v : pyval) : bool :=
  match v with PList _ => true | _ => false end.

(** [v == s] for a string [s]. *)
Definition eq_str (v : pyval) (s : string) : bool :=
  match v with
  | PStr s' => String.eqb s' s
  | _ => false
  end.

(** [v == n] for an integer [n]: numbers compare by value, and [True]
    and [False] are the integers 1 and 0. *)
Definition eq_int (v : pyval) (n : Z) : bool :=
  match v with
  | PInt z => Z.eqb z n
  | PBool b => Z.eqb (if b then 1 else 0) n
  | PFloat (FFin q) => Qeq_bool q (inject_Z n)
  | _ => false
  end.

(** *** [int(v)] *)

Definition is_space (c : ascii) : bool :=
  let n := nat_of_ascii c in
  ((9 <=? n) && (n <=? 13) || (28 <=? n) && (n <=? 32))%nat.

Definition digit (c : ascii) : option Z :=
  let n := nat_of_ascii c in
  if ((48 <=? n) && (n <=? 57))%nat then Some (Z.of_nat (n - 48)) else None.

Fixpoint lstrip (l : list ascii) : list ascii :=
  match l with
  | c :: l' => if is_space c then lstrip l' else l
  | [] => []
  end.

Definition strip (l : list ascii) : list ascii :=
  rev (lstrip (rev (lstrip l))).

(** Digits, with single underscores allowed between two digits.
    [prev] tells whether the previous character was a digit. *)
Fixpoint digits (l : list ascii) (acc : Z) (prev : bool) : option Z :=
  match l with
  | [] => if prev then Some acc else None
  | c :: l' =>
      match digit c with
      | Some d => digits l' (10 * acc + d) true
      | None =>
          if (Ascii.eqb c "_" && prev)%bool
          then match l' with
               | c' :: _ => match digit c' with
                            | Some _ => digits l' acc false
                            | None => None
                            end
               | [] => None
               end
          else None
      end
  end.

Definition n_digits (l : list ascii) : nat :=
  List.length (filter (fun c => match digit c with Some _ => true | None => false end) l).

(** [int(s)] for a string, in base 10: surrounding white space, an
    optional sign, digits, no more than 4300 of them (the limit of
    Python 3.11).  This is [int] on the strings of ASCII: the white space
    and the decimal digits that Unicode has beyond ASCII, which Python
    reads too, are not read here. *)
Definition int_of_str (s : string) : option Z :=
  match strip (list_ascii_of_string s) with
  | c :: l =>
      if (4300 <? n_digits (c :: l))%nat then None
      else if Ascii.eqb c "-" then option_map Z.opp (digits l 0 false)
      else if Ascii.eqb c "+" then digits l 0 false
      else digits (c :: l) 0 false
  | [] => None
  end.

Definition Qtrunc (q : Q) : Z := Z.quot (Qnum q) (Zpos (Qden q)).

Definition int (v : pyval) : result pyval :=
  match v with
  | PBool b => Ok (PInt (if b then 1 else 0))
  | PInt z => Ok (PInt z)
  | PFloat FNaN => Raise ValueError
  | PFloat (FInf _) => Raise OverflowError
  | PFloat (FFin q) => Ok (PInt (Qtrunc q))
  | PStr s => match int_of_str s with
              | Some z => Ok (PInt z)
              | None => Raise ValueError
              end
  | PNone | PList _ | PDict _ => Raise TypeError
  end.

End Py.

(** ** [_extraer_temp_dia] *)

(** The two local variables of the function.  The [try] block assigns
    them as it goes, and what was assigned when an exception interrupts
    the block stays assigned. *)
Record temps : Type := { t_min : pyval; t_max : pyval }.

(** A block of statements: the variables after it, and the exception that
    interrupted it, if one did. *)
Definition bloque : Type := (temps * option exn)%type.

(** The loop [for t in temps] over the period entries. *)
Fixpoint leer_periodos (ts : list pyval) (st : temps) : bloque :=
  match ts with
  | [] => (st, None)
  | t :: ts' =>
      match
        (desc <- Py.get t "descripcion" PNone ;;
         es_max <- (if Py.eq_str desc "Máxima" then Ok true
                    else per <- Py.get t "periodo" PNone ;; Ok (Py.eq_str per "00-24")) ;;
         st1 <- (if es_max : bool
                 then alt <- Py.get t "value" PNone ;;
                      v <- Py.get t "valor" alt ;;
                      Ok {| t_min := t_min st; t_max := v |}
                 else Ok st) ;;
         Ok st1)
      with
      | Raise e => (st, Some e)
      | Ok st1 =>
          match
            (desc <- Py.get t "descripcion" PNone ;;
             if Py.eq_str desc "Mínima"
             then alt <- Py.get t "value" PNone ;;
                  v <- Py.get t "valor" alt ;;
                  Ok {| t_min := v; t_max := t_max st1 |}
             else Ok st1)
          with
          | Raise e => (st1, Some e)
          | Ok st2 => leer_periodos ts' st2
          end
      end
  end.

(** The body of [if fecha_dia == fecha_objetivo:], up to the [break]. *)
Definition leer_dia (dia : pyval) (st : temps) : bloque :=
  match Py.get dia "temperatura" (PDict []) with
  | Raise e => (st, Some e)
  | Ok tmps =>
      match tmps with
      | PDict _ =>
          match Py.get tmps "maxima" PNone with
          | Raise e => (st, Some e)
          | Ok mx =>
              match Py.get tmps "minima" PNone with
              | Raise e => ({| t_min := t_min st; t_max := mx |}, Some e)
              | Ok mn => ({| t_min := mn; t_max := mx |}, None)
              end
          end
      | PList ts => leer_periodos ts st
      | _ => (st, None)
      end
  end.

(** The loop [for dia in dias], which stops at the first day whose date
    is the target. *)
Fixpoint buscar_dia (dias : list pyval) (fecha_objetivo : string) (st : temps)
  : bloque :=
  match dias with
  | [] => (st, None)
  | dia :: dias' =>
      match (f <- Py.get dia "fecha" (PStr "") ;; Py.slice_to 10 f) with
      | Raise e => (st, Some e)
      | Ok fecha_dia =>
          if Py.eq_str fecha_dia fecha_objetivo
          then leer_dia dia st
          else buscar_dia dias' fecha_objetivo st
      end
  end.

(** The fallback [if t_min is None and t_max is None and dias:]. *)
Definition primer_dia (dias : pyval) (st : temps) : bloque :=
  if (Py.is_none (t_min st) && Py.is_none (t_max st) && Py.truthy dias)%bool
  then
    match Py.getitem0 dias with
    | Raise e => (st, Some e)
    | Ok dia =>
        match Py.get dia "temperatura" (PDict []) with
        | Raise e => (st, Some e)
        | Ok tmps =>
            if Py.is_dict tmps
            then
              match Py.get tmps "maxima" PNone with
              | Raise e => (st, Some e)
              | Ok mx =>
                  match Py.get tmps "minima" PNone with
                  | Raise e => ({| t_min := t_min st; t_max := mx |}, Some e)
                  | Ok mn => ({| t_min := mn; t_max := mx |}, None)
                  end
              end
            else (st, None)
        end
    end
  else (st, None).

(** The body of the first [try]. *)
Definition extraer_bloque (datos : pyval) (fecha_objetivo : string) (st : temps)
  : bloque :=
  match
    (d0 <- Py.getitem0 datos ;;
     prediccion <- Py.get d0 "prediccion" (PDict []) ;;
     dias <- Py.get prediccion "dia" (PList []) ;;
     l <- Py.iter dias ;;
     Ok (dias, l))
  with
  | Raise e => (st, Some e)
  | Ok (dias, l) =>
      match buscar_dia l fecha_objetivo st with
      | (st1, Some e) => (st1, Some e)
      | (st1, None) => primer_dia dias st1
      end
  end.

(** [try: x = int(x) if x is not None else None
     except (ValueError, TypeError): pass] *)
Definition a_entero (x : pyval) : result pyval :=
  if Py.is_none x then Ok PNone
  else match Py.int x with
       | Ok i => Ok i
       | Raise e => if atrapa [ValueError; TypeError] e then Ok x else Raise e
       end.

Definition _extraer_temp_dia (datos : pyval) (fecha_objetivo : string)
  : result (pyval * pyval) :=
  let st0 := {| t_min := PNone; t_max := PNone |} in
  st <- (match extraer_bloque datos fecha_objetivo st0 with
         | (st, None) => Ok st
         | (st, Some e) =>
             if atrapa [IndexError; KeyError; TypeError] e then Ok st else Raise e
         end) ;;
  mn <- a_entero (t_min st) ;;
  mx <- a_entero (t_max st) ;;
  Ok (mn, mx).

(** ** Dates

    [datetime.now()] gives a calendar date (and a time of day); the script
    only formats it with [strftime] and subtracts a whole number of days
    from it. *)

Module Fecha.

Record t : Type := { anio : nat; mes : nat; dia : nat }.

Definition bisiesto (y : nat) : bool :=
  ((y mod 4 =? 0) && (negb (y mod 100 =? 0) || (y mod 400 =? 0)))%nat.

Definition dias_mes (y m : nat) : nat :=
  match m with
  | 2 => if bisiesto y then 29 else 28
  | 4 | 6 | 9 | 11 => 30
  | _ => 31
  end%nat.


(** The day before. *)
Definition anterior (f : t) : t :=
  if (dia f <=? 1)%nat
  then if (mes f <=? 1)%nat
       then {| anio := anio f - 1; mes := 12; dia := 31 |}
       else {| anio := anio f; mes := mes f - 1;
               dia := dias_mes (anio f) (mes f - 1) |}
  else {| anio := anio f; mes := mes f; dia := dia f - 1 |}.

(** [n] days before. *)
Definition restar (f : t) (n : nat) : t := Nat.iter n anterior f.

(** [f - timedelta(days=n)]: a date before year 1 does not exist. *)
Definition menos_dias (f : t) (n : nat) : result t :=
  let g := restar f n in
  if (anio g =? 0)%nat then Raise OverflowError else Ok g.

(** Chronological order. *)
Definition antes (f g : t) : Prop :=
  (anio f < anio g
   \/ (anio f = anio g
       /\ (mes f < mes g \/ (mes f = mes g /\ dia f < dia g))))%nat.

Definition digito (n : nat) : ascii := ascii_of_nat (48 + n mod 10).

Definition dos (n : nat) : string :=
  String (digito (n / 10)) (String (digito n) EmptyString).

Definition cuatro (n : nat) : string := dos (n / 100) ++ dos (n mod 100).

(** [strftime("%Y-%m-%d")], the year on four digits, which is what every
    platform prints from the year 1000 on. *)
Definition iso (f : t) : string :=
  cuatro (anio f) ++ "-" ++ dos (mes f) ++ "-" ++ dos (dia f).

(** The fields fit the columns of the format. *)
Definition cabe (f : t) : Prop :=
  (anio f < 100 * 100 /\ mes f < 100 /\ dia f < 100)%nat.

(** Two comparisons, the first one deciding unless it is [Eq]. *)
Definition lex (c d : comparison) : comparison :=
  match c with Eq => d | _ => c end.

End Fecha.

(** The reading of [datetime.now()]: a date and the time of day. *)
Record datetime : Type := { fecha_de : Fecha.t; hora : nat; minuto : nat }.

(** [strftime("%Y-%m-%d %H:%M")]. *)
Definition iso_minuto (a : datetime) : string :=
  Fecha.iso (fecha_de a) ++ " " ++ Fecha.dos (hora a) ++ ":" ++ Fecha.dos (minuto a).

(** ** The world outside the script *)

(** The text of an HTTP body or of a file, as the reader sees it: text
    that is not JSON, on which [json] raises its decode error; text that
    parses to a value; or a content on which reading or parsing raises
    another exception [e], which no handler of the script names (a file
    that is not UTF-8 raises [UnicodeDecodeError], an integer of more than
    4300 digits a plain [ValueError], nesting beyond the recursion limit
    [RecursionError]). *)
Inductive texto : Type :=
| Ilegible
| Json (v : pyval)
| Rompe (e : exn).

(** What one call of [requests.get] comes to: it raises a
    [RequestException], or it returns a response. *)
Inductive respuesta : Type :=
| FalloRed
| Respuesta (status_code : Z) (cuerpo : texto).

Inductive endpoint : Type :=
| Maestro
| Diaria (cod : pyval).

Inductive peticion : Type :=
| PedirMeta (e : endpoint)
| PedirDatos (url : pyval).

(** What the run does not change. *)
Record mundo : Type := {
  red : nat -> respuesta;        (* the n-th call of requests.get *)
  reloj : nat -> Q;              (* the n-th call of time.time() *)
  calendario : nat -> datetime;  (* the n-th reading of datetime.now() *)
  requests_json_error : bool;    (* resp.json() raises requests' own
                                    JSONDecodeError, a RequestException *)
  env_key : string;              (* AEMET_API_KEY, empty when unset *)
  key_file : option string       (* aemet_api_key.txt *)
}.

(** What the run changes. *)
Record estado : Type := {
  n_red : nat;
  n_reloj : nat;
  n_calendario : nat;
  pedidos : list peticion;       (* requests sent, the last one first *)
  dormido : list Q;              (* time.sleep calls, the last one first *)
  cache_file : option texto;     (* municipios_cache.json *)
  json_file : option texto       (* data.json *)
}.

(** A statement that may raise and may change the state. *)
Definition accion (A : Type) : Type := estado -> result A * estado.

Definition ret {A : Type} (a : A) : accion A := fun s => (Ok a, s).

Definition raise {A : Type} (e : exn) : accion A := fun s => (Raise e, s).

Definition seguir {A B : Type} (m : accion A) (k : A -> accion B) : accion B :=
  fun s => match m s with
           | (Ok a, s') => k a s'
           | (Raise e, s') => (Raise e, s')
           end.

Definition puro {A : Type} (r : result A) : accion A := fun s => (r, s).

Declare Scope accion_scope.
Delimit Scope accion_scope with accion.
Notation "x <-- m ;;; k" := (seguir m (fun x => k))
  (at level 61, m at next level, right associativity) : accion_scope.
Notation "m ;;; k" := (seguir m (fun _ => k))
  (at level 61, right associativity) : accion_scope.
Open Scope accion_scope.

Definition sleep (d : Q) : accion unit :=
  fun s => (Ok tt, {| n_red := n_red s; n_reloj := n_reloj s;
                      n_calendario := n_calendario s; pedidos := pedidos s;
                      dormido := d :: dormido s;
                      cache_file := cache_file s; json_file := json_file s |}).

Definition time_time (w : mundo) : accion Q :=
  fun s => (Ok (reloj w (n_reloj s)),
            {| n_red := n_red s; n_reloj := S (n_reloj s);
               n_calendario := n_calendario s; pedidos := pedidos s;
               dormido := dormido s;
               cache_file := cache_file s; json_file := json_file s |}).

Definition datetime_now (w : mundo) : accion datetime :=
  fun s => (Ok (calendario w (n_calendario s)),
            {| n_red := n_red s; n_reloj := n_reloj s;
               n_calendario := S (n_calendario s); pedidos := pedidos s;
               dormido := dormido s;
               cache_file := cache_file s; json_file := json_file s |}).

(** [requests.get]: the request is sent and the world answers. *)
Definition requests_get (w : mundo) (p : peticion) : accion (Z * texto) :=
  fun s =>
    let s' := {| n_red := S (n_red s); n_reloj := n_reloj s;
                 n_calendario := n_calendario s; pedidos := p :: pedidos s;
                 dormido := dormido s;
                 cache_file := cache_file s; json_file := json_file s |} in
    match red w (n_red s) with
    | FalloRed => (Raise RequestException, s')
    | Respuesta st c => (Ok (st, c), s')
    end.

(** The two files: absent, or their text. *)
Definition read_cache : accion (option texto) := fun s => (Ok (cache_file s), s).

Definition read_json : accion (option texto) := fun s => (Ok (json_file s), s).

Definition write_cache (v : pyval) : accion unit :=
  fun s => (Ok tt, {| n_red := n_red s; n_reloj := n_reloj s;
                      n_calendario := n_calendario s; pedidos := pedidos s;
                      dormido := dormido s;
                      cache_file := Some (Json v); json_file := json_file s |}).

(** The write of the data file replaces its content.  The values that the
    script writes are those it read from JSON and the integers it made of
    them, which [json.dump] serialises; a failure of the disk during the
    write is outside the model, so the write returns. *)
Definition write_json (v : pyval) : accion unit :=
  fun s => (Ok tt, {| n_red := n_red s; n_reloj := n_reloj s;
                      n_calendario := n_calendario s; pedidos := pedidos s;
                      dormido := dormido s;
                      cache_file := cache_file s; json_file := Some (Json v) |}).

(** ** [aemet_request] *)

(** The exception of [resp.json()] on a body that is not JSON. *)
Inductive fallo : Type :=
| Excepcion (e : exn)
| JSONDeRequests.    (* a RequestException and a json.JSONDecodeError at once *)

Definition resp_json (w : mundo) (c : texto) : pyval + fallo :=
  match c with
  | Json v => inl v
  | Ilegible => inr (if requests_json_error w then JSONDeRequests
                     else Excepcion JSONDecodeError)
  | Rompe e => inr (Excepcion e)
  end.

(** How one pass of the loop body ends. *)
Inductive paso : Type :=
| Continue
| Return (v : pyval)
| Propaga (e : exn).

(** The [try] block of one attempt, before its [except] clauses. *)
Definition intento_try (w : mundo) (e : endpoint) (attempt : nat)
  : estado -> (paso + fallo) * estado :=
  fun s =>
    match requests_get w (PedirMeta e) s with
    | (Raise x, s1) => (inr (Excepcion x), s1)
    | (Ok (status, cuerpo), s1) =>
        if status =? 429
        then (inl Continue, snd (sleep (30 * (inject_Z (Z.of_nat attempt) + 1)) s1))
        else if negb (status =? 200) then (inl (Return PNone), s1)
        else
          match resp_json w cuerpo with
          | inr f => (inr f, s1)
          | inl meta =>
              match Py.get meta "estado" PNone with
              | Raise x => (inr (Excepcion x), s1)
              | Ok estado_ =>
                  if negb (Py.eq_int estado_ 200) then (inl (Return PNone), s1)
                  else
                    match Py.get meta "datos" PNone with
                    | Raise x => (inr (Excepcion x), s1)
                    | Ok datos_url =>
                        if negb (Py.truthy datos_url) then (inl (Return PNone), s1)
                        else
                          match requests_get w (PedirDatos datos_url) s1 with
                          | (Raise x, s2) => (inr (Excepcion x), s2)
                          | (Ok (status2, cuerpo2), s2) =>
                              if negb (status2 =? 200) then (inl (Return PNone), s2)
                              else match resp_json w cuerpo2 with
                                   | inr f => (inr f, s2)
                                   | inl v => (inl (Return v), s2)
                                   end
                          end
                    end
              end
          end
    end.

Definition es_request_exception (f : fallo) : bool :=
  match f with
  | JSONDeRequests => true
  | Excepcion RequestException => true
  | Excepcion _ => false
  end.

Definition es_json_decode_error (f : fallo) : bool :=
  match f with
  | JSONDeRequests => true
  | Excepcion JSONDecodeError => true
  | Excepcion _ => false
  end.

Definition exn_de (f : fallo) : exn :=
  match f with
  | Excepcion e => e
  | JSONDeRequests => JSONDecodeError
  end.

(** One attempt: the [try] block and its two [except] clauses. *)
Definition intento (w : mundo) (e : endpoint) (max_retries attempt : nat)
  : estado -> paso * estado :=
  fun s =>
    match intento_try w e attempt s with
    | (inl p, s1) => (p, s1)
    | (inr f, s1) =>
        if es_request_exception f
        then if (S attempt <? max_retries)%nat
             then (Continue, snd (sleep 5 s1))
             else (Return PNone, s1)
        else if es_json_decode_error f then (Return PNone, s1)
        else (Propaga (exn_de f), s1)
    end.

(** [for attempt in range(max_retries)], from [attempt] on, with
    [quedan] attempts left. *)
Fixpoint intentos (w : mundo) (e : endpoint) (max_retries : nat)
  (quedan attempt : nat) : accion pyval :=
  fun s =>
    match quedan with
    | O => (Ok PNone, s)
    | S quedan' =>
        match intento w e max_retries attempt s with
        | (Continue, s1) => intentos w e max_retries quedan' (S attempt) s1
        | (Return v, s1) => (Ok v, s1)
        | (Propaga x, s1) => (Raise x, s1)
        end
    end.

Definition aemet_request (w : mundo) (e : endpoint) (max_retries : nat)
  : accion pyval :=
  intentos w e max_retries max_retries 0.

(** ** The tables of the script *)

Definition PROVINCIAS : list (string * string) :=
  [ ("01", "Álava"); ("02", "Albacete"); ("03", "Alicante"); ("04", "Almería");
    ("05", "Ávila"); ("06", "Badajoz"); ("07", "Baleares"); ("08", "Barcelona");
    ("09", "Burgos"); ("10", "Cáceres"); ("11", "Cádiz"); ("12", "Castellón");
    ("13", "Ciudad Real"); ("14", "Córdoba"); ("15", "A Coruña"); ("16", "Cuenca");
    ("17", "Girona"); ("18", "Granada"); ("19", "Guadalajara"); ("20", "Gipuzkoa");
    ("21", "Huelva"); ("22", "Huesca"); ("23", "Jaén"); ("24", "León");
    ("25", "Lleida"); ("26", "La Rioja"); ("27", "Lugo"); ("28", "Madrid");
    ("29", "Málaga"); ("30", "Murcia"); ("31", "Navarra"); ("32", "Ourense");
    ("33", "Asturias"); ("34", "Palencia"); ("35", "Las Palmas"); ("36", "Pontevedra");
    ("37", "Salamanca"); ("38", "S.C. Tenerife"); ("39", "Cantabria"); ("40", "Segovia");
    ("41", "Sevilla"); ("42", "Soria"); ("43", "Tarragona"); ("44", "Teruel");
    ("45", "Toledo"); ("46", "Valencia"); ("47", "Valladolid"); ("48", "Bizkaia");
    ("49", "Zamora"); ("50", "Zaragoza"); ("51", "Ceuta"); ("52", "Melilla") ].

Definition CAPITALES_CODIGOS : list string :=
  [ "15030"; "02003"; "03014"; "04013"; "01059"; "33044"; "05019"; "06015";
    "07040"; "08019"; "48020"; "09059"; "10037"; "11012"; "39075"; "12040";
    "51001"; "13034"; "14021"; "16078"; "20069"; "17079"; "18087"; "19130";
    "21041"; "22125"; "23050"; "24089"; "25120"; "27028"; "28079"; "29067";
    "52001"; "30030"; "31201"; "32054"; "34120"; "35016"; "36038"; "26089";
    "37274"; "38038"; "40194"; "41091"; "42173"; "43148"; "44216"; "45168";
    "46250"; "47186"; "49275"; "50297" ].

(** ** [obtener_municipios] *)

(** An entry of the directory, as the function builds it from the master
    list: the dict literal with the keys [codigo], [nombre], [habitantes],
    [altitud] and [es_capital]. *)
Module Mun.

Record t : Type := {
  codigo : string;
  nombre : pyval;
  habitantes : Z;
  altitud : Z;
  es_capital : bool
}.

Definition a_py (m : t) : pyval :=
  PDict [ ("codigo", PStr (codigo m)); ("nombre", nombre m);
          ("habitantes", PInt (habitantes m)); ("altitud", PInt (altitud m));
          ("es_capital", PBool (es_capital m)) ].

(** [l.sort(key=lambda m: m["habitantes"], reverse=True)]: by population,
    the larger first; the sort is stable, so entries of equal population
    keep their order. *)
Fixpoint insertar (m : t) (l : list t) : list t :=
  match l with
  | [] => [m]
  | m' :: l' =>
      if habitantes m' <=? habitantes m then m :: l
      else m' :: insertar m l'
  end.

Definition ordenar (l : list t) : list t := fold_right insertar [] l.

(** The directory: province name to entries, in the order in which the
    provinces were first met. *)
Definition directorio : Type := list (string * list t).

(** [provincias[prov].append(m)] on a [defaultdict(list)]. *)
Fixpoint agregar (prov : string) (m : t) (d : directorio) : directorio :=
  match d with
  | [] => [(prov, [m])]
  | (p, l) :: d' =>
      if String.eqb prov p then (p, (l ++ [m])%list) :: d'
      else (p, l) :: agregar prov m d'
  end.

Definition dir_a_py (d : directorio) : pyval :=
  PDict (map (fun pl => (fst pl, PList (map a_py (snd pl)))) d).

(** The entries of a province that capitals-only mode keeps, on the
    entries themselves: the flagged ones, or else the first one. *)
Definition elegidos (l : list t) : list t :=
  match filter es_capital l with
  | [] => firstn 1 l
  | c => c
  end.

(** By population, the larger first. *)
Definition descendente (l : list t) : Prop :=
  StronglySorted (fun a b => habitantes b <= habitantes a) l.

End Mun.

Fixpoint tabla (k : string) (t : list (string * string)) : option string :=
  match t with
  | [] => None
  | (k', v) :: t' => if String.eqb k k' then Some v else tabla k t'
  end.

(** [x or "0"]. *)
Definition o_cero (x : pyval) : pyval :=
  if Py.truthy x then x else PStr "0".

Definition entero (v : pyval) : result Z :=
  i <- Py.int v ;;
  match i with
  | PInt z => Ok z
  | _ => Raise TypeError
  end.

(** The body of [for mun in datos]: the directory with the entry of [mun]
    added, or as it was when [mun] is skipped.  The slices [[2:]] and
    [[:2]] count bytes, which are the characters in an ["id"] of ASCII. *)
Definition agrupar_uno (mun : pyval) (provincias : Mun.directorio)
  : result Mun.directorio :=
  mun_id <- Py.get mun "id" (PStr "") ;;
  match mun_id with
  | PStr id =>
      if negb (String.prefix "id" id) then Ok provincias
      else
        let cod_completo := substring 2 (String.length id - 2) id in
        let cod_prov := substring 0 2 cod_completo in
        let nombre_prov :=
          match tabla cod_prov PROVINCIAS with
          | Some n => n
          | None => "Provincia " ++ cod_prov
          end in
        nom <- Py.get mun "nombre" (PStr "") ;;
        nh <- Py.get mun "num_hab" (PStr "0") ;;
        hab <- entero (o_cero nh) ;;
        al <- Py.get mun "altitud" (PStr "0") ;;
        alt <- entero (o_cero al) ;;
        Ok (Mun.agregar nombre_prov
              {| Mun.codigo := cod_completo; Mun.nombre := nom;
                 Mun.habitantes := hab; Mun.altitud := alt;
                 Mun.es_capital := existsb (String.eqb cod_completo) CAPITALES_CODIGOS |}
              provincias)
  | _ => Raise AttributeError    (* no [startswith] *)
  end.

Fixpoint agrupar (datos : list pyval) (provincias : Mun.directorio)
  : result Mun.directorio :=
  match datos with
  | [] => Ok provincias
  | mun :: datos' =>
      p <- agrupar_uno mun provincias ;;
      agrupar datos' p
  end.

Definition total_de (d : Mun.directorio) : Z :=
  fold_right (fun pl n => Z.of_nat (List.length (snd pl)) + n) 0 d.

(** [json.loads] of the text of a file: the value, or the exception that
    reading and parsing it raises. *)
Definition json_loads (t : texto) : result pyval :=
  match t with
  | Json v => Ok v
  | Ilegible => Raise JSONDecodeError
  | Rompe e => Raise e
  end.

(** [try: ... except (json.JSONDecodeError, KeyError): pass] around a block
    that returns [Some v] when it reaches its [return]. *)
Definition o_pass (m : accion (option pyval)) : accion (option pyval) :=
  fun s =>
    match m s with
    | (Raise e, s') =>
        if atrapa [JSONDecodeError; KeyError] e then (Ok None, s') else (Raise e, s')
    | r => r
    end.

(** The first block: the cache of today, if there is one.  [Some v] is the
    [return] inside the [try]; [None] is falling through to the download. *)
Definition cache_de_hoy (w : mundo) : accion (option pyval) :=
  f <-- read_cache ;;;
  match f with
  | None => ret None
  | Some t =>
      o_pass
        (cache <-- puro (json_loads t) ;;;
         fecha <-- puro (Py.get cache "fecha" PNone) ;;;
         ahora <-- datetime_now w ;;;
         if Py.eq_str fecha (Fecha.iso (fecha_de ahora))
         then p <-- puro (Py.getitem cache "provincias") ;;; ret (Some p)
         else ret None)
  end.

(** The branch [if not datos:]: the old cache, or nothing. *)
Definition cache_antigua : accion pyval :=
  f <-- read_cache ;;;
  match f with
  | Some t =>
      cache <-- puro (json_loads t) ;;;
      puro (Py.get cache "provincias" (PDict []))
  | None => ret (PDict [])
  end.

Definition obtener_municipios (w : mundo) : accion pyval :=
  c <-- cache_de_hoy w ;;;
  match c with
  | Some p => ret p
  | None =>
      datos <-- aemet_request w Maestro 3 ;;;
      if negb (Py.truthy datos) then cache_antigua
      else
        l <-- puro (Py.iter datos) ;;;
        g <-- puro (agrupar l []) ;;;
        let provincias := map (fun pl => (fst pl, Mun.ordenar (snd pl))) g in
        ahora <-- datetime_now w ;;;
        write_cache
          (PDict [ ("fecha", PStr (Fecha.iso (fecha_de ahora)));
                   ("total", PInt (total_de provincias));
                   ("provincias", Mun.dir_a_py provincias) ]) ;;;
        ret (Mun.dir_a_py provincias)
  end.

(** ** The records of the collection *)

(** The dict literal that both collection functions append, with the keys
    [municipio], [codigo], [provincia], [habitantes], [es_capital],
    [t_min], [t_max] and [fecha]. *)
Module Lec.

Record t : Type := {
  municipio : pyval;
  codigo : pyval;
  provincia : string;
  habitantes : pyval;
  es_capital : pyval;
  t_min : pyval;
  t_max : pyval;
  fecha : string
}.

(** What the collection returns: province name to records. *)
Definition por_provincia : Type := list (string * list t).

(** [resultados[prov]]. *)
Fixpoint buscar (prov : string) (r : por_provincia) : option (list t) :=
  match r with
  | [] => None
  | (p, l) :: r' => if String.eqb prov p then Some l else buscar prov r'
  end.

(** [resultados[prov] = datos_prov]. *)
Fixpoint poner (prov : string) (l : list t) (r : por_provincia) : por_provincia :=
  match r with
  | [] => [(prov, l)]
  | (p, l') :: r' =>
      if String.eqb prov p then (p, l) :: r'
      else (p, l') :: poner prov l r'
  end.

End Lec.

(** [sorted] on the items (or the keys) of a dict: by key, as strings. *)
Fixpoint insertar_item {A : Type} (kv : string * A) (l : list (string * A))
  : list (string * A) :=
  match l with
  | [] => [kv]
  | kv' :: l' =>
      if String.leb (fst kv) (fst kv') then kv :: l
      else kv' :: insertar_item kv l'
  end.

Definition sorted_items {A : Type} (d : list (string * A)) : list (string * A) :=
  fold_right insertar_item [] d.

(** [v.items()]. *)
Definition items (v : pyval) : result (list (string * pyval)) :=
  match v with
  | PDict d => Ok d
  | _ => Raise AttributeError
  end.

(** ** [obtener_temperaturas_capitales] *)

(** [[m for m in municipios if m["es_capital"]]]. *)
Fixpoint filtrar_capitales (l : list pyval) : result (list pyval) :=
  match l with
  | [] => Ok []
  | m :: l' =>
      c <- Py.getitem m "es_capital" ;;
      r <- filtrar_capitales l' ;;
      Ok (if Py.truthy c then m :: r else r)
  end.

(** The municipalities of a province that capitals-only mode asks for. *)
Definition seleccion (municipios : pyval) : result (list pyval) :=
  l <- Py.iter municipios ;;
  capitales <- filtrar_capitales l ;;
  match capitales with
  | [] => s <- Py.slice_to 1 municipios ;; Py.iter s
  | _ => Ok capitales
  end.

(** The body of [for mun in capitales]. *)
Definition capital_una (w : mundo) (hoy : string) (nombre_prov : string)
  (mun : pyval) : accion Lec.t :=
  cod <-- puro (Py.getitem mun "codigo") ;;;
  datos <-- aemet_request w (Diaria cod) 3 ;;;
  par <-- puro (if Py.truthy datos then _extraer_temp_dia datos hoy
                else Ok (PNone, PNone)) ;;;
  nom <-- puro (Py.getitem mun "nombre") ;;;
  hab <-- puro (Py.getitem mun "habitantes") ;;;
  sleep (3 # 10) ;;;
  ret {| Lec.municipio := nom; Lec.codigo := cod; Lec.provincia := nombre_prov;
         Lec.habitantes := hab; Lec.es_capital := PBool true;
         Lec.t_min := fst par; Lec.t_max := snd par; Lec.fecha := hoy |}.

Fixpoint capitales_de (w : mundo) (hoy : string) (nombre_prov : string)
  (capitales : list pyval) : accion (list Lec.t) :=
  match capitales with
  | [] => ret []
  | mun :: rest =>
      r <-- capital_una w hoy nombre_prov mun ;;;
      rs <-- capitales_de w hoy nombre_prov rest ;;;
      ret (r :: rs)
  end.

(** The loop over the provinces, [resultados] being threaded through. *)
Fixpoint capitales_provincias (w : mundo) (hoy : string)
  (provs : list (string * pyval)) (resultados : Lec.por_provincia)
  : accion Lec.por_provincia :=
  match provs with
  | [] => ret resultados
  | (nombre_prov, municipios) :: provs' =>
      capitales <-- puro (seleccion municipios) ;;;
      datos_prov <-- capitales_de w hoy nombre_prov capitales ;;;
      capitales_provincias w hoy provs' (Lec.poner nombre_prov datos_prov resultados)
  end.

Definition obtener_temperaturas_capitales (w : mundo) : accion Lec.por_provincia :=
  ahora <-- datetime_now w ;;;
  let hoy := Fecha.iso (fecha_de ahora) in
  provincias_mun <-- obtener_municipios w ;;;
  its <-- puro (items provincias_mun) ;;;
  capitales_provincias w hoy (sorted_items its) [].

(** ** [obtener_temperaturas_completo] *)

(** [s.lower()], on ASCII and on the accented capitals of Latin-1 (in
    UTF-8 the bytes [C3 80] to [C3 9E], the sign [C3 97] apart), which
    covers the province names. *)
Fixpoint lower_bytes (l : list nat) : list nat :=
  match l with
  | [] => []
  | c :: l' =>
      if ((65 <=? c) && (c <=? 90))%nat then (c + 32)%nat :: lower_bytes l'
      else if (c =? 195)%nat
           then match l' with
                | c2 :: l'' =>
                    if ((128 <=? c2) && (c2 <=? 158) && negb (c2 =? 151))%nat
                    then c :: (c2 + 32)%nat :: lower_bytes l''
                    else c :: c2 :: lower_bytes l''
                | [] => [c]
                end
           else c :: lower_bytes l'
  end.

Definition lower (s : string) : string :=
  string_of_list_ascii
    (map ascii_of_nat (lower_bytes (map nat_of_ascii (list_ascii_of_string s)))).

(** [a in b] for two strings. *)
Definition contiene (a b : string) : bool :=
  match String.index 0 a b with
  | Some _ => true
  | None => String.eqb a ""
  end.

Definition Qlt_bool (a b : Q) : bool := negb (Qle_bool b a).

(** [len(v)]. *)
Definition py_len (v : pyval) : result Z :=
  match v with
  | PList l => Ok (Z.of_nat (List.length l))
  | PDict d => Ok (Z.of_nat (List.length d))
  | PStr s => Ok (Z.of_nat (String.length s))
  | _ => Raise TypeError
  end.

Fixpoint suma_len (l : list (string * pyval)) : result Z :=
  match l with
  | [] => Ok 0
  | (_, v) :: l' => n <- py_len v ;; m <- suma_len l' ;; Ok (n + m)
  end.

(** The counters of the loop. *)
Record contador : Type := {
  batch_count : nat;
  batch_start : Q;
  procesados : nat;
  errores : nat
}.

(** The pause after every [BATCH_SIZE] municipalities. *)
Definition pausa_lote (w : mundo) (c : contador) : accion contador :=
  let bc := S (batch_count c) in
  if (22 <=? bc)%nat
  then
    t <-- time_time w ;;;
    let elapsed := (t - batch_start c)%Q in
    (if Qlt_bool elapsed 62%Q then sleep (62 - elapsed)%Q else ret tt) ;;;
    t' <-- time_time w ;;;
    ret {| batch_count := 0; batch_start := t';
           procesados := procesados c; errores := errores c |}
  else ret {| batch_count := bc; batch_start := batch_start c;
              procesados := procesados c; errores := errores c |}.

(** The body of [for mun in municipios]. *)
Definition completo_uno (w : mundo) (hoy : string) (nombre_prov : string)
  (mun : pyval) (c : contador) : accion (Lec.t * contador) :=
  cod <-- puro (Py.getitem mun "codigo") ;;;
  nombre <-- puro (Py.getitem mun "nombre") ;;;
  c1 <-- pausa_lote w c ;;;
  datos <-- aemet_request w (Diaria cod) 3 ;;;
  if negb (Py.truthy datos)
  then
    hab <-- puro (Py.getitem mun "habitantes") ;;;
    cap <-- puro (Py.getitem mun "es_capital") ;;;
    sleep (1 # 10) ;;;
    ret ({| Lec.municipio := nombre; Lec.codigo := cod; Lec.provincia := nombre_prov;
            Lec.habitantes := hab; Lec.es_capital := cap;
            Lec.t_min := PNone; Lec.t_max := PNone; Lec.fecha := hoy |},
         {| batch_count := batch_count c1; batch_start := batch_start c1;
            procesados := procesados c1; errores := S (errores c1) |})
  else
    par <-- puro (_extraer_temp_dia datos hoy) ;;;
    hab <-- puro (Py.getitem mun "habitantes") ;;;
    cap <-- puro (Py.getitem mun "es_capital") ;;;
    let p := S (procesados c1) in
    (if (p mod 100 =? 0)%nat then t <-- time_time w ;;; ret tt else ret tt) ;;;
    sleep (1 # 10) ;;;
    ret ({| Lec.municipio := nombre; Lec.codigo := cod; Lec.provincia := nombre_prov;
            Lec.habitantes := hab; Lec.es_capital := cap;
            Lec.t_min := fst par; Lec.t_max := snd par; Lec.fecha := hoy |},
         {| batch_count := batch_count c1; batch_start := batch_start c1;
            procesados := p; errores := errores c1 |}).

Fixpoint completo_de (w : mundo) (hoy : string) (nombre_prov : string)
  (municipios : list pyval) (c : contador) : accion (list Lec.t * contador) :=
  match municipios with
  | [] => ret ([], c)
  | mun :: rest =>
      rc <-- completo_uno w hoy nombre_prov mun c ;;;
      rs <-- completo_de w hoy nombre_prov rest (snd rc) ;;;
      ret (fst rc :: fst rs, snd rs)
  end.

Fixpoint completo_provincias (w : mundo) (hoy : string)
  (provs : list (string * pyval)) (c : contador) (resultados : Lec.por_provincia)
  : accion Lec.por_provincia :=
  match provs with
  | [] => ret resultados
  | (nombre_prov, municipios) :: provs' =>
      l <-- puro (Py.iter municipios) ;;;
      dc <-- completo_de w hoy nombre_prov l c ;;;
      completo_provincias w hoy provs' (snd dc)
        (Lec.poner nombre_prov (fst dc) resultados)
  end.

Definition obtener_temperaturas_completo (w : mundo)
  (filtro_provincia : option string) : accion Lec.por_provincia :=
  ahora <-- datetime_now w ;;;
  let hoy := Fecha.iso (fecha_de ahora) in
  provincias_mun <-- obtener_municipios w ;;;
  if negb (Py.truthy provincias_mun) then ret []
  else
    its <-- puro (items provincias_mun) ;;;
    let filtradas :=
      match filtro_provincia with
      | Some f =>
          if String.eqb f "" then its
          else filter (fun kv => contiene (lower f) (lower (fst kv))) its
      | None => its
      end in
    match filtradas with
    | [] => ret []
    | _ =>
        total_mun <-- puro (suma_len filtradas) ;;;
        inicio <-- time_time w ;;;
        batch_start0 <-- time_time w ;;;
        r <-- completo_provincias w hoy (sorted_items filtradas)
                {| batch_count := 0; batch_start := batch_start0;
                   procesados := 0; errores := 0 |} [] ;;;
        fin <-- time_time w ;;;
        ret r
    end.

(** ** [guardar_json] *)

Module Num.

(** The float of an integer; it has to fit. *)
Definition float_of_int (z : Z) : result pyfloat :=
  if Z.abs z <? 2 ^ 1024 then Ok (FFin (inject_Z z)) else Raise OverflowError.

Definition as_float (v : pyval) : option (result pyfloat) :=
  match v with
  | PBool b => Some (Ok (FFin (inject_Z (if b then 1 else 0))))
  | PInt z => Some (float_of_int z)
  | PFloat f => Some (Ok f)
  | _ => None
  end.

Definition as_int (v : pyval) : option Z :=
  match v with
  | PBool b => Some (if b then 1 else 0)
  | PInt z => Some z
  | _ => None
  end.

Definition fadd (a b : pyfloat) : pyfloat :=
  match a, b with
  | FNaN, _ | _, FNaN => FNaN
  | FInf s, FInf s' => if Bool.eqb s s' then FInf s else FNaN
  | FInf s, _ | _, FInf s => FInf s
  | FFin p, FFin q => FFin (Qred (p + q)%Q)
  end.

(** [a + b]. *)
Definition add (a b : pyval) : result pyval :=
  match as_int a, as_int b with
  | Some x, Some y => Ok (PInt (x + y))
  | _, _ =>
      match as_float a, as_float b with
      | Some fa, Some fb => x <- fa ;; y <- fb ;; Ok (PFloat (fadd x y))
      | _, _ =>
          match a, b with
          | PStr s, PStr s' => Ok (PStr (s ++ s'))
          | PList l, PList l' => Ok (PList (l ++ l'))
          | _, _ => Raise TypeError
          end
      end
  end.

(** [n / 2] for an integer [n]: the nearest float, which is [n/2] itself
    below 2^53; above, the integer is rounded to 53 bits, the tie to
    the even one. *)
Definition mitad (n : Z) : result pyfloat :=
  let a := Z.abs n in
  if a <? 2 ^ 53 then Ok (FFin (Qred (n # 2)))
  else
    let k := Z.log2 a + 1 - 53 in
    let q := a / 2 ^ k in
    let r := a mod 2 ^ k in
    let h := 2 ^ (k - 1) in
    let m := if r <? h then q
             else if h <? r then q + 1
             else if Z.even q then q else q + 1 in
    let v := m * 2 ^ (k - 1) in
    if 2 ^ 1024 <=? v then Raise OverflowError
    else Ok (FFin (inject_Z (Z.sgn n * v))).

(** [x / 2]. *)
Definition div2 (x : pyval) : result pyval :=
  match x with
  | PBool b => f <- mitad (if b then 1 else 0) ;; Ok (PFloat f)
  | PInt n => f <- mitad n ;; Ok (PFloat f)
  | PFloat (FFin q) => Ok (PFloat (FFin (Qred (q / 2)%Q)))
  | PFloat f => Ok (PFloat f)
  | _ => Raise TypeError
  end.

(** The integer nearest to [q], the tie to the even one. *)
Definition redondeo (q : Q) : Z :=
  let f := Qfloor q in
  let d := (q - inject_Z f)%Q in
  if Qlt_bool d (1 # 2)%Q then f
  else if Qlt_bool (1 # 2)%Q d then f + 1
  else if Z.even f then f else f + 1.

(** [round(x, 1)]: a float goes to the nearest tenth, an integer stays. *)
Definition round1 (x : pyval) : result pyval :=
  match x with
  | PFloat (FFin q) => Ok (PFloat (FFin (Qred (redondeo (q * 10)%Q # 10)%Q)))
  | PFloat f => Ok (PFloat f)
  | PInt z => Ok (PInt z)
  | PBool b => Ok (PInt (if b then 1 else 0))
  | _ => Raise TypeError
  end.

End Num.

(** [round((t_min + t_max) / 2, 1) if t_min is not None and t_max is not
    None else None]. *)
Definition media_de (t_min t_max : pyval) : result pyval :=
  if (negb (Py.is_none t_min) && negb (Py.is_none t_max))%bool
  then s <- Num.add t_min t_max ;; h <- Num.div2 s ;; Num.round1 h
  else Ok PNone.

(** The record appended to [registros_hoy]. *)
Definition registro_hoy (nombre_prov : string) (d : Lec.t) : result pyval :=
  media <- media_de (Lec.t_min d) (Lec.t_max d) ;;
  Ok (PDict [ ("nombre", Lec.municipio d); ("codigo", Lec.codigo d);
              ("provincia", PStr nombre_prov); ("hab", Lec.habitantes d);
              ("min", Lec.t_min d); ("max", Lec.t_max d); ("media", media);
              ("fecha", PStr (Lec.fecha d)); ("capital", Lec.es_capital d) ]).

Fixpoint registros_prov (nombre_prov : string) (datos : list Lec.t)
  : result (list pyval) :=
  match datos with
  | [] => Ok []
  | d :: datos' =>
      r <- registro_hoy nombre_prov d ;;
      rs <- registros_prov nombre_prov datos' ;;
      Ok (r :: rs)
  end.

(** Step 4: today's records, province after province. *)
Fixpoint registros_hoy (datos_por_provincia : Lec.por_provincia)
  : result (list pyval) :=
  match datos_por_provincia with
  | [] => Ok []
  | (nombre_prov, datos) :: resto =>
      rs <- registros_prov nombre_prov datos ;;
      rs' <- registros_hoy resto ;;
      Ok (rs ++ rs')%list
  end.

(** Step 1: the records of the file, [[]] when there is no file or it is
    not JSON. *)
Definition cargar_existentes (f : option texto) : result pyval :=
  match f with
  | None => Ok (PList [])
  | Some t =>
      match (data_anterior <- json_loads t ;;
             Py.get data_anterior "registros" (PList [])) with
      | Ok v => Ok v
      | Raise e =>
          if atrapa [JSONDecodeError; KeyError] e then Ok (PList []) else Raise e
      end
  end.

(** Step 2: [[r for r in registros if r.get("fecha") != hoy]]. *)
Fixpoint quitar_hoy (hoy : string) (l : list pyval) : result (list pyval) :=
  match l with
  | [] => Ok []
  | r :: l' =>
      f <- Py.get r "fecha" PNone ;;
      rs <- quitar_hoy hoy l' ;;
      Ok (if negb (Py.eq_str f hoy) then r :: rs else rs)
  end.

(** [v >= s] for a string [s]: only strings compare with strings. *)
Definition ge_str (v : pyval) (s : string) : result bool :=
  match v with
  | PStr a => Ok (String.leb s a)
  | _ => Raise TypeError
  end.

(** Step 3: [[r for r in registros if r.get("fecha", "") >= fecha_limite]]. *)
Fixpoint podar (fecha_limite : string) (l : list pyval) : result (list pyval) :=
  match l with
  | [] => Ok []
  | r :: l' =>
      f <- Py.get r "fecha" (PStr "") ;;
      b <- ge_str f fecha_limite ;;
      rs <- podar fecha_limite l' ;;
      Ok (if b : bool then r :: rs else rs)
  end.

(** [[r[k] for r in l]]. *)
Fixpoint columna (k : string) (l : list pyval) : result (list pyval) :=
  match l with
  | [] => Ok []
  | r :: l' => v <- Py.getitem r k ;; vs <- columna k l' ;; Ok (v :: vs)
  end.

Definition hashable (v : pyval) : bool :=
  match v with
  | PList _ | PDict _ => false
  | _ => true
  end.

Definition float_eqb (a b : pyfloat) : bool :=
  match a, b with
  | FNaN, FNaN => true      (* json.loads has a single NaN object *)
  | FInf s, FInf s' => Bool.eqb s s'
  | FFin p, FFin q => Qeq_bool p q
  | _, _ => false
  end.

(** [a == b] on numbers: by value; [True] and [False] are 1 and 0. *)
Definition num_eqb (a b : pyval) : bool :=
  match Num.as_int a, Num.as_int b with
  | Some x, Some y => Z.eqb x y
  | Some x, None =>
      match b with PFloat (FFin q) => Qeq_bool q (inject_Z x) | _ => false end
  | None, Some y =>
      match a with PFloat (FFin q) => Qeq_bool q (inject_Z y) | _ => false end
  | None, None =>
      match a, b with PFloat x, PFloat y => float_eqb x y | _, _ => false end
  end.

(** Equality of two hashable values, as a set sees it. *)
Definition eq_hash (a b : pyval) : bool :=
  match a, b with
  | PNone, PNone => true
  | PStr s, PStr s' => String.eqb s s'
  | _, _ => num_eqb a b
  end.

(** [set(l)], each value once. *)
Fixpoint distintos (l : list pyval) : list pyval :=
  match l with
  | [] => []
  | v :: l' =>
      let r := distintos l' in
      if existsb (eq_hash v) r then r else v :: r
  end.

Definition py_set (l : list pyval) : result (list pyval) :=
  if forallb hashable l then Ok (distintos l) else Raise TypeError.

Fixpoint insertar_str (s : string) (l : list string) : list string :=
  match l with
  | [] => [s]
  | s' :: l' => if String.leb s s' then s :: l else s' :: insertar_str s l'
  end.

Fixpoint cadenas (l : list pyval) : option (list string) :=
  match l with
  | [] => Some []
  | PStr s :: l' => option_map (cons s) (cadenas l')
  | _ :: _ => None
  end.

(** [sorted] on a set of strings.  The dates of the retained records are
    strings (see [fechas_son_cadenas] below); [sorted] on other values is
    not modelled. *)
Definition sorted_str (l : list pyval) : result (list string) :=
  match cadenas l with
  | Some ss => Ok (fold_right insertar_str [] ss)
  | None => Raise TypeError
  end.

Definition guardar_json (w : mundo) (datos_por_provincia : Lec.por_provincia)
  (dias_retener : nat) : accion unit :=
  ahora1 <-- datetime_now w ;;;
  let hoy := Fecha.iso (fecha_de ahora1) in
  ahora2 <-- datetime_now w ;;;
  limite <-- puro (Fecha.menos_dias (fecha_de ahora2) dias_retener) ;;;
  let fecha_limite := Fecha.iso limite in
  f <-- read_json ;;;
    (existentes <-- puro (cargar_existentes f) ;;;
     l <-- puro (Py.iter existentes) ;;;
     l2 <-- puro (quitar_hoy hoy l) ;;;
     l3 <-- puro (podar fecha_limite l2) ;;;
     rh <-- puro (registros_hoy datos_por_provincia) ;;;
     let todos_registros := (l3 ++ rh)%list in
     fs <-- puro (columna "fecha" todos_registros) ;;;
     fset <-- puro (py_set fs) ;;;
     dias_disponibles <-- puro (sorted_str fset) ;;;
     cs <-- puro (columna "codigo" todos_registros) ;;;
     codigos_unicos <-- puro (py_set cs) ;;;
     ahora3 <-- datetime_now w ;;;
     write_json
       (PDict [ ("actualizado", PStr (iso_minuto ahora3));
                ("dias_disponibles", PList (map PStr dias_disponibles));
                ("total_municipios", PInt (Z.of_nat (List.length codigos_unicos)));
                ("registros", PList todos_registros) ])).

(** ** [get_api_key] and [main] *)

(** [s.strip()] on the strings of ASCII: the white space that Unicode has
    beyond ASCII is not removed here. *)
Definition str_strip (s : string) : string :=
  string_of_list_ascii (Py.strip (list_ascii_of_string s)).

(** [sys.exit(1)] raises [SystemExit]. *)
Definition get_api_key (w : mundo) (cli_key : option string) : result string :=
  let cli := match cli_key with Some k => k | None => "" end in
  if negb (String.eqb cli "") then Ok (str_strip cli)
  else
    let env := str_strip (env_key w) in
    if negb (String.eqb env "") then Ok env
    else
      match key_file w with
      | Some t =>
          let key := str_strip t in
          if negb (String.eqb key "") then Ok key else Raise (SystemExit 1)
      | None => Raise (SystemExit 1)
      end.

(** The command line, after [argparse]. *)
Record args : Type := {
  api_key : option string;
  solo_capitales : bool;
  provincia : option string
}.

(** The collection phase of [main], in the mode the command line asks for. *)
Definition recoger (w : mundo) (a : args) : accion Lec.por_provincia :=
  if solo_capitales a then obtener_temperaturas_capitales w
  else obtener_temperaturas_completo w (provincia a).

Definition main (w : mundo) (a : args) : accion unit :=
  _key <-- puro (get_api_key w (api_key a)) ;;;
  datos_por_provincia <-- recoger w a ;;;
  match datos_por_provincia with
  | [] => raise (SystemExit 1)
  | _ => guardar_json w datos_por_provincia 7
  end.

(** The exit status of the process: 0 when [main] returns, the argument of
    [sys.exit], and 1 when another exception reaches the top. *)
Definition exit_status {A : Type} (r : result A) : Z :=
  match r with
  | Ok _ => 0
  | Raise (SystemExit n) => n
  | Raise _ => 1
  end.

(** ** Notions used in the statements *)

(** The record [r] of the data file is dated [hoy]: the test of step 2. *)
Definition fecha_es (hoy : string) (r : pyval) : bool :=
  match Py.get r "fecha" PNone with
  | Ok f => Py.eq_str f hoy
  | Raise _ => false
  end.

(** The record [r] is not older than [fecha_limite]: the test of step 3. *)
Definition reciente (fecha_limite : string) (r : pyval) : bool :=
  match Py.get r "fecha" (PStr "") with
  | Ok (PStr a) => String.leb fecha_limite a
  | _ => false
  end.

(** A record of the data file as the script writes it: a dict with a
    string under [fecha] and a hashable value under [codigo]. *)
Definition registro_ok (r : pyval) : Prop :=
  exists kv f c,
    r = PDict kv /\ Py.lookup "fecha" kv = Some (PStr f)
    /\ Py.lookup "codigo" kv = Some c /\ hashable c = true.


(** The records of a collection, each with the key it is filed under. *)
Definition lecturas (dpp : Lec.por_provincia) : list (string * Lec.t) :=
  flat_map (fun pl => map (pair (fst pl)) (snd pl)) dpp.

(** The list under [registros] in a data file. *)
Definition registros_de (f : option texto) : option (list pyval) :=
  match f with
  | Some (Json out) =>
      match Py.getitem out "registros" with
      | Ok (PList l) => Some l
      | _ => None
      end
  | _ => None
  end.


(** What steps 2 and 3 keep of the records of the file. *)
Definition retenidos (hoy fecha_limite : string) (rs : list pyval) : list pyval :=
  filter (reciente fecha_limite) (filter (fun r => negb (fecha_es hoy r)) rs).

(** ** Payloads used in the statements *)

(** A forecast payload with the day entries [dias]. *)
Definition prediccion_de (dias : list pyval) : pyval :=
  PList [PDict [("prediccion", PDict [("dia", PList dias)])]].

(** A day entry whose temperature block is the direct structure. *)
Definition dia_directo (f : string) (minima maxima : pyval) : pyval :=
  PDict [ ("fecha", PStr f);
          ("temperatura", PDict [("maxima", maxima); ("minima", minima)]) ].

(** A day entry whose temperature block is the list of period entries. *)
Definition dia_periodos (f : string) (minima maxima : pyval) : pyval :=
  PDict [ ("fecha", PStr f);
          ("temperatura",
           PList [ PDict [("descripcion", PStr "Máxima"); ("valor", maxima)];
                   PDict [("descripcion", PStr "Mínima"); ("valor", minima)] ]) ].

(** The date prefix of the day entry [d] is there and is not [objetivo]:
    the test of the loop, failing. *)
Definition no_coincide (objetivo : string) (d : pyval) : Prop :=
  exists fd,
    (f <- Py.get d "fecha" (PStr "") ;; Py.slice_to 10 f) = Ok fd
    /\ Py.eq_str fd objetivo = false.

(** The state [s'] has the files, the calendar and the clock of [s]. *)
Definition mismos_archivos (s s' : estado) : Prop :=
  cache_file s' = cache_file s /\ json_file s' = json_file s
  /\ n_calendario s' = n_calendario s /\ n_reloj s' = n_reloj s.


(** The record [r] is the one capitals-only mode builds for the entry
    [mun] of the province [p]. *)
Definition registro_capital (hoy p : string) (mun : pyval) (r : Lec.t) : Prop :=
  Py.getitem mun "codigo" = Ok (Lec.codigo r)
  /\ Py.getitem mun "nombre" = Ok (Lec.municipio r)
  /\ Py.getitem mun "habitantes" = Ok (Lec.habitantes r)
  /\ Lec.es_capital r = PBool true
  /\ Lec.provincia r = p /\ Lec.fecha r = hoy.


(** No key on the command line, none in the environment, none in the key
    file. *)
Definition sin_clave (w : mundo) (a : args) : Prop :=
  (api_key a = None \/ api_key a = Some "")
  /\ str_strip (env_key w) = ""
  /\ (key_file w = None \/ exists t, key_file w = Some t /\ str_strip t = "").

(** ** A world to run the script in *)

Module Ejemplo.

Definition hoy : Fecha.t := {| Fecha.anio := 2024; Fecha.mes := 3; Fecha.dia := 5 |}.

(** The network answers with [l], then fails; it is 07:05 on [hoy]. *)
Definition mundo_de (l : list respuesta) : mundo :=
  {| red := fun n => nth n l FalloRed;
     reloj := fun n => inject_Z (Z.of_nat n);
     calendario := fun _ => {| fecha_de := hoy; hora := 7; minuto := 5 |};
     requests_json_error := true;
     env_key := "";
     key_file := None |}.

(** The same with an older [requests], whose [resp.json()] raises json's
    own error. *)
Definition mundo_antiguo (l : list respuesta) : mundo :=
  {| red := fun n => nth n l FalloRed;
     reloj := fun n => inject_Z (Z.of_nat n);
     calendario := fun _ => {| fecha_de := hoy; hora := 7; minuto := 5 |};
     requests_json_error := false;
     env_key := "";
     key_file := None |}.

Definition estado_de (cache json : option texto) : estado :=
  {| n_red := 0; n_reloj := 0; n_calendario := 0; pedidos := []; dormido := [];
     cache_file := cache; json_file := json |}.

Definition registro (f : Fecha.t) (cod : string) : pyval :=
  PDict [("codigo", PStr cod); ("fecha", PStr (Fecha.iso f))].

Definition lectura (cod : string) (mn mx : pyval) : Lec.t :=
  {| Lec.municipio := PStr "Madrid"; Lec.codigo := PStr cod;
     Lec.provincia := "Madrid"; Lec.habitantes := PInt 3200000;
     Lec.es_capital := PBool true; Lec.t_min := mn; Lec.t_max := mx;
     Lec.fecha := Fecha.iso hoy |}.

Definition lote : Lec.por_provincia :=
  [("Madrid", [lectura "28079" (PInt 10) (PInt 20); lectura "28006" PNone (PInt 20)])].

(** A data file with records of 10, 8, 6, 3 and 1 days ago and of today. *)
Definition semillas : list pyval :=
  map (fun k => registro (Fecha.restar hoy k) "28079") [10; 8; 6; 3; 1; 0]%nat.

Definition datos_sembrados : option texto :=
  Some (Json (PDict [("registros", PList semillas)])).

(** A directory with a province that has a capital and one that has none. *)
Definition directorio : Mun.directorio :=
  [ ("Madrid",
     [ {| Mun.codigo := "28079"; Mun.nombre := PStr "Madrid";
          Mun.habitantes := 3200000; Mun.altitud := 657; Mun.es_capital := true |};
       {| Mun.codigo := "28006"; Mun.nombre := PStr "Alcobendas";
          Mun.habitantes := 117000; Mun.altitud := 669; Mun.es_capital := false |} ]);
    ("Provincia 99",
     [ {| Mun.codigo := "99002"; Mun.nombre := PStr "Villagrande";
          Mun.habitantes := 5000; Mun.altitud := 10; Mun.es_capital := false |};
       {| Mun.codigo := "99001"; Mun.nombre := PStr "Villachica";
          Mun.habitantes := 300; Mun.altitud := 20; Mun.es_capital := false |} ]) ].

Definition cache_de (provincias : pyval) : option texto :=
  Some (Json (PDict [ ("fecha", PStr (Fecha.iso hoy)); ("total", PInt 4);
                      ("provincias", provincias) ])).

(** The two answers to the request of a forecast. *)
Definition sobre : respuesta :=
  Respuesta 200 (Json (PDict [("estado", PInt 200); ("datos", PStr "https://datos")])).

Definition prediccion (mn mx : Z) : respuesta :=
  Respuesta 200
    (Json (prediccion_de [dia_directo "2024-03-05T00:00:00" (PInt mn) (PInt mx)])).

Definition solo_capitales_con_clave : args :=
  {| api_key := Some "clave"; solo_capitales := true; provincia := None |}.

Definition sin_argumentos : args :=
  {| api_key := None; solo_capitales := false; provincia := None |}.

(** The cache of today holds [directorio]; the network answers the two
    requests of capitals-only mode. *)
Definition mundo_capitales : mundo :=
  mundo_de [sobre; prediccion 4 15; sobre; prediccion 1 9].

Definition estado_capitales : estado :=
  estado_de (cache_de (Mun.dir_a_py directorio)) None.

Definition resultado_capitales : Lec.por_provincia :=
  Eval vm_compute in
    match fst (obtener_temperaturas_capitales mundo_capitales estado_capitales) with
    | Ok r => r
    | Raise _ => []
    end.

End Ejemplo.

(** The record of capitals-only mode for the entry [m] when the client
    returns nothing. *)
Definition registro_sin_datos (hoy p : string) (m : Mun.t) : Lec.t :=
  {| Lec.municipio := Mun.nombre m; Lec.codigo := PStr (Mun.codigo m);
     Lec.provincia := p; Lec.habitantes := PInt (Mun.habitantes m);
     Lec.es_capital := PBool true; Lec.t_min := PNone; Lec.t_max := PNone;
     Lec.fecha := hoy |}.

(** The network never answers with status 200. *)
Definition sin_200 (w : mundo) : Prop :=
  forall k c, red w k <> Respuesta 200 c.

(** What capitals-only mode returns on the directory [dir] when the client
    returns nothing: the provinces in the order of their names, each with
    the records of its chosen entries. *)
Definition resultado_sin_datos (hoy : string) (dir : Mun.directorio)
  : Lec.por_provincia :=
  fold_left
    (fun r pl =>
       Lec.poner (fst pl)
         (map (registro_sin_datos hoy (fst pl)) (Mun.elegidos (snd pl))) r)
    (sorted_items dir) [].

(** ** Further notions used in the statements *)

(** A transient answer: a network failure or a status 429. *)
Definition transitoria (r : respuesta) : Prop :=
  r = FalloRed \/ exists c, r = Respuesta 429 c.

(** An envelope in state 200 that carries a data URL. *)
Definition sobre_valido (meta : list (string * pyval)) : Prop :=
  Py.eq_int (match Py.lookup "estado" meta with Some x => x | None => PNone end) 200
  = true
  /\ Py.truthy (match Py.lookup "datos" meta with Some x => x | None => PNone end)
     = true.

(** The province under which the grouping files the code [cod]: the name
    that [PROVINCIAS] gives to its first two characters, or else
    ["Provincia "] followed by them. *)
Definition nombre_provincia (cod : string) : string :=
  let cod_prov := substring 0 2 cod in
  match tabla cod_prov PROVINCIAS with
  | Some n => n
  | None => "Provincia " ++ cod_prov
  end.

(** The entry [m] is filed under [p] as the grouping files it. *)
Definition bien_archivada (p : string) (m : Mun.t) : Prop :=
  p = nombre_provincia (Mun.codigo m)
  /\ Mun.es_capital m = existsb (String.eqb (Mun.codigo m)) CAPITALES_CODIGOS.

(** A directory as the grouping builds it: no province twice, no province
    without entries, every entry under the province of its code. *)
Definition dir_bien (d : Mun.directorio) : Prop :=
  NoDup (map fst d)
  /\ Forall (fun pl => snd pl <> [] /\ Forall (bien_archivada (fst pl)) (snd pl)) d.

(** The entries of the master list that the grouping keeps: those whose
    ["id"] starts with ["id"]. *)
Definition con_id (mun : pyval) : bool :=
  match Py.get mun "id" (PStr "") with
  | Ok (PStr id) => String.prefix "id" id
  | _ => false
  end.

(** ** Further sample data *)

Module Muestra.

Definition entrada (id nombre num_hab altitud : string) : pyval :=
  PDict [ ("id", PStr id); ("nombre", PStr nombre);
          ("num_hab", PStr num_hab); ("altitud", PStr altitud) ].

(** A master list: two entries of Madrid, the smaller first, a line
    without a municipality code, and an entry of an unknown province
    whose population is the empty string. *)
Definition maestro : list pyval :=
  [ entrada "id28006" "Alcobendas" "117000" "669";
    entrada "id28079" "Madrid" "3200000" "657";
    entrada "cabecera" "" "" "";
    entrada "id99001" "Villachica" "" "20" ].

(** The network answers the request of the master list with [l]. *)
Definition mundo_maestro (l : pyval) : mundo :=
  Ejemplo.mundo_de [Ejemplo.sobre; Respuesta 200 (Json l)].


(** The same with the code of Madrid a second time. *)
Definition repetido : Mun.directorio :=
  Eval vm_compute in
    match agrupar (maestro ++ [entrada "id28079" "Madrid centro" "150000" "650"]) []
    with
    | Ok g => g
    | Raise _ => []
    end.

Definition madrid : Mun.t :=
  {| Mun.codigo := "28079"; Mun.nombre := PStr "Madrid";
     Mun.habitantes := 3200000; Mun.altitud := 657; Mun.es_capital := true |}.

Definition madrid_centro : Mun.t :=
  {| Mun.codigo := "28079"; Mun.nombre := PStr "Madrid centro";
     Mun.habitantes := 150000; Mun.altitud := 650; Mun.es_capital := true |}.

End Muestra.

(** The date prefix of the day entry [d] is [objetivo]: the test of the
    loop, succeeding. *)
Definition coincide (objetivo : string) (d : pyval) : Prop :=
  exists fd,
    (f <- Py.get d "fecha" (PStr "") ;; Py.slice_to 10 f) = Ok fd
    /\ Py.eq_str fd objetivo = true.

(** [tm.get(k)]. *)
Definition valor_de (k : string) (tm : list (string * pyval)) : pyval :=
  match Py.lookup k tm with
  | Some x => x
  | None => PNone
  end.



(** The record [r] is the one full mode builds for the entry [m] of the
    province [p]: the fields of the entry, its own capital flag, and as
    temperatures either nothing or what the extractor reads in a body that
    the network sent. *)
Definition registro_completo (w : mundo) (hoy p : string) (m : Mun.t) (r : Lec.t)
  : Prop :=
  Lec.codigo r = PStr (Mun.codigo m)
  /\ Lec.municipio r = Mun.nombre m
  /\ Lec.habitantes r = PInt (Mun.habitantes m)
  /\ Lec.es_capital r = PBool (Mun.es_capital m)
  /\ Lec.provincia r = p /\ Lec.fecha r = hoy
  /\ ((Lec.t_min r = PNone /\ Lec.t_max r = PNone)
      \/ exists k datos,
           red w k = Respuesta 200 (Json datos)
           /\ _extraer_temp_dia datos hoy = Ok (Lec.t_min r, Lec.t_max r)).

(** The test of the province filter of full mode on the name [p]. *)
Definition filtro_pasa (filtro : option string) (p : string) : bool :=
  match filtro with
  | Some f => if String.eqb f "" then true else contiene (lower f) (lower p)
  | None => true
  end.


(** The items of a directory, as the drivers iterate over them. *)
Definition items_de (dir : Mun.directorio) : list (string * pyval) :=
  map (fun pl => (fst pl, PList (map Mun.a_py (snd pl)))) dir.

(** ** Sample runs of full mode *)

Module Corrida.

(** The network answers the first entry of Madrid and the first entry of
    the other province, and fails for the two others. *)
Definition mundo_completo : mundo :=
  Ejemplo.mundo_de
    [ Ejemplo.sobre; Ejemplo.prediccion 4 15; Respuesta 500 Ilegible;
      Ejemplo.sobre; Ejemplo.prediccion 1 9 ].


Definition resultado_filtrado : Lec.por_provincia :=
  Eval vm_compute in
    match fst (obtener_temperaturas_completo mundo_completo (Some "MADR")
                 Ejemplo.estado_capitales) with
    | Ok r => r
    | Raise _ => []
    end.

Definition madrid : list Mun.t :=
  Eval vm_compute in snd (nth 0 Ejemplo.directorio ("", [])).

(** Counters just before a batch pause and before the hundredth
    processed entry. *)
Definition contador_21 : contador :=
  {| batch_count := 21; batch_start := 0; procesados := 99; errores := 0 |}.

(** A world with a key in the environment and another in the key file. *)
Definition mundo_con_clave : mundo :=
  {| red := fun _ => FalloRed;
     reloj := fun n => inject_Z (Z.of_nat n);
     calendario := fun _ => {| fecha_de := Ejemplo.hoy; hora := 7; minuto := 5 |};
     requests_json_error := true;
     env_key := "  clave-de-entorno ";
     key_file := Some "clave-de-archivo" |}.

End Corrida.

(** In the order of the strings, each one once. *)
Definition ascendente (l : list string) : Prop :=
  StronglySorted (fun a b => String.ltb a b = true) l.

(** No two values of the list are equal as a set sees them. *)
Definition sin_iguales (l : list pyval) : Prop :=
  ForallOrdPairs (fun a b => eq_hash a b = false) l.

(** The action [m] takes every state to one that [R] relates to it,
    whether it returns or raises. *)
Definition respeta (R : estado -> estado -> Prop) {A : Type} (m : accion A) : Prop :=
  forall s, R s (snd (m s)).

(** The data file of [s'] is the one of [s]. *)
Definition mismo_json (s s' : estado) : Prop := json_file s' = json_file s.

(** Between [s] and [s'] only pauses of a positive length were taken. *)
Definition pausas_positivas (s s' : estado) : Prop :=
  exists nuevos,
    dormido s' = (nuevos ++ dormido s)%list /\ Forall (fun d => (0 < d)%Q) nuevos.

(** ** Texts within the range that the string functions cover

    The strings are kept as their UTF-8 bytes.  On a text of ASCII alone a
    byte is a character, so that a prefix, a slice, [strip] and [int] agree
    with Python's; on a text of Latin-1 (code points up to U+00FF, lead
    bytes up to 195) [lower] does. *)

(** Every character of [s] is in ASCII. *)
Definition es_ascii (s : string) : bool :=
  forallb (fun c => (nat_of_ascii c <? 128)%nat) (list_ascii_of_string s).

(** Every character of [s] is in Latin-1. *)
Definition es_latin1 (s : string) : bool :=
  forallb (fun c => (nat_of_ascii c <=? 195)%nat) (list_ascii_of_string s).



(** The text [o], when there is one, is in ASCII. *)
Definition opcion_ascii (o : option string) : bool :=
  match o with
  | Some s => es_ascii s
  | None => true
  end.

(** The province filter, when there is one, is in Latin-1. *)
Definition filtro_latin1 (filtro : option string) : bool :=
  match filtro with
  | Some f => es_latin1 f
  | None => true
  end.

(** ** Tactics *)

Ltac caso_intento :=
  repeat match goal with
    | |- context [match ?x with _ => _ end] => destruct x eqn:?
    | |- context [if ?b then _ else _] => destruct b eqn:?
    end.



Ltac por_calculo := vm_compute; reflexivity.

Ltac cierre_intento :=
  cbn; (split; [auto|]); (split; [auto 6|]);
  let v := fresh "v" in let Hv := fresh "Hv" in
  intros v Hv; try discriminate; injection Hv as <-; auto.



(** * Dates and their ISO strings *)

Module FechaFacts.
Import Fecha.

Local Open Scope nat_scope.

Lemma compare_digito x y :
  Ascii.compare (digito x) (digito y) = Nat.compare (x mod 10) (y mod 10).
Proof.
  unfold digito.
  assert (Hx : x mod 10 < 10) by (apply Nat.mod_upper_bound; lia).
  assert (Hy : y mod 10 < 10) by (apply Nat.mod_upper_bound; lia).
  generalize dependent (y mod 10). generalize dependent (x mod 10).
  intros a Ha b Hb.
  do 10 (destruct a as [|a]; [do 10 (destruct b as [|b]; [reflexivity|]); lia|]).
  lia.
Qed.

Lemma compare_split a b :
  a < 100 -> b < 100 ->
  Nat.compare a b
  = lex (Nat.compare ((a / 10) mod 10) ((b / 10) mod 10))
        (Nat.compare (a mod 10) (b mod 10)).
Proof.
  intros Ha Hb. unfold lex.
  rewrite (Nat.mod_small (a / 10)) by (apply Nat.Div0.div_lt_upper_bound; lia).
  rewrite (Nat.mod_small (b / 10)) by (apply Nat.Div0.div_lt_upper_bound; lia).
  pose proof (Nat.div_mod_eq a 10). pose proof (Nat.div_mod_eq b 10).
  pose proof (Nat.mod_upper_bound a 10). pose proof (Nat.mod_upper_bound b 10).
  destruct (Nat.compare_spec (a / 10) (b / 10));
    destruct (Nat.compare_spec (a mod 10) (b mod 10));
    destruct (Nat.compare_spec a b); try reflexivity; lia.
Qed.

Lemma compare_dos a b s t :
  a < 100 -> b < 100 ->
  String.compare (dos a ++ s) (dos b ++ t)
  = lex (Nat.compare a b) (String.compare s t).
Proof.
  intros Ha Hb. unfold dos. cbn [append String.compare].
  rewrite !compare_digito, (compare_split a b Ha Hb). unfold lex.
  destruct (Nat.compare ((a / 10) mod 10) ((b / 10) mod 10)); try reflexivity.
  destruct (Nat.compare (a mod 10) (b mod 10)); reflexivity.
Qed.

Lemma compare_split100 a b :
  a < 100 * 100 -> b < 100 * 100 ->
  Nat.compare a b
  = lex (Nat.compare (a / 100) (b / 100)) (Nat.compare (a mod 100) (b mod 100)).
Proof.
  intros Ha Hb. unfold lex.
  pose proof (Nat.div_mod_eq a 100). pose proof (Nat.div_mod_eq b 100).
  pose proof (Nat.mod_upper_bound a 100). pose proof (Nat.mod_upper_bound b 100).
  destruct (Nat.compare_spec (a / 100) (b / 100));
    destruct (Nat.compare_spec (a mod 100) (b mod 100));
    destruct (Nat.compare_spec a b); try reflexivity; lia.
Qed.

Lemma append_assoc (a b c : string) : (a ++ b) ++ c = a ++ (b ++ c).
Proof. induction a; cbn; [reflexivity | now rewrite IHa]. Qed.

Lemma compare_cuatro a b s t :
  a < 100 * 100 -> b < 100 * 100 ->
  String.compare (cuatro a ++ s) (cuatro b ++ t)
  = lex (Nat.compare a b) (String.compare s t).
Proof.
  intros Ha Hb. unfold cuatro. rewrite !append_assoc.
  rewrite compare_dos by (apply Nat.Div0.div_lt_upper_bound; lia).
  rewrite compare_dos by (apply Nat.mod_upper_bound; lia).
  rewrite (compare_split100 a b Ha Hb). unfold lex.
  destruct (Nat.compare (a / 100) (b / 100)); reflexivity.
Qed.


Lemma compare_guion s t :
  String.compare ("-" ++ s) ("-" ++ t) = String.compare s t.
Proof. reflexivity. Qed.

Lemma compare_dos_fin a b :
  a < 100 -> b < 100 -> String.compare (dos a) (dos b) = Nat.compare a b.
Proof.
  intros Ha Hb.
  change (dos a) with (dos a ++ ""). change (dos b) with (dos b ++ "").
  rewrite compare_dos by assumption. unfold lex.
  destruct (Nat.compare a b); reflexivity.
Qed.

Lemma compare_iso f g :
  cabe f -> cabe g ->
  String.compare (iso f) (iso g)
  = lex (Nat.compare (anio f) (anio g))
      (lex (Nat.compare (mes f) (mes g)) (Nat.compare (dia f) (dia g))).
Proof.
  intros (Hy & Hm & Hd) (Hy' & Hm' & Hd'). unfold iso.
  rewrite compare_cuatro, compare_guion, compare_dos, compare_guion,
    compare_dos_fin by assumption.
  reflexivity.
Qed.

Lemma antes_compare f g :
  antes f g <->
  lex (Nat.compare (anio f) (anio g))
    (lex (Nat.compare (mes f) (mes g)) (Nat.compare (dia f) (dia g))) = Lt.
Proof.
  unfold antes, lex.
  destruct (Nat.compare_spec (anio f) (anio g));
    destruct (Nat.compare_spec (mes f) (mes g));
    destruct (Nat.compare_spec (dia f) (dia g));
    split; intros; try reflexivity; try discriminate; lia.
Qed.

(** On dates, the order of the ISO strings is the chronological order. *)
Lemma iso_ltb f g :
  cabe f -> cabe g -> (String.ltb (iso f) (iso g) = true <-> antes f g).
Proof.
  intros Hf Hg. unfold String.ltb. rewrite compare_iso by assumption.
  rewrite antes_compare.
  destruct (lex _ _); split; intros; congruence.
Qed.



Lemma iso_no_vacia f : iso f <> "".
Proof. unfold iso, cuatro, dos. cbn. discriminate. Qed.

(** ** The day before *)












End FechaFacts.

(** * The data file *)










(** What is kept by step 3 has a date, whatever the records were. *)
Lemma podar_fecha lim l l3 :
  lim <> "" -> podar lim l = Ok l3 ->
  Forall (fun r => exists f, Py.getitem r "fecha" = Ok (PStr f)) l3.
Proof.
  intros Hlim. revert l3. induction l as [|r l IH]; intros l3 H.
  - injection H as <-. constructor.
  - cbn [podar] in H.
    destruct r as [| | | | |?|kv]; try discriminate.
    cbn in H.
    destruct (Py.lookup "fecha" kv) as [v|] eqn:Hk.
    + destruct v; try discriminate. cbn in H.
      destruct (podar lim l) as [rs|]; [|discriminate]. cbn in H.
      injection H as <-. destruct (String.leb lim s).
      * constructor; [|now apply IH]. exists s. cbn. now rewrite Hk.
      * now apply IH.
    + cbn in H. destruct (podar lim l) as [rs|]; [|discriminate]. cbn in H.
      injection H as <-.
      replace (String.leb lim "") with false.
      * now apply IH.
      * destruct lim; [congruence | reflexivity].
Qed.

(** ** Today's records *)

Lemma registros_prov_Forall2 p ds rs :
  registros_prov p ds = Ok rs ->
  Forall2 (fun pd r => registro_hoy (fst pd) (snd pd) = Ok r) (map (pair p) ds) rs.
Proof.
  revert rs. induction ds as [|d ds IH]; intros rs H; cbn in H.
  - injection H as <-. constructor.
  - destruct (registro_hoy p d) as [r|] eqn:Hr; [|discriminate]. cbn in H.
    destruct (registros_prov p ds) as [rs'|]; [|discriminate]. cbn in H.
    injection H as <-. constructor; [exact Hr | now apply IH].
Qed.

Lemma registros_hoy_Forall2 dpp rh :
  registros_hoy dpp = Ok rh ->
  Forall2 (fun pd r => registro_hoy (fst pd) (snd pd) = Ok r) (lecturas dpp) rh.
Proof.
  revert rh. induction dpp as [|[p ds] dpp IH]; intros rh H; cbn in H.
  - injection H as <-. constructor.
  - destruct (registros_prov p ds) as [rs|] eqn:Hp; [|discriminate]. cbn in H.
    destruct (registros_hoy dpp) as [rs'|]; [|discriminate]. cbn in H.
    injection H as <-. cbn [lecturas flat_map fst snd].
    apply Forall2_app; [now apply registros_prov_Forall2 | now apply IH].
Qed.


Lemma registro_hoy_inv p d r :
  registro_hoy p d = Ok r ->
  exists m, media_de (Lec.t_min d) (Lec.t_max d) = Ok m /\
    r = PDict [ ("nombre", Lec.municipio d); ("codigo", Lec.codigo d);
                ("provincia", PStr p); ("hab", Lec.habitantes d);
                ("min", Lec.t_min d); ("max", Lec.t_max d); ("media", m);
                ("fecha", PStr (Lec.fecha d)); ("capital", Lec.es_capital d) ].
Proof.
  unfold registro_hoy. destruct (media_de _ _) as [m|]; [|discriminate].
  cbn. intros H. injection H as <-. now exists m.
Qed.




(** ** [guardar_json] on a well-formed file *)



Lemma filter_todo {A} (f : A -> bool) l :
  Forall (fun x => f x = true) l -> filter f l = l.
Proof.
  induction 1 as [|x l Hx _ IH]; cbn; [reflexivity | now rewrite Hx, IH].
Qed.

Lemma filter_nada {A} (f : A -> bool) l :
  Forall (fun x => f x = false) l -> filter f l = [].
Proof.
  induction 1 as [|x l Hx _ IH]; cbn; [reflexivity | now rewrite Hx].
Qed.








(** ** Retention *)







(** * The average *)

Lemma mitad_exacta n :
  Z.abs n < 2 ^ 53 -> Num.mitad n = Ok (FFin (Qred (n # 2))).
Proof.
  intros H. unfold Num.mitad.
  destruct (Z.ltb_spec (Z.abs n) (2 ^ 53)); [reflexivity | lia].
Qed.

Lemma redondeo_entero q z : (q == inject_Z z)%Q -> Num.redondeo q = z.
Proof.
  intros H. unfold Num.redondeo.
  assert (Hf : Qfloor q = z) by (rewrite H; apply Qfloor_Z).
  rewrite Hf.
  assert (Hd : (q - inject_Z z == 0)%Q) by (rewrite H; ring).
  unfold Qlt_bool.
  assert (Hle : Qle_bool (1 # 2) (q - inject_Z z) = false).
  { apply not_true_is_false. intros Hc. apply Qle_bool_iff in Hc.
    rewrite Hd in Hc. unfold Qle in Hc. cbn in Hc. lia. }
  rewrite Hle. reflexivity.
Qed.

(** Rounding a half-integer to one decimal changes nothing. *)
Lemma round1_mitad n :
  Num.round1 (PFloat (FFin (Qred (n # 2)))) = Ok (PFloat (FFin (Qred (n # 2)))).
Proof.
  unfold Num.round1. do 3 f_equal.
  rewrite (redondeo_entero _ (5 * n)).
  - apply Qred_complete. unfold Qeq, Qnum, Qden. lia.
  - rewrite Qred_correct. unfold Qeq, Qmult, inject_Z, Qnum, Qden. lia.
Qed.

Lemma media_enteros a b :
  Z.abs (a + b) < 2 ^ 53 ->
  media_de (PInt a) (PInt b) = Ok (PFloat (FFin (Qred ((a + b) # 2)))).
Proof.
  intros H. unfold media_de. cbn [Py.is_none negb andb Num.add Num.as_int bind Num.div2].
  rewrite (mitad_exacta _ H). cbn [bind]. apply round1_mitad.
Qed.

Lemma media_ausente a b :
  a = PNone \/ b = PNone -> media_de a b = Ok PNone.
Proof.
  intros [-> | ->]; unfold media_de; cbn; [reflexivity|].
  destruct (Py.is_none a); reflexivity.
Qed.

(** What a run that returns has written. *)
Lemma guardar_json_inv w dpp n s s' :
  guardar_json w dpp n s = (Ok tt, s') ->
  exists viejos rh act dias tot,
    registros_hoy dpp = Ok rh
    /\ json_file s'
       = Some (Json (PDict
           [ ("actualizado", act); ("dias_disponibles", dias);
             ("total_municipios", tot);
             ("registros", PList (viejos ++ rh)) ])).
Proof.
  unfold guardar_json, seguir, datetime_now, puro, write_json.
  cbn -[Fecha.iso iso_minuto Fecha.menos_dias].
  repeat match goal with
         | |- context [match ?x with Ok _ => _ | Raise _ => _ end] =>
             destruct x eqn:?; cbn -[Fecha.iso iso_minuto Fecha.menos_dias];
             try discriminate
         end.
  intros H. injection H as <-. cbn. eexists _, _, _, _, _. split; reflexivity.
Qed.

(** C8. Average derivation.  In every record that [guardar_json] builds
    from the batch, [min] and [max] are the batch's values and [media] is
    [round((min + max) / 2, 1)]: absent when either is absent, and for two
    integers (below 2^53, where the division is exact) the float
    [(min + max) / 2], which rounding to one decimal leaves as it is.
    With 10 and 20 it is 15.0; with an absent minimum it is absent. *)
Theorem average_derivation :
  forall (w : mundo) (dpp : Lec.por_provincia) (n : nat) (s s' : estado),
    guardar_json w dpp n s = (Ok tt, s') ->
    (exists viejos rh,
        registros_de (json_file s') = Some (viejos ++ rh)%list
        /\ Forall2
             (fun pd r =>
                let d := snd pd in
                Py.getitem r "min" = Ok (Lec.t_min d)
                /\ Py.getitem r "max" = Ok (Lec.t_max d)
                /\ exists m,
                    Py.getitem r "media" = Ok m
                    /\ media_de (Lec.t_min d) (Lec.t_max d) = Ok m
                    /\ (Lec.t_min d = PNone \/ Lec.t_max d = PNone -> m = PNone)
                    /\ (forall a b,
                           Lec.t_min d = PInt a -> Lec.t_max d = PInt b ->
                           Z.abs (a + b) < 2 ^ 53 ->
                           m = PFloat (FFin (Qred ((a + b) # 2)))
                           /\ Num.round1 (PFloat (FFin (Qred ((a + b) # 2)))) = Ok m))
             (lecturas dpp) rh)
    /\ media_de (PInt 10) (PInt 20) = Ok (PFloat (FFin 15))
    /\ media_de PNone (PInt 20) = Ok PNone.
Proof.
  intros w dpp n s s' H.
  destruct (guardar_json_inv _ _ _ _ _ H) as (viejos & rh & act & dias & tot & Hrh & Hf).
  split; [|split; reflexivity].
  exists viejos, rh. split; [rewrite Hf; reflexivity|].
  apply registros_hoy_Forall2 in Hrh.
  eapply Forall2_impl; [|exact Hrh].
  intros [p d] r Hr. cbn [snd fst] in *.
  destruct (registro_hoy_inv _ _ _ Hr) as (m & Hm & ->).
  split; [reflexivity|]. split; [reflexivity|].
  exists m. split; [reflexivity|]. split; [assumption|]. split.
  - intros Hn. rewrite (media_ausente _ _ Hn) in Hm. congruence.
  - intros a b Ha Hb Hab. rewrite Ha, Hb, (media_enteros a b Hab) in Hm.
    injection Hm as <-. split; [reflexivity | apply round1_mitad].
Qed.

(** ** The files the script writes *)

Lemma guardar_json_pasos w dpp n s s' :
  guardar_json w dpp n s = (Ok tt, s') ->
  exists lim l2 l3 rh cs act dias tot,
    podar (Fecha.iso lim) l2 = Ok l3
    /\ registros_hoy dpp = Ok rh
    /\ columna "codigo" (l3 ++ rh) = Ok cs
    /\ forallb hashable cs = true
    /\ json_file s'
       = Some (Json (PDict
           [ ("actualizado", act); ("dias_disponibles", dias);
             ("total_municipios", tot);
             ("registros", PList (l3 ++ rh)) ])).
Proof.
  unfold guardar_json, seguir, datetime_now, puro, write_json, read_json.
  cbn -[Fecha.iso iso_minuto Fecha.menos_dias].
  repeat match goal with
         | |- context [match ?x with Ok _ => _ | Raise _ => _ end] =>
             destruct x eqn:?; cbn -[Fecha.iso iso_minuto Fecha.menos_dias];
             try discriminate
         end.
  intros H. injection H as <-. cbn [json_file].
  match goal with
  | Hc : py_set ?cs = Ok _, Hcol : columna "codigo" _ = Ok ?cs |- _ =>
      unfold py_set in Hc; destruct (forallb hashable cs) eqn:Hh; [|discriminate]
  end.
  eexists _, _, _, _, _, _, _, _.
  repeat split; eassumption || reflexivity.
Qed.

Lemma columna_In k l vs r :
  columna k l = Ok vs -> In r l -> exists v, Py.getitem r k = Ok v /\ In v vs.
Proof.
  revert vs. induction l as [|x l IH]; intros vs H Hin; [contradiction|].
  cbn in H. destruct (Py.getitem x k) as [v|] eqn:Hv; [|discriminate]. cbn in H.
  destruct (columna k l) as [vs'|]; [|discriminate]. cbn in H. injection H as <-.
  destruct Hin as [<-|Hin].
  - exists v. split; [assumption | now left].
  - destruct (IH _ eq_refl Hin) as (v' & Hv' & Hin'). exists v'. split; [assumption | now right].
Qed.

(** Every record of a file that [guardar_json] has written is a dict with
    a string under [fecha] and a hashable value under [codigo]: what the
    next run needs of it. *)
Lemma guardar_json_escribe_bien w dpp n s s' regs :
  guardar_json w dpp n s = (Ok tt, s') ->
  registros_de (json_file s') = Some regs ->
  Forall registro_ok regs.
Proof.
  intros H Hregs.
  destruct (guardar_json_pasos _ _ _ _ _ H)
    as (lim & l2 & l3 & rh & cs & act & dias & tot & Hp & Hrh & Hcs & Hh & Hf).
  rewrite Hf in Hregs. cbn in Hregs. injection Hregs as <-.
  rewrite Forall_forall. intros r Hin.
  destruct (columna_In _ _ _ _ Hcs Hin) as (c & Hc & Hcin).
  rewrite forallb_forall in Hh. specialize (Hh c Hcin).
  assert (Hfe : exists f, Py.getitem r "fecha" = Ok (PStr f)).
  { apply in_app_or in Hin as [Hin|Hin].
    - pose proof (podar_fecha _ _ _ (FechaFacts.iso_no_vacia lim) Hp) as HF.
      rewrite Forall_forall in HF. now apply HF.
    - apply registros_hoy_Forall2 in Hrh.
      clear - Hrh Hin. induction Hrh as [|pd r' l rs Hr _ IH]; [contradiction|].
      destruct Hin as [<-|Hin]; [|now apply IH].
      destruct (registro_hoy_inv _ _ _ Hr) as (m & _ & ->). eexists. reflexivity. }
  destruct Hfe as (f & Hfe).
  destruct r as [| | | | | |kv]; try discriminate. cbn in Hc, Hfe.
  destruct (Py.lookup "codigo" kv) as [c'|] eqn:Ec; [|discriminate].
  destruct (Py.lookup "fecha" kv) as [f'|] eqn:Ef; [|discriminate].
  injection Hc as ->. injection Hfe as ->.
  exists kv, f, c. auto.
Qed.

(** * The extractor *)

Lemma buscar_dia_sin_fecha dias objetivo st :
  Forall (no_coincide objetivo) dias ->
  buscar_dia dias objetivo st = (st, None).
Proof.
  induction 1 as [|d dias (fd & Hfd & Hne) _ IH]; [reflexivity|].
  cbn [buscar_dia]. rewrite Hfd, Hne. exact IH.
Qed.

(** When no day has the target date and the first day's temperature block
    is the direct structure, the extractor returns that block's values,
    made integers where they can be. *)
Lemma extraer_primer_dia_directo datos d0 pred dia0 resto tm objetivo :
  Py.getitem0 datos = Ok d0 ->
  Py.get d0 "prediccion" (PDict []) = Ok pred ->
  Py.get pred "dia" (PList []) = Ok (PList (dia0 :: resto)) ->
  Forall (no_coincide objetivo) (dia0 :: resto) ->
  Py.get dia0 "temperatura" (PDict []) = Ok (PDict tm) ->
  _extraer_temp_dia datos objetivo
  = (mn <- a_entero (match Py.lookup "minima" tm with Some x => x | None => PNone end) ;;
     mx <- a_entero (match Py.lookup "maxima" tm with Some x => x | None => PNone end) ;;
     Ok (mn, mx)).
Proof.
  intros H0 Hp Hd Hno Ht.
  unfold _extraer_temp_dia, extraer_bloque.
  rewrite H0. cbn [bind]. rewrite Hp. cbn [bind]. rewrite Hd. cbn [bind Py.iter].
  rewrite (buscar_dia_sin_fecha _ _ _ Hno).
  unfold primer_dia. cbn [t_min t_max Py.is_none Py.truthy andb Py.getitem0].
  rewrite Ht. cbn. reflexivity.
Qed.

(** C3. Extractor first-day fallback.  With the two days 2024-01-02 and
    2024-01-03 and the target 2024-01-01, the first day's values come back
    when its temperature block is the direct structure.  When the block
    is the list of period entries, which the extractor reads for a day
    that has the target date, the fallback returns nothing. *)
Theorem fallback_first_day :
  forall mn mx mn' mx' : Z,
    _extraer_temp_dia
      (prediccion_de [ dia_directo "2024-01-02" (PInt mn) (PInt mx);
                       dia_directo "2024-01-03" (PInt mn') (PInt mx') ])
      "2024-01-01"
    = Ok (PInt mn, PInt mx)
    /\ _extraer_temp_dia
         (prediccion_de [ dia_periodos "2024-01-02" (PInt mn) (PInt mx);
                          dia_periodos "2024-01-03" (PInt mn') (PInt mx') ])
         "2024-01-02"
       = Ok (PInt mn, PInt mx)
    /\ _extraer_temp_dia
         (prediccion_de [ dia_periodos "2024-01-02" (PInt mn) (PInt mx);
                          dia_periodos "2024-01-03" (PInt mn') (PInt mx') ])
         "2024-01-01"
       = Ok (PNone, PNone).
Proof.
  intros. repeat split; reflexivity.
Qed.

(** C4. Extractor totality.  A payload whose first element is not a dict
    makes the extractor raise [AttributeError]; a value that is not a
    number stays as it is instead of becoming absent; an infinite float
    makes it raise [OverflowError]. *)
Theorem extractor_not_total :
  (forall objetivo, _extraer_temp_dia (PList [PStr "abc"]) objetivo = Raise AttributeError)
  /\ _extraer_temp_dia
       (prediccion_de [dia_directo "2024-01-01" (PStr "abc") (PStr "20")])
       "2024-01-01"
     = Ok (PStr "abc", PInt 20)
  /\ _extraer_temp_dia
       (prediccion_de [dia_directo "2024-01-01" (PInt 5) (PFloat (FInf false))])
       "2024-01-01"
     = Raise OverflowError.
Proof.
  repeat split; reflexivity.
Qed.

(** What the extractor does on the payloads it is written for: a missing
    key, an empty list of days or a payload that cannot be indexed give
    two absent values. *)
Lemma extraer_sin_dias objetivo :
  _extraer_temp_dia (PList []) objetivo = Ok (PNone, PNone)
  /\ _extraer_temp_dia (PDict []) objetivo = Ok (PNone, PNone)
  /\ _extraer_temp_dia (PInt 7) objetivo = Ok (PNone, PNone)
  /\ _extraer_temp_dia (PList [PDict []]) objetivo = Ok (PNone, PNone)
  /\ _extraer_temp_dia (prediccion_de []) objetivo = Ok (PNone, PNone).
Proof. repeat split; reflexivity. Qed.

(** * The remote client *)

Section Cliente.

Variable w : mundo.
Variable e : endpoint.

Lemma mismos_refl s : mismos_archivos s s.
Proof. repeat split. Qed.

Lemma mismos_trans s1 s2 s3 :
  mismos_archivos s1 s2 -> mismos_archivos s2 s3 -> mismos_archivos s1 s3.
Proof. unfold mismos_archivos. intuition congruence. Qed.

Lemma requests_get_mismos p s : mismos_archivos s (snd (requests_get w p s)).
Proof. unfold requests_get. destruct (red w (n_red s)); repeat split. Qed.

Lemma sleep_mismos d s : mismos_archivos s (snd (sleep d s)).
Proof. repeat split. Qed.

Lemma intento_try_mismos a s :
  mismos_archivos s (snd (intento_try w e a s)).
Proof.
  unfold intento_try.
  pose proof (requests_get_mismos (PedirMeta e) s) as H1.
  destruct (requests_get w (PedirMeta e) s) as [[[st c]|x] s1]; cbn [snd] in *;
    [|exact H1].
  destruct (st =? 429).
  { cbn [snd]. eapply mismos_trans; [exact H1 | apply sleep_mismos]. }
  destruct (negb (st =? 200)); [exact H1|].
  destruct (resp_json w c) as [meta|f]; [|exact H1].
  destruct (Py.get meta "estado" PNone) as [es|x]; [|exact H1].
  destruct (negb (Py.eq_int es 200)); [exact H1|].
  destruct (Py.get meta "datos" PNone) as [url|x]; [|exact H1].
  destruct (negb (Py.truthy url)); [exact H1|].
  pose proof (requests_get_mismos (PedirDatos url) s1) as H2.
  destruct (requests_get w (PedirDatos url) s1) as [[[st2 c2]|x] s2]; cbn [snd] in *;
    [|eapply mismos_trans; eassumption].
  destruct (negb (st2 =? 200)); [eapply mismos_trans; eassumption|].
  destruct (resp_json w c2); eapply mismos_trans; eassumption.
Qed.

Lemma intento_mismos m a s : mismos_archivos s (snd (intento w e m a s)).
Proof.
  unfold intento. pose proof (intento_try_mismos a s) as H.
  destruct (intento_try w e a s) as [[p|f] s1]; cbn [snd] in *; [exact H|].
  destruct (es_request_exception f).
  - destruct (S a <? m)%nat; [|exact H].
    eapply mismos_trans; [exact H | apply sleep_mismos].
  - destruct (es_json_decode_error f); exact H.
Qed.

Lemma intentos_mismos m q a s :
  mismos_archivos s (snd (intentos w e m q a s)).
Proof.
  revert a s. induction q as [|q IH]; intros a s; [apply mismos_refl|].
  cbn [intentos]. pose proof (intento_mismos m a s) as H.
  destruct (intento w e m a s) as [[|v|x] s1]; cbn [snd] in *; try exact H.
  eapply mismos_trans; [exact H | apply IH].
Qed.

(** The client leaves the files and the calendar alone. *)
Lemma aemet_request_mismos m s :
  mismos_archivos s (snd (aemet_request w e m s)).
Proof. apply intentos_mismos. Qed.

(** The exceptions that leave the client: the [AttributeError] of
    [meta.get] on a body that is JSON without being an object, and what
    [resp.json()] raises on a body besides the decode error. *)
Lemma intento_try_excepcion a s x s1 :
  intento_try w e a s = (inr (Excepcion x), s1) ->
  x = RequestException \/ x = JSONDecodeError
  \/ (x = AttributeError
      /\ exists v, red w (n_red s) = Respuesta 200 (Json v) /\ Py.is_dict v = false)
  \/ exists k, red w k = Respuesta 200 (Rompe x).
Proof.
  unfold intento_try, requests_get.
  destruct (red w (n_red s)) as [|st c] eqn:Hred.
  { intros H. injection H as <- _. auto. }
  destruct (Z.eqb_spec st 429); [discriminate|].
  destruct (Z.eqb_spec st 200) as [->|]; [|discriminate]. cbn [negb].
  destruct c as [|meta|y]; cbn [resp_json].
  { destruct (requests_json_error w); [discriminate|].
    intros H. injection H as <- _. auto. }
  2:{ intros H. injection H as <- _. right. right. right. eauto. }
  destruct meta; cbn [Py.get];
    try (intros H; injection H as <- _; right; right; left; split;
         [reflexivity | eexists; split; reflexivity]).
  destruct (negb _); [discriminate|].
  destruct (negb _); [discriminate|].
  cbn [n_red].
  destruct (red w (S (n_red s))) as [|st2 c2] eqn:Hred2; cbv beta iota;
    [intros H; injection H as <- _; auto|].
  destruct (Z.eqb_spec st2 200) as [->|]; [|discriminate]. cbn [negb].
  destruct c2 as [|v2|y]; cbn [resp_json]; [|discriminate|].
  - destruct (requests_json_error w); [discriminate|].
    intros H. injection H as <- _. auto.
  - intros H. injection H as <- _. right. right. right. eauto.
Qed.

Lemma intento_try_no_propaga a s p s1 :
  intento_try w e a s = (inl p, s1) -> forall x, p <> Propaga x.
Proof.
  unfold intento_try. caso_intento; intros H x; inversion H; discriminate.
Qed.

Lemma intento_propaga m a s x s1 :
  intento w e m a s = (Propaga x, s1) ->
  (x = AttributeError
   /\ exists v, red w (n_red s) = Respuesta 200 (Json v) /\ Py.is_dict v = false)
  \/ exists k, red w k = Respuesta 200 (Rompe x).
Proof.
  unfold intento.
  destruct (intento_try w e a s) as [[p|f] s2] eqn:Ht.
  { intros H. injection H as -> ->.
    now destruct (intento_try_no_propaga _ _ _ _ Ht x). }
  destruct f as [y|]; cbn [es_request_exception es_json_decode_error exn_de].
  - apply intento_try_excepcion in Ht.
    destruct y; try (destruct (Nat.ltb _ _); discriminate); try discriminate;
      intros H; injection H as <- _;
      (destruct Ht as [Ht | [Ht | [(Ht & Hv) | Hk]]]; try discriminate; auto).
  - destruct (Nat.ltb _ _); discriminate.
Qed.

Lemma aemet_request_excepcion m s x :
  fst (aemet_request w e m s) = Raise x ->
  (x = AttributeError
   /\ exists k v, red w k = Respuesta 200 (Json v) /\ Py.is_dict v = false)
  \/ exists k, red w k = Respuesta 200 (Rompe x).
Proof.
  unfold aemet_request. generalize 0%nat as a. generalize m at 2 as q.
  intros q. revert s. induction q as [|q IH]; intros s a; [discriminate|].
  cbn [intentos].
  destruct (intento w e m a s) as [[|v|y] s1] eqn:Hi; cbn [fst].
  - apply IH.
  - discriminate.
  - intros H. injection H as ->.
    destruct (intento_propaga _ _ _ _ _ Hi) as [(-> & v & Hv) | Hk]; [left | now right].
    split; [reflexivity | eauto].
Qed.

(** A client that meets neither an object-less body nor a body on which
    the parser breaks never raises. *)
Lemma aemet_request_sin_excepcion m s :
  (forall k v, red w k = Respuesta 200 (Json v) -> Py.is_dict v = true) ->
  (forall k x, red w k <> Respuesta 200 (Rompe x)) ->
  exists d, fst (aemet_request w e m s) = Ok d.
Proof.
  intros H Hr. destruct (fst (aemet_request w e m s)) as [d|x] eqn:E; [now exists d|].
  destruct (aemet_request_excepcion _ _ _ E) as [(_ & k & v & Hk & Hv) | (k & Hk)].
  - rewrite (H k v Hk) in Hv. discriminate.
  - now destruct (Hr k x).
Qed.

(** Three answers 429: pauses of 30, 60 and 90 seconds, then nothing. *)
Lemma aemet_request_429 s c0 c1 c2 :
  red w (n_red s) = Respuesta 429 c0 ->
  red w (S (n_red s)) = Respuesta 429 c1 ->
  red w (S (S (n_red s))) = Respuesta 429 c2 ->
  exists s',
    aemet_request w e 3 s = (Ok PNone, s')
    /\ dormido s' = (90 :: 60 :: 30 :: dormido s)%Q
    /\ n_red s' = (3 + n_red s)%nat.
Proof.
  intros H0 H1 H2. eexists.
  unfold aemet_request, intentos, intento, intento_try, requests_get.
  cbn [n_red]. rewrite H0. cbv beta iota. cbn [Z.eqb Pos.eqb snd sleep n_red].
  rewrite H1. cbv beta iota. cbn [Z.eqb Pos.eqb snd sleep n_red].
  rewrite H2. cbv beta iota. cbn [Z.eqb Pos.eqb snd sleep n_red].
  split; [reflexivity|]. split; reflexivity.
Qed.

(** Three network failures: two pauses of 5 seconds, then nothing. *)
Lemma aemet_request_fallo_red s :
  red w (n_red s) = FalloRed ->
  red w (S (n_red s)) = FalloRed ->
  red w (S (S (n_red s))) = FalloRed ->
  exists s',
    aemet_request w e 3 s = (Ok PNone, s')
    /\ dormido s' = (5 :: 5 :: dormido s)%Q
    /\ n_red s' = (3 + n_red s)%nat.
Proof.
  intros H0 H1 H2. eexists.
  unfold aemet_request, intentos, intento, intento_try, requests_get.
  cbn [n_red]. rewrite H0. cbv beta iota.
  cbn [es_request_exception Nat.ltb Nat.leb snd sleep n_red].
  rewrite H1. cbv beta iota.
  cbn [es_request_exception Nat.ltb Nat.leb snd sleep n_red].
  rewrite H2. cbv beta iota.
  cbn [es_request_exception Nat.ltb Nat.leb snd sleep n_red].
  split; [reflexivity|]. split; reflexivity.
Qed.

(** Another status than 200 and 429: nothing, at once. *)
Lemma aemet_request_otro_status s st c :
  red w (n_red s) = Respuesta st c -> st <> 200 -> st <> 429 ->
  exists s',
    aemet_request w e 3 s = (Ok PNone, s')
    /\ dormido s' = dormido s /\ n_red s' = S (n_red s).
Proof.
  intros H0 H200 H429. eexists.
  unfold aemet_request, intentos, intento, intento_try, requests_get.
  rewrite H0. cbv beta iota.
  destruct (Z.eqb_spec st 429); [contradiction|].
  destruct (Z.eqb_spec st 200); [contradiction|]. cbn [negb].
  split; [reflexivity|]. split; reflexivity.
Qed.

(** Malformed JSON, when [resp.json()] raises json's own error: nothing,
    at once. *)
Lemma aemet_request_json_ilegible s :
  red w (n_red s) = Respuesta 200 Ilegible ->
  requests_json_error w = false ->
  exists s',
    aemet_request w e 3 s = (Ok PNone, s')
    /\ dormido s' = dormido s /\ n_red s' = S (n_red s).
Proof.
  intros H0 Hj. eexists.
  unfold aemet_request, intentos, intento, intento_try, requests_get.
  rewrite H0. cbv beta iota. cbn [Z.eqb Pos.eqb negb resp_json]. rewrite Hj.
  cbn [es_request_exception es_json_decode_error].
  split; [reflexivity|]. split; reflexivity.
Qed.

(** Malformed JSON, when [resp.json()] raises the error of [requests],
    which is a [RequestException]: a pause of 5 seconds and another
    attempt, as after a network failure, and nothing after the third. *)
Lemma aemet_request_json_reintenta s :
  requests_json_error w = true ->
  red w (n_red s) = Respuesta 200 Ilegible ->
  red w (S (n_red s)) = Respuesta 200 Ilegible ->
  red w (S (S (n_red s))) = Respuesta 200 Ilegible ->
  exists s',
    aemet_request w e 3 s = (Ok PNone, s')
    /\ dormido s' = (5 :: 5 :: dormido s)%Q
    /\ n_red s' = (3 + n_red s)%nat.
Proof.
  intros Hj H0 H1 H2. eexists.
  unfold aemet_request, intentos, intento, intento_try, requests_get.
  cbn [n_red]. rewrite H0. cbv beta iota. cbn [Z.eqb Pos.eqb negb resp_json].
  rewrite Hj. cbn [es_request_exception Nat.ltb Nat.leb snd sleep n_red].
  rewrite H1. cbv beta iota. cbn [Z.eqb Pos.eqb negb resp_json].
  rewrite Hj. cbn [es_request_exception Nat.ltb Nat.leb snd sleep n_red].
  rewrite H2. cbv beta iota. cbn [Z.eqb Pos.eqb negb resp_json].
  rewrite Hj. cbn [es_request_exception Nat.ltb Nat.leb snd sleep n_red].
  split; [reflexivity|]. split; reflexivity.
Qed.

(** The two hops: an envelope in state 200 with a data URL, then the data. *)
Lemma aemet_request_exito s meta v :
  red w (n_red s) = Respuesta 200 (Json (PDict meta)) ->
  Py.eq_int (match Py.lookup "estado" meta with Some x => x | None => PNone end) 200
  = true ->
  Py.truthy (match Py.lookup "datos" meta with Some x => x | None => PNone end)
  = true ->
  red w (S (n_red s)) = Respuesta 200 (Json v) ->
  exists s',
    aemet_request w e 3 s = (Ok v, s')
    /\ dormido s' = dormido s /\ n_red s' = S (S (n_red s)).
Proof.
  intros H0 He Hd H1. eexists.
  unfold aemet_request, intentos, intento, intento_try, requests_get.
  rewrite H0. cbv beta iota. cbn [Z.eqb Pos.eqb negb resp_json Py.get].
  rewrite He. cbn [negb]. rewrite Hd. cbn [negb n_red]. rewrite H1.
  cbv beta iota. cbn [Z.eqb Pos.eqb negb resp_json].
  split; [reflexivity|]. split; reflexivity.
Qed.

(** The first answer has status 200 and a body that is JSON without being
    an object: [meta.get] raises [AttributeError], no [except] clause takes
    it, and the exception reaches the caller. *)
Lemma aemet_request_raises s v :
  red w (n_red s) = Respuesta 200 (Json v) ->
  Py.is_dict v = false ->
  fst (aemet_request w e 3 s) = Raise AttributeError.
Proof.
  intros Hred Hv.
  unfold aemet_request, intentos, intento, intento_try, requests_get.
  rewrite Hred. cbv beta iota. cbn [Z.eqb Pos.eqb negb resp_json].
  destruct v; try discriminate; reflexivity.
Qed.

(** C5, amended. Remote client failure signalling.  The client signals a
    failure by returning nothing.  On three answers 429 it sleeps 30, 60
    and 90 seconds, one pause after each, and returns nothing.  On another
    status than 200 it returns nothing at once, without another attempt.
    On a body that is not JSON it pauses 5 seconds and tries again, as
    after a network failure, and returns nothing after the third such
    body: this is so when [resp.json()] raises the error of [requests],
    which is a [RequestException]; when it raises json's own error, as
    older versions of [requests] do, the client returns nothing at once.
    On three network failures it pauses 5 seconds between the attempts
    and returns nothing after the third.  An envelope in state 200 with a
    data URL, followed by the data, gives the data. *)
Theorem aemet_request_signalling :
  forall s : estado,
    ((exists c0 c1 c2,
         red w (n_red s) = Respuesta 429 c0
         /\ red w (S (n_red s)) = Respuesta 429 c1
         /\ red w (S (S (n_red s))) = Respuesta 429 c2) ->
     exists s',
       aemet_request w e 3 s = (Ok PNone, s')
       /\ dormido s' = (90 :: 60 :: 30 :: dormido s)%Q
       /\ n_red s' = (3 + n_red s)%nat)
    /\ ((exists st c, red w (n_red s) = Respuesta st c /\ st <> 200 /\ st <> 429) ->
        exists s',
          aemet_request w e 3 s = (Ok PNone, s')
          /\ dormido s' = dormido s /\ n_red s' = S (n_red s))
    /\ (requests_json_error w = true
        /\ red w (n_red s) = Respuesta 200 Ilegible
        /\ red w (S (n_red s)) = Respuesta 200 Ilegible
        /\ red w (S (S (n_red s))) = Respuesta 200 Ilegible ->
        exists s',
          aemet_request w e 3 s = (Ok PNone, s')
          /\ dormido s' = (5 :: 5 :: dormido s)%Q
          /\ n_red s' = (3 + n_red s)%nat)
    /\ (requests_json_error w = false
        /\ red w (n_red s) = Respuesta 200 Ilegible ->
        exists s',
          aemet_request w e 3 s = (Ok PNone, s')
          /\ dormido s' = dormido s /\ n_red s' = S (n_red s))
    /\ (red w (n_red s) = FalloRed
        /\ red w (S (n_red s)) = FalloRed
        /\ red w (S (S (n_red s))) = FalloRed ->
        exists s',
          aemet_request w e 3 s = (Ok PNone, s')
          /\ dormido s' = (5 :: 5 :: dormido s)%Q
          /\ n_red s' = (3 + n_red s)%nat)
    /\ (forall meta v,
           red w (n_red s) = Respuesta 200 (Json (PDict meta)) ->
           Py.eq_int (match Py.lookup "estado" meta with Some x => x | None => PNone end)
             200 = true ->
           Py.truthy (match Py.lookup "datos" meta with Some x => x | None => PNone end)
           = true ->
           red w (S (n_red s)) = Respuesta 200 (Json v) ->
           exists s',
             aemet_request w e 3 s = (Ok v, s')
             /\ dormido s' = dormido s /\ n_red s' = S (S (n_red s))).
Proof.
  intros s. repeat split.
  - intros (c0 & c1 & c2 & H0 & H1 & H2). eapply aemet_request_429; eassumption.
  - intros (st & c & H0 & H200 & H429). eapply aemet_request_otro_status; eassumption.
  - intros (Hj & H0 & H1 & H2). now apply aemet_request_json_reintenta.
  - intros (Hj & H0). now apply aemet_request_json_ilegible.
  - intros (H0 & H1 & H2). now apply aemet_request_fallo_red.
  - intros meta v. apply aemet_request_exito.
Qed.

End Cliente.

(** * The directory and its cache *)

Lemma cache_ilegible_se_ignora w s :
  cache_file s = Some Ilegible -> cache_de_hoy w s = (Ok None, s).
Proof.
  intros H. unfold cache_de_hoy. unfold seguir, read_cache. rewrite H. reflexivity.
Qed.

Lemma cache_antigua_en s :
  cache_antigua s
  = match cache_file s with
    | Some t => (cache <- json_loads t ;; Py.get cache "provincias" (PDict []), s)
    | None => (Ok (PDict []), s)
    end.
Proof.
  unfold cache_antigua, seguir, read_cache, puro, ret.
  destruct (cache_file s) as [[|v|x]|]; reflexivity.
Qed.

(** Without a cache file and without an answer, an empty mapping. *)
Lemma obtener_municipios_sin_nada w s d s1 :
  cache_file s = None ->
  aemet_request w Maestro 3 s = (Ok d, s1) -> Py.truthy d = false ->
  obtener_municipios w s = (Ok (PDict []), s1).
Proof.
  intros Hc Hr Hd. unfold obtener_municipios, cache_de_hoy.
  unfold seguir, read_cache, ret.
  rewrite Hc, Hr, Hd. cbn [negb]. rewrite cache_antigua_en.
  destruct (aemet_request_mismos w Maestro 3 s) as (Hc1 & _).
  rewrite Hr in Hc1. cbn [snd] in Hc1. rewrite Hc1, Hc. reflexivity.
Qed.

(** C6. Directory corruption tolerance.  When the cache file is not JSON
    and the download fails, the fallback reads the file again, outside
    any [try], and the [JSONDecodeError] leaves [obtener_municipios]. *)
Theorem stale_cache_parse_error :
  forall (w : mundo) (s s1 : estado) (d : pyval),
    cache_file s = Some Ilegible ->
    aemet_request w Maestro 3 s = (Ok d, s1) ->
    Py.truthy d = false ->
    obtener_municipios w s = (Raise JSONDecodeError, s1).
Proof.
  intros w s s1 d Hc Hr Hd.
  unfold obtener_municipios, seguir.
  rewrite (cache_ilegible_se_ignora w s Hc), Hr, Hd. cbn [negb].
  rewrite cache_antigua_en.
  destruct (aemet_request_mismos w Maestro 3 s) as (Hc1 & _).
  rewrite Hr in Hc1. cbn [snd] in Hc1. rewrite Hc1, Hc. reflexivity.
Qed.

(** A cache of another day and no answer: the old cache's mapping. *)
Lemma obtener_municipios_cache_antigua w s c d s2 :
  cache_file s = Some (Json (PDict c)) ->
  Py.eq_str (match Py.lookup "fecha" c with Some x => x | None => PNone end)
    (Fecha.iso (fecha_de (calendario w (n_calendario s)))) = false ->
  aemet_request w Maestro 3 (snd (datetime_now w s)) = (Ok d, s2) ->
  Py.truthy d = false ->
  obtener_municipios w s
  = (Ok (match Py.lookup "provincias" c with Some p => p | None => PDict [] end), s2).
Proof.
  intros Hc Hf Hr Hd.
  unfold obtener_municipios, cache_de_hoy, o_pass, seguir, read_cache, puro, ret.
  rewrite Hc. cbn [json_loads Py.get]. cbv beta iota.
  cbn [datetime_now snd] in Hr. cbn [datetime_now]. cbv beta iota.
  rewrite Hf. cbv beta iota. rewrite Hr, Hd. cbn [negb].
  rewrite cache_antigua_en.
  destruct (aemet_request_mismos w Maestro 3
              {| n_red := n_red s; n_reloj := n_reloj s;
                 n_calendario := S (n_calendario s); pedidos := pedidos s;
                 dormido := dormido s; cache_file := cache_file s;
                 json_file := json_file s |}) as (Hc1 & _).
  rewrite Hr in Hc1. cbn [snd cache_file] in Hc1. rewrite Hc1, Hc. reflexivity.
Qed.

(** * The directory, sorted *)

Lemma insertar_perm m l : Permutation (m :: l) (Mun.insertar m l).
Proof.
  induction l as [|m' l IH]; cbn; [constructor; constructor|].
  destruct (Mun.habitantes m' <=? Mun.habitantes m); [apply Permutation_refl|].
  eapply perm_trans; [apply perm_swap | now constructor].
Qed.

Lemma ordenar_perm l : Permutation l (Mun.ordenar l).
Proof.
  induction l as [|m l IH]; cbn; [constructor|].
  eapply perm_trans; [constructor; exact IH | apply insertar_perm].
Qed.

Lemma insertar_descendente m l :
  Mun.descendente l -> Mun.descendente (Mun.insertar m l).
Proof.
  unfold Mun.descendente. induction 1 as [|m' l Hl IH Hm']; cbn.
  - constructor; constructor.
  - destruct (Z.leb_spec (Mun.habitantes m') (Mun.habitantes m)).
    + constructor; [now constructor|].
      constructor; [assumption|].
      eapply Forall_impl; [|exact Hm']. cbn. intros; lia.
    + constructor; [assumption|].
      eapply Permutation_Forall; [apply insertar_perm|].
      constructor; [lia | assumption].
Qed.

(** The sort of [obtener_municipios] leaves every province by population,
    the larger first. *)
Lemma ordenar_descendente l : Mun.descendente (Mun.ordenar l).
Proof.
  induction l as [|m l IH]; cbn; [constructor | now apply insertar_descendente].
Qed.

(** * Capitals-only mode *)

Lemma filtrar_capitales_tipado l :
  filtrar_capitales (map Mun.a_py l)
  = Ok (map Mun.a_py (filter Mun.es_capital l)).
Proof.
  induction l as [|m l IH]; [reflexivity|].
  cbn [map filtrar_capitales]. rewrite IH.
  cbn. destruct (Mun.es_capital m); reflexivity.
Qed.

Lemma seleccion_tipada l :
  seleccion (PList (map Mun.a_py l)) = Ok (map Mun.a_py (Mun.elegidos l)).
Proof.
  unfold seleccion, Mun.elegidos. cbn [Py.iter bind].
  rewrite filtrar_capitales_tipado. cbn [bind].
  destruct (filter Mun.es_capital l) as [|c cs]; [|reflexivity].
  cbn. destruct l; reflexivity.
Qed.

Lemma sin_capital_elegidos m l :
  forallb (fun x => negb (Mun.es_capital x)) (m :: l) = true ->
  Mun.elegidos (m :: l) = [m].
Proof.
  intros H. unfold Mun.elegidos.
  rewrite filter_nada; [reflexivity|].
  rewrite forallb_forall in H. rewrite Forall_forall. intros x Hx.
  now apply negb_true_iff, H.
Qed.

Lemma con_capital_elegidos l :
  existsb Mun.es_capital l = true ->
  Mun.elegidos l = filter Mun.es_capital l.
Proof.
  intros H. unfold Mun.elegidos.
  destruct (filter Mun.es_capital l) eqn:E; [|reflexivity].
  apply existsb_exists in H as (x & Hx & Hc).
  assert (Hin : In x (filter Mun.es_capital l)) by now apply filter_In.
  rewrite E in Hin. contradiction.
Qed.

(** The record of one municipality. *)
Lemma capital_una_inv w hoy p mun s r s' :
  capital_una w hoy p mun s = (Ok r, s') ->
  Py.getitem mun "codigo" = Ok (Lec.codigo r)
  /\ Py.getitem mun "nombre" = Ok (Lec.municipio r)
  /\ Py.getitem mun "habitantes" = Ok (Lec.habitantes r)
  /\ Lec.es_capital r = PBool true
  /\ Lec.provincia r = p /\ Lec.fecha r = hoy.
Proof.
  unfold capital_una, seguir, puro, sleep, ret.
  destruct (Py.getitem mun "codigo") as [cod|]; [|discriminate].
  destruct (aemet_request w (Diaria cod) 3 s) as [[datos|] s1]; [|discriminate].
  destruct (if Py.truthy datos then _ else _) as [tt_|]; [|discriminate].
  destruct (Py.getitem mun "nombre") as [nom|]; [|discriminate].
  destruct (Py.getitem mun "habitantes") as [hab|]; [|discriminate].
  intros H. injection H as <- _. cbn. repeat split.
Qed.

Lemma capital_una_registro w hoy p mun s r s' :
  capital_una w hoy p mun s = (Ok r, s') -> registro_capital hoy p mun r.
Proof. apply capital_una_inv. Qed.

Lemma capitales_de_inv w hoy p muns s recs s' :
  capitales_de w hoy p muns s = (Ok recs, s') ->
  Forall2 (registro_capital hoy p) muns recs.
Proof.
  revert s recs s'. induction muns as [|mun muns IH]; intros s recs s'.
  - cbn. intros H. injection H as <- _. constructor.
  - cbn [capitales_de]. unfold seguir at 1.
    destruct (capital_una w hoy p mun s) as [[r|] s1] eqn:H1; [|discriminate].
    unfold seguir at 1.
    destruct (capitales_de w hoy p muns s1) as [[rs|] s2] eqn:H2; [|discriminate].
    intros H. injection H as <- _.
    constructor; [eapply capital_una_inv; eassumption | eapply IH; eassumption].
Qed.

Lemma buscar_poner p l r : Lec.buscar p (Lec.poner p l r) = Some l.
Proof.
  induction r as [|[q l'] r IH]; cbn; [now rewrite String.eqb_refl|].
  destruct (String.eqb_spec p q) as [->|Hne]; cbn.
  - now rewrite String.eqb_refl.
  - destruct (String.eqb_spec p q); [contradiction | exact IH].
Qed.

Lemma buscar_poner_otro p q l r :
  p <> q -> Lec.buscar q (Lec.poner p l r) = Lec.buscar q r.
Proof.
  intros Hne. induction r as [|[k l'] r IH]; cbn.
  - destruct (String.eqb_spec q p); [congruence | reflexivity].
  - destruct (String.eqb_spec p k) as [->|Hpk]; cbn.
    + destruct (String.eqb_spec q k); [congruence | reflexivity].
    + destruct (String.eqb_spec q k); [reflexivity | exact IH].
Qed.

Lemma poner_In p l r q recs :
  In (q, recs) (Lec.poner p l r) -> (q = p /\ recs = l) \/ In (q, recs) r.
Proof.
  induction r as [|[k l'] r IH]; cbn.
  - intros [H|[]]. injection H as <- <-. auto.
  - destruct (String.eqb_spec p k) as [->|Hpk]; cbn.
    + intros [H|H]; [injection H as <- <-; auto | auto].
    + intros [H|H]; [auto|]. destruct (IH H); auto.
Qed.

Lemma capitales_provincias_inv w hoy provs r0 s res s' :
  capitales_provincias w hoy provs r0 s = (Ok res, s') ->
  NoDup (map fst provs) ->
  (forall p muns,
      In (p, muns) provs ->
      exists sel recs,
        seleccion muns = Ok sel /\ Lec.buscar p res = Some recs
        /\ Forall2 (registro_capital hoy p) sel recs)
  /\ (forall q, ~ In q (map fst provs) -> Lec.buscar q res = Lec.buscar q r0).
Proof.
  revert r0 s. induction provs as [|[p muns] provs IH]; intros r0 s.
  - cbn. intros H _. injection H as <- _. split; [intros ? ? []|reflexivity].
  - cbn [capitales_provincias]. unfold seguir at 1, puro.
    destruct (seleccion muns) as [sel|] eqn:Hsel; [|discriminate].
    unfold seguir at 1.
    destruct (capitales_de w hoy p sel s) as [[recs|] s1] eqn:Hrecs; [|discriminate].
    intros H Hnd. cbn [map fst] in Hnd. inversion Hnd as [|? ? Hp Hnd']; subst.
    destruct (IH _ _ H Hnd') as (IH1 & IH2).
    split.
    + intros q m [Hq|Hq].
      * injection Hq as <- <-. exists sel, recs.
        split; [assumption|]. split.
        -- rewrite (IH2 p Hp). apply buscar_poner.
        -- eapply capitales_de_inv; eassumption.
      * now apply IH1.
    + intros q Hq. cbn [map fst] in Hq.
      rewrite IH2 by (intros Hc; apply Hq; now right).
      apply buscar_poner_otro. intros ->. apply Hq. now left.
Qed.

Lemma capitales_provincias_flag w hoy provs r0 s res s' :
  capitales_provincias w hoy provs r0 s = (Ok res, s') ->
  (forall p recs r, In (p, recs) r0 -> In r recs -> Lec.es_capital r = PBool true) ->
  forall p recs r, In (p, recs) res -> In r recs -> Lec.es_capital r = PBool true.
Proof.
  revert r0 s. induction provs as [|[p muns] provs IH]; intros r0 s.
  - cbn. intros H. injection H as <- _. auto.
  - cbn [capitales_provincias]. unfold seguir at 1, puro.
    destruct (seleccion muns) as [sel|] eqn:Hsel; [|discriminate].
    unfold seguir at 1.
    destruct (capitales_de w hoy p sel s) as [[recs|] s1] eqn:Hrecs; [|discriminate].
    intros H H0. eapply IH; [exact H|].
    intros q recs' r Hin Hr. apply poner_In in Hin as [(-> & ->)|Hin].
    + apply capitales_de_inv in Hrecs.
      clear - Hrecs Hr. induction Hrecs as [|mun r' muns rs Hm _ IHr]; [contradiction|].
      destruct Hr as [<-|Hr]; [apply Hm | now apply IHr].
    + eapply H0; eassumption.
Qed.

Lemma insertar_item_perm {A} (kv : string * A) l :
  Permutation (kv :: l) (insertar_item kv l).
Proof.
  induction l as [|kv' l IH]; cbn; [constructor; constructor|].
  destruct (String.leb (fst kv) (fst kv')); [apply Permutation_refl|].
  eapply perm_trans; [apply perm_swap | now constructor].
Qed.

Lemma sorted_items_perm {A} (d : list (string * A)) : Permutation d (sorted_items d).
Proof.
  induction d as [|kv d IH]; cbn; [constructor|].
  eapply perm_trans; [constructor; exact IH | apply insertar_item_perm].
Qed.

Lemma items_dir dir :
  items (Mun.dir_a_py dir)
  = Ok (map (fun pl => (fst pl, PList (map Mun.a_py (snd pl)))) dir).
Proof. reflexivity. Qed.

(** What a run of capitals-only mode that returns has done with each
    province of the directory. *)
Lemma capitales_inv w s res s' dir :
  obtener_temperaturas_capitales w s = (Ok res, s') ->
  fst (obtener_municipios w (snd (datetime_now w s))) = Ok (Mun.dir_a_py dir) ->
  NoDup (map fst dir) ->
  forall p l,
    In (p, l) dir ->
    exists recs,
      Lec.buscar p res = Some recs
      /\ Forall2 (registro_capital (Fecha.iso (fecha_de (calendario w (n_calendario s)))) p)
           (map Mun.a_py (Mun.elegidos l)) recs.
Proof.
  intros Hrun Hdir Hnd p l Hin.
  unfold obtener_temperaturas_capitales in Hrun.
  unfold seguir at 1 in Hrun. cbn [datetime_now] in Hrun, Hdir.
  unfold seguir at 1 in Hrun.
  destruct (obtener_municipios w _) as [[pm|] s1]; [|discriminate].
  cbn [fst] in Hdir. injection Hdir as ->.
  unfold seguir at 1, puro in Hrun. rewrite items_dir in Hrun.
  set (its := map (fun pl => (fst pl, PList (map Mun.a_py (snd pl)))) dir) in *.
  assert (Hnd' : NoDup (map fst (sorted_items its))).
  { eapply Permutation_NoDup; [apply Permutation_map, sorted_items_perm|].
    unfold its. rewrite map_map. cbn. exact Hnd. }
  destruct (capitales_provincias_inv _ _ _ _ _ _ _ Hrun Hnd') as (H1 & _).
  destruct (H1 p (PList (map Mun.a_py l))) as (sel & recs & Hsel & Hb & Hrecs).
  { eapply Permutation_in; [apply sorted_items_perm|].
    unfold its. apply in_map_iff. exists (p, l). split; [reflexivity | assumption]. }
  rewrite seleccion_tipada in Hsel. injection Hsel as <-.
  exists recs. split; assumption.
Qed.

Lemma primero_es_mayor m l :
  Mun.descendente (m :: l) ->
  forall m', In m' (m :: l) -> Mun.habitantes m' <= Mun.habitantes m.
Proof.
  intros H m' [<-|Hin]; [lia|].
  inversion H as [|? ? _ Hall]; subst.
  rewrite Forall_forall in Hall. now apply Hall.
Qed.

Lemma codigos_registros hoy p l recs :
  Forall2 (registro_capital hoy p) (map Mun.a_py l) recs ->
  map Lec.codigo recs = map (fun m => PStr (Mun.codigo m)) l.
Proof.
  revert recs. induction l as [|m l IH]; intros recs H; inversion H; subst.
  - reflexivity.
  - cbn [map]. f_equal; [|now apply IH].
    match goal with Hr : registro_capital _ _ _ _ |- _ => destruct Hr as (Hc & _) end.
    cbn in Hc. now injection Hc as <-.
Qed.

(** C7. Capital fallback selection.  For a province of the directory whose
    list is not empty and goes by population, the larger first: when no
    entry is flagged as capital, capitals-only mode keeps one entry, one
    of the highest population, and the run has exactly one record for the
    province, with that entry's code; when entries are flagged, it keeps
    exactly those, and the run has their records, in the order of the
    list. *)
Theorem capital_fallback_selection :
  forall (w : mundo) (s s' : estado) (res : Lec.por_provincia)
         (dir : Mun.directorio) (prov : string) (l : list Mun.t),
    obtener_temperaturas_capitales w s = (Ok res, s') ->
    fst (obtener_municipios w (snd (datetime_now w s))) = Ok (Mun.dir_a_py dir) ->
    NoDup (map fst dir) ->
    In (prov, l) dir ->
    l <> [] ->
    Mun.descendente l ->
    exists sel recs,
      seleccion (PList (map Mun.a_py l)) = Ok (map Mun.a_py sel)
      /\ Lec.buscar prov res = Some recs
      /\ map Lec.codigo recs = map (fun m => PStr (Mun.codigo m)) sel
      /\ (forallb (fun m => negb (Mun.es_capital m)) l = true ->
          exists m,
            sel = [m] /\ In m l
            /\ forall m', In m' l -> Mun.habitantes m' <= Mun.habitantes m)
      /\ (existsb Mun.es_capital l = true -> sel = filter Mun.es_capital l).
Proof.
  intros w s s' res dir prov l Hrun Hdir Hnd Hin Hne Hdesc.
  destruct (capitales_inv _ _ _ _ _ Hrun Hdir Hnd prov l Hin) as (recs & Hb & Hrecs).
  exists (Mun.elegidos l), recs.
  split; [apply seleccion_tipada|]. split; [assumption|].
  split; [eapply codigos_registros; eassumption|]. split.
  - intros Hsin. destruct l as [|m l]; [contradiction|].
    exists m. split; [now apply sin_capital_elegidos|].
    split; [now left | now apply primero_es_mayor].
  - apply con_capital_elegidos.
Qed.

(** C10. The flag of capitals-only mode.  Every record of a run of
    capitals-only mode has [es_capital] true.  That includes the record of
    a province without a flagged capital: it is the record of the first
    entry, whose own flag in the directory is false. *)
Theorem capitals_flag_always_true :
  forall (w : mundo) (s s' : estado) (res : Lec.por_provincia),
    obtener_temperaturas_capitales w s = (Ok res, s') ->
    (forall prov recs r,
        In (prov, recs) res -> In r recs -> Lec.es_capital r = PBool true)
    /\ (forall (dir : Mun.directorio) (prov : string) (m : Mun.t) (l : list Mun.t),
           fst (obtener_municipios w (snd (datetime_now w s))) = Ok (Mun.dir_a_py dir) ->
           NoDup (map fst dir) ->
           In (prov, m :: l) dir ->
           forallb (fun x => negb (Mun.es_capital x)) (m :: l) = true ->
           exists r,
             Lec.buscar prov res = Some [r]
             /\ Lec.codigo r = PStr (Mun.codigo m)
             /\ Mun.es_capital m = false
             /\ Lec.es_capital r = PBool true).
Proof.
  intros w s s' res Hrun. split.
  - unfold obtener_temperaturas_capitales in Hrun.
    unfold seguir at 1 in Hrun. cbn [datetime_now] in Hrun.
    unfold seguir at 1 in Hrun.
    destruct (obtener_municipios w _) as [[pm|] s1]; [|discriminate].
    unfold seguir at 1, puro in Hrun.
    destruct (items pm) as [its|]; [|discriminate].
    eapply capitales_provincias_flag; [exact Hrun|].
    intros ? ? ? [].
  - intros dir prov m l Hdir Hnd Hin Hsin.
    destruct (capitales_inv _ _ _ _ _ Hrun Hdir Hnd prov _ Hin) as (recs & Hb & Hrecs).
    rewrite (sin_capital_elegidos _ _ Hsin) in Hrecs.
    inversion Hrecs as [|? r ? rs Hr Hnil]; subst. inversion Hnil; subst.
    exists r. split; [assumption|].
    destruct Hr as (Hc & _ & _ & Hcap & _). cbn in Hc. injection Hc as <-.
    split; [reflexivity|]. split; [|assumption].
    cbn [forallb] in Hsin. apply andb_true_iff in Hsin as (Hm & _).
    now apply negb_true_iff.
Qed.

(** A download: the directory that [obtener_municipios] returns and caches
    has every province by population, the larger first. *)
Lemma obtener_municipios_descarga w s datos s1 l g :
  cache_file s = None ->
  aemet_request w Maestro 3 s = (Ok datos, s1) ->
  Py.truthy datos = true ->
  Py.iter datos = Ok l ->
  agrupar l [] = Ok g ->
  let provincias := map (fun pl => (fst pl, Mun.ordenar (snd pl))) g in
  exists s2,
    obtener_municipios w s = (Ok (Mun.dir_a_py provincias), s2)
    /\ Forall (fun pl => Mun.descendente (snd pl)) provincias
    /\ cache_file s2
       = Some (Json (PDict
           [ ("fecha", PStr (Fecha.iso (fecha_de (calendario w (n_calendario s)))));
             ("total", PInt (total_de provincias));
             ("provincias", Mun.dir_a_py provincias) ])).
Proof.
  intros Hc Hr Hd Hl Hg provincias.
  destruct (aemet_request_mismos w Maestro 3 s) as (_ & _ & Hcal & _).
  rewrite Hr in Hcal. cbn [snd] in Hcal.
  eexists. split; [|split].
  - unfold obtener_municipios, cache_de_hoy.
    unfold seguir, read_cache, puro, write_cache, ret.
    rewrite Hc, Hr, Hd, Hl, Hg. cbn [negb datetime_now]. reflexivity.
  - unfold provincias. rewrite Forall_map, Forall_forall. intros pl _.
    apply ordenar_descendente.
  - cbn [cache_file]. rewrite Hcal. reflexivity.
Qed.

(** ** A network that never answers *)

Lemma intento_sin_200 w e m a s :
  sin_200 w ->
  fst (intento w e m a s) = Continue \/ fst (intento w e m a s) = Return PNone.
Proof.
  intros H. unfold intento, intento_try, requests_get.
  destruct (red w (n_red s)) as [|st c] eqn:Hred; cbv beta iota.
  - cbn [es_request_exception]. destruct (Nat.ltb _ _); auto.
  - destruct (Z.eqb_spec st 429); [now left|].
    destruct (Z.eqb_spec st 200) as [->|]; [|now right].
    now destruct (H _ _ Hred).
Qed.

Lemma intentos_sin_200 w e m q a s :
  sin_200 w -> fst (intentos w e m q a s) = Ok PNone.
Proof.
  intros H. revert a s. induction q as [|q IH]; intros a s; [reflexivity|].
  cbn [intentos]. destruct (intento_sin_200 w e m a s H) as [E|E];
    destruct (intento w e m a s) as [[|v|x] s1]; cbn [fst] in E; try discriminate.
  - apply IH.
  - now injection E as ->.
Qed.

(** Without an answer the client returns nothing, and raises nothing. *)
Lemma aemet_request_sin_200 w e m s :
  sin_200 w -> fst (aemet_request w e m s) = Ok PNone.
Proof. apply intentos_sin_200. Qed.

Lemma capital_una_sin_200 w hoy p m s :
  sin_200 w ->
  exists s',
    capital_una w hoy p (Mun.a_py m) s = (Ok (registro_sin_datos hoy p m), s').
Proof.
  intros H. unfold capital_una, seguir, puro, sleep, ret.
  cbn [Mun.a_py Py.getitem Py.lookup String.eqb Ascii.eqb Bool.eqb].
  pose proof (aemet_request_sin_200 w (Diaria (PStr (Mun.codigo m))) 3 s H) as E.
  destruct (aemet_request w (Diaria (PStr (Mun.codigo m))) 3 s) as [r s1].
  cbn [fst] in E. subst r. cbn. eexists. reflexivity.
Qed.

Lemma capitales_de_sin_200 w hoy p l s :
  sin_200 w ->
  exists s',
    capitales_de w hoy p (map Mun.a_py l) s
    = (Ok (map (registro_sin_datos hoy p) l), s').
Proof.
  intros H. revert s. induction l as [|m l IH]; intros s; [eexists; reflexivity|].
  cbn [map capitales_de]. unfold seguir at 1.
  destruct (capital_una_sin_200 w hoy p m s H) as (s1 & ->).
  unfold seguir at 1. destruct (IH s1) as (s2 & ->).
  eexists. reflexivity.
Qed.

Lemma capitales_provincias_sin_200 w hoy (dir : Mun.directorio) r0 s :
  sin_200 w ->
  exists s',
    capitales_provincias w hoy
      (map (fun pl => (fst pl, PList (map Mun.a_py (snd pl)))) dir) r0 s
    = (Ok (fold_left
             (fun r pl =>
                Lec.poner (fst pl)
                  (map (registro_sin_datos hoy (fst pl)) (Mun.elegidos (snd pl))) r)
             dir r0),
       s').
Proof.
  intros H. revert r0 s. induction dir as [|[p l] dir IH]; intros r0 s.
  - eexists. reflexivity.
  - cbn [map fst snd capitales_provincias fold_left]. unfold seguir at 1, puro.
    rewrite seleccion_tipada. unfold seguir at 1.
    destruct (capitales_de_sin_200 w hoy p (Mun.elegidos l) s H) as (s1 & ->).
    apply IH.
Qed.

Lemma sorted_items_tipado (dir : Mun.directorio) :
  sorted_items (map (fun pl => (fst pl, PList (map Mun.a_py (snd pl)))) dir)
  = map (fun pl => (fst pl, PList (map Mun.a_py (snd pl)))) (sorted_items dir).
Proof.
  induction dir as [|kv dir IH]; [reflexivity|].
  cbn [map sorted_items fold_right]. fold (sorted_items dir).
  fold (sorted_items (map (fun pl => (fst pl, PList (map Mun.a_py (snd pl)))) dir)).
  rewrite IH. generalize (sorted_items dir) as l. clear IH.
  induction l as [|kv' l IHl]; [reflexivity|].
  cbn [map insertar_item fst]. destruct (String.leb (fst kv) (fst kv')); [reflexivity|].
  cbn [map]. now rewrite IHl.
Qed.

Lemma buscar_fold_poner (f : string -> list Mun.t -> list Lec.t)
  (dir : Mun.directorio) r0 p l :
  NoDup (map fst dir) -> In (p, l) dir ->
  Lec.buscar p (fold_left (fun r pl => Lec.poner (fst pl) (f (fst pl) (snd pl)) r) dir r0)
  = Some (f p l).
Proof.
  revert r0. induction dir as [|[q l'] dir IH]; intros r0 Hnd Hin; [contradiction|].
  cbn [map fst] in Hnd. inversion Hnd as [|? ? Hq Hnd']; subst.
  cbn [fold_left fst snd]. destruct Hin as [E|Hin].
  - injection E as -> ->.
    assert (Hk : forall d r, ~ In p (map fst d) ->
               Lec.buscar p (fold_left
                  (fun r pl => Lec.poner (fst pl) (f (fst pl) (snd pl)) r) d r)
               = Lec.buscar p r).
    { clear. induction d as [|[k v] d IHd]; intros r Hk; [reflexivity|].
      cbn [fold_left fst snd]. cbn [map fst] in Hk.
      rewrite IHd by (intros Hc; apply Hk; now right).
      apply buscar_poner_otro. intros ->. apply Hk. now left. }
    rewrite (Hk dir _ Hq). apply buscar_poner.
  - now apply IH.
Qed.

(** Fetch failure isolation, in capitals-only mode: when the network never
    answers, the run still returns, with a record for every entry it
    asked for, the two temperatures absent. *)
Lemma capitales_sin_red w s dir :
  sin_200 w ->
  fst (obtener_municipios w (snd (datetime_now w s))) = Ok (Mun.dir_a_py dir) ->
  NoDup (map fst dir) ->
  let hoy := Fecha.iso (fecha_de (calendario w (n_calendario s))) in
  (exists s',
      obtener_temperaturas_capitales w s = (Ok (resultado_sin_datos hoy dir), s'))
  /\ forall p l,
      In (p, l) dir ->
      Lec.buscar p (resultado_sin_datos hoy dir)
      = Some (map (registro_sin_datos hoy p) (Mun.elegidos l)).
Proof.
  intros H Hdir Hnd hoy. split.
  - unfold obtener_temperaturas_capitales.
    unfold seguir at 1. cbn [datetime_now] in *. unfold seguir at 1.
    destruct (obtener_municipios w _) as [[pm|] s1]; [|discriminate].
    cbn [fst] in Hdir. injection Hdir as ->.
    unfold seguir at 1, puro. rewrite items_dir, sorted_items_tipado.
    apply capitales_provincias_sin_200, H.
  - intros p l Hin. unfold resultado_sin_datos.
    apply (buscar_fold_poner (fun p l => map (registro_sin_datos hoy p) (Mun.elegidos l))).
    + eapply Permutation_NoDup; [apply Permutation_map, sorted_items_perm | exact Hnd].
    + eapply Permutation_in; [apply sorted_items_perm | exact Hin].
Qed.

(** * The exit status *)

Lemma get_api_key_sin_clave w a :
  sin_clave w a -> get_api_key w (api_key a) = Raise (SystemExit 1).
Proof.
  intros (Hcli & Henv & Hfile). unfold get_api_key.
  assert (Hc : match api_key a with Some k => k | None => "" end = "")
    by (destruct Hcli as [-> | ->]; reflexivity).
  rewrite Hc, Henv. cbn [String.eqb negb].
  destruct Hfile as [-> | (t & -> & Ht)]; [reflexivity|].
  rewrite Ht. reflexivity.
Qed.

Lemma get_api_key_exit w k e : get_api_key w k = Raise e -> e = SystemExit 1.
Proof.
  unfold get_api_key.
  destruct (negb _); [discriminate|].
  destruct (negb _); [discriminate|].
  destruct (key_file w); [destruct (negb _); [discriminate|]|];
    intros H; now injection H as <-.
Qed.

(** C9 as stated does not hold.  With a cache of today in which a province
    has no entry, the collection returns a mapping that is not empty and
    has no record, and [main] goes on to write the file and returns: the
    exit status is 0. *)
Lemma fatal_exit_counterexample :
  ~ (forall (w : mundo) (a : args) (s s1 : estado) (dpp : Lec.por_provincia),
        recoger w a s = (Ok dpp, s1) ->
        lecturas dpp = [] ->
        exit_status (fst (main w a s)) <> 0).
Proof.
  intros H.
  apply (H (Ejemplo.mundo_de []) Ejemplo.solo_capitales_con_clave
           (Ejemplo.estado_de (Ejemplo.cache_de (PDict [("Madrid", PList [])])) None)
           (snd (recoger (Ejemplo.mundo_de []) Ejemplo.solo_capitales_con_clave
                   (Ejemplo.estado_de (Ejemplo.cache_de (PDict [("Madrid", PList [])])) None)))
           [("Madrid", [])]).
  - vm_compute. reflexivity.
  - reflexivity.
  - vm_compute. reflexivity.
Qed.

(** C9, amended. Fatal-exit condition.  The exit status is 1 when no key
    is found on the command line, in the environment or in the key file,
    and when the collection returns an empty mapping: [main] ends in
    [sys.exit(1)]. *)
Theorem fatal_exit_condition :
  forall (w : mundo) (a : args) (s : estado),
    sin_clave w a \/ (exists s1, recoger w a s = (Ok [], s1)) ->
    exit_status (fst (main w a s)) = 1
    /\ fst (main w a s) = Raise (SystemExit 1).
Proof.
  intros w a s H.
  assert (E : fst (main w a s) = Raise (SystemExit 1)).
  { unfold main, seguir, puro. destruct H as [H | (s1 & H)].
    - rewrite (get_api_key_sin_clave w a H). reflexivity.
    - destruct (get_api_key w (api_key a)) as [k|e] eqn:Hk.
      + rewrite H. reflexivity.
      + now rewrite (get_api_key_exit _ _ _ Hk). }
  rewrite E. split; reflexivity.
Qed.

(** * The theorems at work *)





(** [average_derivation] on the same run: one record with 10 and 20, one
    without a minimum. *)
Lemma average_derivation_witness :
  (exists viejos rh,
      registros_de
        (json_file (snd (guardar_json (Ejemplo.mundo_de []) Ejemplo.lote 7
                           (Ejemplo.estado_de None Ejemplo.datos_sembrados))))
      = Some (viejos ++ rh)%list
      /\ Forall2
           (fun pd r =>
              let d := snd pd in
              Py.getitem r "min" = Ok (Lec.t_min d)
              /\ Py.getitem r "max" = Ok (Lec.t_max d)
              /\ exists m,
                  Py.getitem r "media" = Ok m
                  /\ media_de (Lec.t_min d) (Lec.t_max d) = Ok m
                  /\ (Lec.t_min d = PNone \/ Lec.t_max d = PNone -> m = PNone)
                  /\ (forall a b,
                         Lec.t_min d = PInt a -> Lec.t_max d = PInt b ->
                         Z.abs (a + b) < 2 ^ 53 ->
                         m = PFloat (FFin (Qred ((a + b) # 2)))
                         /\ Num.round1 (PFloat (FFin (Qred ((a + b) # 2)))) = Ok m))
           (lecturas Ejemplo.lote) rh)
  /\ media_de (PInt 10) (PInt 20) = Ok (PFloat (FFin 15))
  /\ media_de PNone (PInt 20) = Ok PNone.
Proof.
  apply (average_derivation (Ejemplo.mundo_de []) Ejemplo.lote 7
           (Ejemplo.estado_de None Ejemplo.datos_sembrados)).
  por_calculo.
Defined.

(** C5 as stated does not hold.  After an answer 500 there is no other
    attempt, although the next one would have got the data; an envelope
    that is a JSON list makes the client raise; and under an older
    [requests] a body that is not JSON ends the call at once, without the
    pause and the other attempts. *)
Lemma aemet_request_counterexample :
  (let w := Ejemplo.mundo_de
              [Respuesta 500 Ilegible; Ejemplo.sobre; Ejemplo.prediccion 4 15] in
   let r := aemet_request w Maestro 3 (Ejemplo.estado_de None None) in
   fst r = Ok PNone
   /\ n_red (snd r) = 1%nat
   /\ dormido (snd r) = []
   /\ fst (aemet_request w Maestro 3 (snd r))
      = Ok (prediccion_de [dia_directo "2024-03-05T00:00:00" (PInt 4) (PInt 15)]))
  /\ fst (aemet_request (Ejemplo.mundo_de [Respuesta 200 (Json (PList []))]) Maestro 3
            (Ejemplo.estado_de None None))
     = Raise AttributeError
  /\ (let w := Ejemplo.mundo_antiguo
                 [Respuesta 200 Ilegible; Ejemplo.sobre; Ejemplo.prediccion 4 15] in
      let r := aemet_request w Maestro 3 (Ejemplo.estado_de None None) in
      fst r = Ok PNone
      /\ n_red (snd r) = 1%nat
      /\ dormido (snd r) = []).
Proof.
  split; [repeat split | split; [|repeat split]]; por_calculo.
Qed.

(** [aemet_request_signalling] on three answers 429, on an answer 500, on
    three bodies that are not JSON, on such a body under an older
    [requests], on a network that fails, and on an envelope followed by
    its data. *)
Lemma aemet_request_signalling_witness :
  (exists s',
      aemet_request
        (Ejemplo.mundo_de [Respuesta 429 Ilegible; Respuesta 429 Ilegible;
                           Respuesta 429 Ilegible])
        Maestro 3 (Ejemplo.estado_de None None)
      = (Ok PNone, s')
      /\ dormido s' = (90 :: 60 :: 30 :: [])%Q
      /\ n_red s' = 3%nat)
  /\ (exists s',
         aemet_request (Ejemplo.mundo_de [Respuesta 500 Ilegible; Ejemplo.sobre])
           Maestro 3 (Ejemplo.estado_de None None)
         = (Ok PNone, s')
         /\ dormido s' = [] /\ n_red s' = 1%nat)
  /\ (exists s',
         aemet_request
           (Ejemplo.mundo_de [Respuesta 200 Ilegible; Respuesta 200 Ilegible;
                              Respuesta 200 Ilegible; Ejemplo.sobre])
           Maestro 3 (Ejemplo.estado_de None None)
         = (Ok PNone, s')
         /\ dormido s' = (5 :: 5 :: [])%Q /\ n_red s' = 3%nat)
  /\ (exists s',
         aemet_request (Ejemplo.mundo_antiguo [Respuesta 200 Ilegible; Ejemplo.sobre])
           Maestro 3 (Ejemplo.estado_de None None)
         = (Ok PNone, s')
         /\ dormido s' = [] /\ n_red s' = 1%nat)
  /\ (exists s',
         aemet_request (Ejemplo.mundo_de []) Maestro 3 (Ejemplo.estado_de None None)
         = (Ok PNone, s')
         /\ dormido s' = (5 :: 5 :: [])%Q /\ n_red s' = 3%nat)
  /\ (exists s',
         aemet_request (Ejemplo.mundo_de [Ejemplo.sobre; Ejemplo.prediccion 4 15])
           (Diaria (PStr "28079")) 3 (Ejemplo.estado_de None None)
         = (Ok (prediccion_de [dia_directo "2024-03-05T00:00:00" (PInt 4) (PInt 15)]), s')
         /\ dormido s' = [] /\ n_red s' = 2%nat).
Proof.
  split; [|split; [|split; [|split; [|split]]]].
  - destruct (aemet_request_signalling
                (Ejemplo.mundo_de [Respuesta 429 Ilegible; Respuesta 429 Ilegible;
                                   Respuesta 429 Ilegible])
                Maestro (Ejemplo.estado_de None None)) as (H & _).
    apply H. exists Ilegible, Ilegible, Ilegible. repeat split.
  - destruct (aemet_request_signalling
                (Ejemplo.mundo_de [Respuesta 500 Ilegible; Ejemplo.sobre])
                Maestro (Ejemplo.estado_de None None)) as (_ & H & _).
    apply H. exists 500, Ilegible. repeat split; discriminate.
  - destruct (aemet_request_signalling
                (Ejemplo.mundo_de [Respuesta 200 Ilegible; Respuesta 200 Ilegible;
                                   Respuesta 200 Ilegible; Ejemplo.sobre])
                Maestro (Ejemplo.estado_de None None)) as (_ & _ & H & _).
    apply H. repeat split.
  - destruct (aemet_request_signalling
                (Ejemplo.mundo_antiguo [Respuesta 200 Ilegible; Ejemplo.sobre])
                Maestro (Ejemplo.estado_de None None)) as (_ & _ & _ & H & _).
    apply H. split; reflexivity.
  - destruct (aemet_request_signalling (Ejemplo.mundo_de []) Maestro
                (Ejemplo.estado_de None None)) as (_ & _ & _ & _ & H & _).
    apply H. repeat split.
  - destruct (aemet_request_signalling
                (Ejemplo.mundo_de [Ejemplo.sobre; Ejemplo.prediccion 4 15])
                (Diaria (PStr "28079")) (Ejemplo.estado_de None None))
      as (_ & _ & _ & _ & _ & H).
    eapply H; reflexivity.
Defined.

(** [stale_cache_parse_error] with a cache file that is not JSON and a
    network that fails. *)
Lemma stale_cache_parse_error_witness :
  obtener_municipios (Ejemplo.mundo_de []) (Ejemplo.estado_de (Some Ilegible) None)
  = (Raise JSONDecodeError,
     snd (aemet_request (Ejemplo.mundo_de []) Maestro 3
            (Ejemplo.estado_de (Some Ilegible) None))).
Proof.
  apply (stale_cache_parse_error (Ejemplo.mundo_de [])
           (Ejemplo.estado_de (Some Ilegible) None) _ PNone); reflexivity.
Defined.

(** The two provinces of the example have different names. *)
Lemma directorio_sin_repetir : NoDup (map fst Ejemplo.directorio).
Proof.
  repeat constructor; cbn; intuition discriminate.
Defined.

(** [capital_fallback_selection] on the province of the example that has
    no flagged capital. *)
Lemma capital_fallback_selection_witness :
  exists sel recs,
    seleccion (PList (map Mun.a_py (snd (nth 1 Ejemplo.directorio ("", [])))))
    = Ok (map Mun.a_py sel)
    /\ Lec.buscar "Provincia 99" Ejemplo.resultado_capitales = Some recs
    /\ map Lec.codigo recs = map (fun m => PStr (Mun.codigo m)) sel
    /\ (forallb (fun m => negb (Mun.es_capital m))
          (snd (nth 1 Ejemplo.directorio ("", []))) = true ->
        exists m,
          sel = [m] /\ In m (snd (nth 1 Ejemplo.directorio ("", [])))
          /\ forall m', In m' (snd (nth 1 Ejemplo.directorio ("", []))) ->
                        Mun.habitantes m' <= Mun.habitantes m)
    /\ (existsb Mun.es_capital (snd (nth 1 Ejemplo.directorio ("", []))) = true ->
        sel = filter Mun.es_capital (snd (nth 1 Ejemplo.directorio ("", [])))).
Proof.
  apply (capital_fallback_selection Ejemplo.mundo_capitales Ejemplo.estado_capitales
           (snd (obtener_temperaturas_capitales Ejemplo.mundo_capitales
                   Ejemplo.estado_capitales))
           Ejemplo.resultado_capitales Ejemplo.directorio "Provincia 99").
  - por_calculo.
  - por_calculo.
  - exact directorio_sin_repetir.
  - right. left. reflexivity.
  - discriminate.
  - unfold Mun.descendente. cbn. repeat constructor; cbn; lia.
Defined.

(** [capitals_flag_always_true] on the run of the example. *)
Lemma capitals_flag_always_true_witness :
  (forall prov recs r,
      In (prov, recs) Ejemplo.resultado_capitales -> In r recs ->
      Lec.es_capital r = PBool true)
  /\ (forall (dir : Mun.directorio) (prov : string) (m : Mun.t) (l : list Mun.t),
         fst (obtener_municipios Ejemplo.mundo_capitales
                (snd (datetime_now Ejemplo.mundo_capitales Ejemplo.estado_capitales)))
         = Ok (Mun.dir_a_py dir) ->
         NoDup (map fst dir) ->
         In (prov, m :: l) dir ->
         forallb (fun x => negb (Mun.es_capital x)) (m :: l) = true ->
         exists r,
           Lec.buscar prov Ejemplo.resultado_capitales = Some [r]
           /\ Lec.codigo r = PStr (Mun.codigo m)
           /\ Mun.es_capital m = false
           /\ Lec.es_capital r = PBool true).
Proof.
  apply (capitals_flag_always_true Ejemplo.mundo_capitales Ejemplo.estado_capitales
           (snd (obtener_temperaturas_capitales Ejemplo.mundo_capitales
                   Ejemplo.estado_capitales))).
  por_calculo.
Defined.

(** [fatal_exit_condition], once without a key and once with a key and a
    collection that returns nothing. *)
Lemma fatal_exit_condition_witness :
  (exit_status (fst (main (Ejemplo.mundo_de []) Ejemplo.sin_argumentos
                       (Ejemplo.estado_de None None))) = 1
   /\ fst (main (Ejemplo.mundo_de []) Ejemplo.sin_argumentos
             (Ejemplo.estado_de None None)) = Raise (SystemExit 1))
  /\ (exit_status (fst (main (Ejemplo.mundo_de []) Ejemplo.solo_capitales_con_clave
                          (Ejemplo.estado_de None None))) = 1
      /\ fst (main (Ejemplo.mundo_de []) Ejemplo.solo_capitales_con_clave
                (Ejemplo.estado_de None None)) = Raise (SystemExit 1)).
Proof.
  split.
  - apply (fatal_exit_condition (Ejemplo.mundo_de []) Ejemplo.sin_argumentos
             (Ejemplo.estado_de None None)).
    left. repeat split; auto.
  - apply (fatal_exit_condition (Ejemplo.mundo_de []) Ejemplo.solo_capitales_con_clave
             (Ejemplo.estado_de None None)).
    right. eexists. por_calculo.
Defined.

(** * More on the remote client *)

Section ClienteCotas.

Variable w : mundo.
Variable e : endpoint.

(** What one attempt does to the state, and where its value comes from. *)
Lemma intento_efecto m a s :
  let r := intento w e m a s in
  (n_red (snd r) = S (n_red s) \/ n_red (snd r) = S (S (n_red s)))
  /\ match fst r with
     | Continue =>
         dormido (snd r) = 5%Q :: dormido s
         \/ dormido (snd r) = (30 * (inject_Z (Z.of_nat a) + 1))%Q :: dormido s
     | _ => dormido (snd r) = dormido s
     end
  /\ (forall v, fst r = Return v ->
        v = PNone
        \/ exists k, (n_red s <= k < n_red (snd r))%nat
                     /\ red w k = Respuesta 200 (Json v)).
Proof.
  unfold intento, intento_try, requests_get.
  destruct (red w (n_red s)) as [|st c] eqn:H0; cbv beta iota zeta.
  { cbn [es_request_exception]. destruct (Nat.ltb _ _); cierre_intento. }
  destruct (Z.eqb_spec st 429).
  { cierre_intento. }
  destruct (Z.eqb_spec st 200) as [->|]; cbn [negb].
  2:{ cierre_intento. }
  destruct c as [|meta|y]; cbn [resp_json].
  { destruct (requests_json_error w); cbn [es_request_exception es_json_decode_error].
    - destruct (Nat.ltb _ _); cierre_intento.
    - cierre_intento. }
  2:{ destruct y; cbn [es_request_exception es_json_decode_error exn_de];
        try (destruct (Nat.ltb _ _)); cierre_intento. }
  destruct (Py.get meta "estado" PNone) as [es|x] eqn:He.
  2:{ destruct meta; try discriminate; cbn in He; injection He as <-; cierre_intento. }
  destruct (negb (Py.eq_int es 200)).
  { cierre_intento. }
  destruct (Py.get meta "datos" PNone) as [url|x] eqn:Hd.
  2:{ destruct meta; discriminate. }
  destruct (negb (Py.truthy url)).
  { cierre_intento. }
  cbn [n_red].
  destruct (red w (S (n_red s))) as [|st2 c2] eqn:H1; cbv beta iota.
  { cbn [es_request_exception]. destruct (Nat.ltb _ _); cierre_intento. }
  destruct (Z.eqb_spec st2 200) as [->|]; cbn [negb].
  2:{ cierre_intento. }
  destruct c2 as [|v2|y]; cbn [resp_json].
  { destruct (requests_json_error w); cbn [es_request_exception es_json_decode_error].
    - destruct (Nat.ltb _ _); cierre_intento.
    - cierre_intento. }
  2:{ destruct y; cbn [es_request_exception es_json_decode_error exn_de];
        try (destruct (Nat.ltb _ _)); cierre_intento. }
  cbn. split; [auto|]. split; [auto|]. intros v Hv. injection Hv as <-.
  right. exists (S (n_red s)). split; [lia | assumption].
Qed.

Lemma intentos_cotas m q a s :
  let r := intentos w e m q a s in
  (n_red s <= n_red (snd r) <= n_red s + 2 * q)%nat
  /\ (forall v, fst r = Ok v ->
        v = PNone
        \/ exists k, (n_red s <= k < n_red (snd r))%nat
                     /\ red w k = Respuesta 200 (Json v)).
Proof.
  revert a s. induction q as [|q IH]; intros a s; cbn [intentos].
  { cbn. split; [lia|]. intros v Hv. injection Hv as <-. auto. }
  pose proof (intento_efecto m a s) as (Hn & _ & Hv).
  destruct (intento w e m a s) as [[|v0|x] s1]; cbn [fst snd] in *.
  - specialize (IH (S a) s1). cbv zeta in IH. destruct IH as [IHn IHv].
    split; [lia|]. intros v Hr. destruct (IHv v Hr) as [->|(k & Hk & Hw)]; auto.
    right. exists k. split; [lia | assumption].
  - split; [lia|]. intros v Hr. injection Hr as <-. apply Hv. reflexivity.
  - split; [lia|]. intros v Hr. discriminate.
Qed.

Lemma intentos_pausas m q a s :
  exists nuevos,
    dormido (snd (intentos w e m q a s)) = (rev nuevos ++ dormido s)%list
    /\ (List.length nuevos <= q)%nat
    /\ forall i d, nth_error nuevos i = Some d ->
         d = 5%Q \/ d = (30 * (inject_Z (Z.of_nat (a + i)) + 1))%Q.
Proof.
  revert a s. induction q as [|q IH]; intros a s; cbn [intentos].
  { exists []. cbn. split; [reflexivity|]. split; [lia|].
    intros [|i] d Hd; discriminate. }
  pose proof (intento_efecto m a s) as (_ & Hd & _).
  destruct (intento w e m a s) as [[|v0|x] s1]; cbn [fst snd] in *.
  - destruct (IH (S a) s1) as (n1 & E1 & L1 & P1).
    assert (exists d0, dormido s1 = d0 :: dormido s
              /\ (d0 = 5%Q \/ d0 = (30 * (inject_Z (Z.of_nat (a + 0)) + 1))%Q))
      as (d0 & E0 & P0).
    { rewrite Nat.add_0_r. destruct Hd as [Hd|Hd]; eauto. }
    exists (d0 :: n1). rewrite E1, E0. cbn [rev List.length].
    rewrite <- app_assoc. split; [reflexivity|]. split; [lia|].
    intros [|i] d Hi; cbn in Hi.
    + injection Hi as <-. exact P0.
    + replace (a + S i)%nat with (S a + i)%nat by lia. apply P1, Hi.
  - exists []. cbn. split; [assumption|]. split; [lia|].
    intros [|i] d Hi; discriminate.
  - exists []. cbn. split; [assumption|]. split; [lia|].
    intros [|i] d Hi; discriminate.
Qed.

(** A transient answer with an attempt left. *)
Lemma intento_transitorio m a s :
  transitoria (red w (n_red s)) -> (S a < m)%nat ->
  exists d s1,
    intento w e m a s = (Continue, s1)
    /\ n_red s1 = S (n_red s) /\ dormido s1 = d :: dormido s.
Proof.
  intros [H|(c & H)] Ha; unfold intento, intento_try, requests_get; rewrite H;
    cbv beta iota zeta.
  - cbn [es_request_exception]. apply Nat.ltb_lt in Ha. rewrite Ha.
    do 2 eexists. split; [reflexivity|]. split; reflexivity.
  - cbn [Z.eqb Pos.eqb]. do 2 eexists. split; [reflexivity|]. split; reflexivity.
Qed.

Lemma intento_exito m a s meta v :
  red w (n_red s) = Respuesta 200 (Json (PDict meta)) ->
  Py.eq_int (match Py.lookup "estado" meta with Some x => x | None => PNone end) 200
  = true ->
  Py.truthy (match Py.lookup "datos" meta with Some x => x | None => PNone end)
  = true ->
  red w (S (n_red s)) = Respuesta 200 (Json v) ->
  exists s1,
    intento w e m a s = (Return v, s1)
    /\ n_red s1 = S (S (n_red s)) /\ dormido s1 = dormido s.
Proof.
  intros H0 He Hd H1. eexists.
  unfold intento, intento_try, requests_get.
  rewrite H0. cbv beta iota. cbn [Z.eqb Pos.eqb negb resp_json Py.get].
  rewrite He. cbn [negb]. rewrite Hd. cbn [negb n_red]. rewrite H1.
  cbv beta iota. cbn [Z.eqb Pos.eqb negb resp_json].
  split; [reflexivity|]. split; reflexivity.
Qed.

Lemma intentos_recupera m k : forall q a s meta v,
  (k < q)%nat -> (a + q <= m)%nat ->
  (forall i, (i < k)%nat -> transitoria (red w (n_red s + i))) ->
  red w (n_red s + k) = Respuesta 200 (Json (PDict meta)) ->
  Py.eq_int (match Py.lookup "estado" meta with Some x => x | None => PNone end) 200
  = true ->
  Py.truthy (match Py.lookup "datos" meta with Some x => x | None => PNone end)
  = true ->
  red w (n_red s + k + 1) = Respuesta 200 (Json v) ->
  exists nuevos s',
    intentos w e m q a s = (Ok v, s')
    /\ n_red s' = (n_red s + k + 2)%nat
    /\ dormido s' = (nuevos ++ dormido s)%list /\ List.length nuevos = k.
Proof.
  induction k as [|k IH]; intros q a s meta v Hq Ha Ht H0 He Hd H1.
  - destruct q as [|q]; [lia|]. cbn [intentos].
    rewrite Nat.add_0_r in *.
    replace (n_red s + 1)%nat with (S (n_red s)) in H1 by lia.
    destruct (intento_exito m a s meta v H0 He Hd H1) as (s1 & E & N & D).
    rewrite E. exists [], s1. split; [reflexivity|].
    split; [lia|]. split; [exact D | reflexivity].
  - destruct q as [|q]; [lia|]. cbn [intentos].
    assert (T0 : transitoria (red w (n_red s))).
    { specialize (Ht 0%nat). rewrite Nat.add_0_r in Ht. apply Ht. lia. }
    destruct (intento_transitorio m a s T0) as (d & s1 & E & N & D); [lia|].
    rewrite E.
    destruct (IH q (S a) s1 meta v) as (n1 & s' & E' & N' & D' & L'); try lia.
    + intros i Hi. rewrite N. replace (S (n_red s) + i)%nat with (n_red s + S i)%nat by lia.
      apply Ht. lia.
    + rewrite N. replace (S (n_red s) + k)%nat with (n_red s + S k)%nat by lia. exact H0.
    + exact He.
    + exact Hd.
    + rewrite N. replace (S (n_red s) + k + 1)%nat with (n_red s + S k + 1)%nat by lia.
      exact H1.
    + exists (n1 ++ [d])%list, s'. split; [exact E'|]. split; [lia|].
      split.
      * rewrite D', D, <- app_assoc. reflexivity.
      * rewrite length_app. cbn. lia.
Qed.

(** X1. Request budget of the remote client.  Whatever the network
    answers, a call with [max_retries] attempts sends at most two requests
    per attempt, [2 * max_retries] in all; a value it returns is either
    nothing or the JSON body of an answer with status 200 that the network
    gave to one of these requests; and the call leaves the cache file, the
    data file and both clocks as they were. *)
Theorem aemet_request_budget (max_retries : nat) (s : estado) :
  let r := aemet_request w e max_retries s in
  (n_red s <= n_red (snd r) <= n_red s + 2 * max_retries)%nat
  /\ (forall v, fst r = Ok v ->
        v = PNone
        \/ exists k, (n_red s <= k < n_red (snd r))%nat
                     /\ red w k = Respuesta 200 (Json v))
  /\ mismos_archivos s (snd r).
Proof.
  cbv zeta. destruct (intentos_cotas max_retries max_retries 0 s) as [Hn Hv].
  split; [exact Hn|]. split; [exact Hv|]. apply aemet_request_mismos.
Qed.

(** X2. Backoff schedule of the remote client.  The pauses of one call, in
    the order they are taken, number at most [max_retries]; the pause that
    follows attempt [i] (counted from 0) lasts 5 seconds, after a network
    failure, or [30 * (i + 1)] seconds, after a status 429. *)
Theorem aemet_request_backoff_schedule (max_retries : nat) (s : estado) :
  exists nuevos : list Q,
    dormido (snd (aemet_request w e max_retries s)) = (rev nuevos ++ dormido s)%list
    /\ (List.length nuevos <= max_retries)%nat
    /\ forall i d, nth_error nuevos i = Some d ->
         d = 5%Q \/ d = (30 * (inject_Z (Z.of_nat i) + 1))%Q.
Proof.
  apply (intentos_pausas max_retries max_retries 0 s).
Qed.

(** X3. Recovery of the remote client.  When the first [k] answers are
    transient (a network failure or a status 429), with [k] below
    [max_retries], and the next two are a valid envelope and a JSON body
    with status 200, the call returns that body after [k + 2] requests and
    [k] pauses. *)
Theorem aemet_request_recovers (max_retries k : nat) (s : estado)
  (meta : list (string * pyval)) (v : pyval) :
  (k < max_retries)%nat ->
  (forall i, (i < k)%nat -> transitoria (red w (n_red s + i))) ->
  red w (n_red s + k) = Respuesta 200 (Json (PDict meta)) ->
  sobre_valido meta ->
  red w (n_red s + k + 1) = Respuesta 200 (Json v) ->
  exists nuevos s',
    aemet_request w e max_retries s = (Ok v, s')
    /\ n_red s' = (n_red s + k + 2)%nat
    /\ dormido s' = (nuevos ++ dormido s)%list /\ List.length nuevos = k.
Proof.
  intros Hk Ht H0 [He Hd] H1.
  apply (intentos_recupera max_retries k max_retries 0%nat s meta v); auto.
Qed.

(** An exception that the attempt lets through is none that its [except]
    clauses name. *)
Lemma intento_propaga_clase m a s x s1 :
  intento w e m a s = (Propaga x, s1) ->
  x <> RequestException /\ x <> JSONDecodeError.
Proof.
  unfold intento.
  destruct (intento_try w e a s) as [[p|f] s2] eqn:Ht.
  { intros H. injection H as -> ->.
    now destruct (intento_try_no_propaga w e _ _ _ _ Ht x). }
  destruct f as [y|]; cbn [es_request_exception es_json_decode_error exn_de].
  - destruct y; try (destruct (Nat.ltb _ _); discriminate); try discriminate;
      intros H; injection H as <- _; split; discriminate.
  - destruct (Nat.ltb _ _); discriminate.
Qed.

Lemma exn_no_atrapada m s x :
  fst (aemet_request w e m s) = Raise x ->
  x <> RequestException /\ x <> JSONDecodeError.
Proof.
  unfold aemet_request. generalize 0%nat as a. generalize m at 2 as q.
  intros q. revert s. induction q as [|q IH]; intros s a; [discriminate|].
  cbn [intentos].
  destruct (intento w e m a s) as [[|v|y] s1] eqn:Hi; cbn [fst].
  - apply IH.
  - discriminate.
  - intros H. injection H as ->. eapply intento_propaga_clase, Hi.
Qed.

(** X4. The exceptions of the remote client.  An exception that leaves
    a call comes from an answer with status 200: it is the
    [AttributeError] of [meta.get] on a body that is JSON without being an
    object, or it is what [resp.json()] raises on a body besides the
    decode error (a plain [ValueError] on an integer of more than 4300
    digits, a [RecursionError] on nesting too deep), which neither
    [except] clause names.  With only bodies that are objects or that the
    parser reads or rejects as not JSON, the call returns. *)
Theorem aemet_request_exceptions (max_retries : nat) (s : estado) :
  (forall x,
      fst (aemet_request w e max_retries s) = Raise x ->
      (x = AttributeError
       /\ exists k v, red w k = Respuesta 200 (Json v) /\ Py.is_dict v = false)
      \/ (x <> RequestException /\ x <> JSONDecodeError
          /\ exists k, red w k = Respuesta 200 (Rompe x)))
  /\ ((forall k v, red w k = Respuesta 200 (Json v) -> Py.is_dict v = true) ->
      (forall k x, red w k <> Respuesta 200 (Rompe x)) ->
      exists d, fst (aemet_request w e max_retries s) = Ok d).
Proof.
  split; [|apply aemet_request_sin_excepcion].
  intros x H. destruct (aemet_request_excepcion w e _ _ _ H) as [Ha | Hk];
    [now left|].
  destruct (exn_no_atrapada _ _ _ H) as [Hx1 Hx2]. right. auto.
Qed.

End ClienteCotas.

(** [aemet_request_recovers] on a network failure and a status 429 followed
    by the two answers of a forecast. *)
Lemma aemet_request_recovers_witness :
  let w := Ejemplo.mundo_de
             [FalloRed; Respuesta 429 Ilegible; Ejemplo.sobre; Ejemplo.prediccion 4 15] in
  let s := Ejemplo.estado_de None None in
  exists nuevos s',
    aemet_request w (Diaria (PStr "28079")) 3 s
    = (Ok (prediccion_de [dia_directo "2024-03-05T00:00:00" (PInt 4) (PInt 15)]), s')
    /\ n_red s' = 4%nat
    /\ dormido s' = (nuevos ++ [])%list /\ List.length nuevos = 2%nat.
Proof.
  cbv zeta.
  apply (aemet_request_recovers
           (Ejemplo.mundo_de
              [FalloRed; Respuesta 429 Ilegible; Ejemplo.sobre; Ejemplo.prediccion 4 15])
           (Diaria (PStr "28079")) 3 2 (Ejemplo.estado_de None None)
           [("estado", PInt 200); ("datos", PStr "https://datos")]).
  - lia.
  - intros [|[|i]] Hi; [left; reflexivity | right; eexists; reflexivity | lia].
  - reflexivity.
  - split; reflexivity.
  - reflexivity.
Defined.

(** [aemet_request_exceptions] on a body with an integer that the parser
    refuses, and on an envelope in another state than 200. *)
Lemma aemet_request_exceptions_witness :
  (let w := Ejemplo.mundo_de [Respuesta 200 (Rompe ValueError)] in
   let s := Ejemplo.estado_de None None in
   fst (aemet_request w Maestro 3 s) = Raise ValueError
   /\ ((ValueError = AttributeError
        /\ exists k v, red w k = Respuesta 200 (Json v) /\ Py.is_dict v = false)
       \/ (ValueError <> RequestException /\ ValueError <> JSONDecodeError
           /\ exists k, red w k = Respuesta 200 (Rompe ValueError))))
  /\ exists d,
       fst (aemet_request
              (Ejemplo.mundo_de [Respuesta 200 (Json (PDict [("estado", PInt 404)]))])
              Maestro 3 (Ejemplo.estado_de None None))
       = Ok d.
Proof.
  split.
  - cbv zeta. split; [por_calculo|].
    apply (proj1 (aemet_request_exceptions
                    (Ejemplo.mundo_de [Respuesta 200 (Rompe ValueError)]) Maestro 3
                    (Ejemplo.estado_de None None))).
    por_calculo.
  - apply (proj2 (aemet_request_exceptions
                    (Ejemplo.mundo_de [Respuesta 200 (Json (PDict [("estado", PInt 404)]))])
                    Maestro 3 (Ejemplo.estado_de None None))).
    + intros [|[|k]] v H; try discriminate. injection H as <-. reflexivity.
    + intros [|[|k]] x H; discriminate.
Defined.

(** * More on the directory of municipalities *)

Lemma agregar_claves p m d k :
  In k (map fst (Mun.agregar p m d)) -> k = p \/ In k (map fst d).
Proof.
  induction d as [|[q l] d IH]; cbn.
  - intros [<-|[]]. now left.
  - destruct (String.eqb_spec p q) as [->|Hpq]; cbn.
    + intros [<-|H]; auto.
    + intros [<-|H]; auto. destruct (IH H); auto.
Qed.

Lemma agregar_NoDup p m d :
  NoDup (map fst d) -> NoDup (map fst (Mun.agregar p m d)).
Proof.
  induction d as [|[q l] d IH]; cbn.
  - intros _. constructor; [intros [] | constructor].
  - intros H. inversion H as [|? ? Hq Hd]; subst.
    destruct (String.eqb_spec p q) as [->|Hpq]; cbn.
    + constructor; assumption.
    + constructor; [|apply IH, Hd].
      intros Hin. destruct (agregar_claves _ _ _ _ Hin) as [->|]; contradiction.
Qed.

Lemma agregar_bien p m d :
  bien_archivada p m -> dir_bien d -> dir_bien (Mun.agregar p m d).
Proof.
  intros Hm [Hn Hf]. split; [now apply agregar_NoDup|].
  clear Hn. induction Hf as [|[q l] d [Hl Hq] Hf IH]; cbn.
  - constructor; [|constructor]. cbn. split; [discriminate|]. now constructor.
  - cbn in Hl, Hq. destruct (String.eqb_spec p q) as [->|Hpq].
    + constructor; [|exact Hf]. cbn. split.
      * destruct l; discriminate.
      * apply Forall_app. split; [exact Hq | now constructor].
    + constructor; [|exact IH]. cbn. now split.
Qed.

Lemma total_de_agregar p m d :
  total_de (Mun.agregar p m d) = 1 + total_de d.
Proof.
  induction d as [|[q l] d IH]; cbn -[Z.of_nat Z.add]; [reflexivity|].
  destruct (String.eqb p q); cbn -[Z.of_nat Z.add].
  - rewrite length_app. cbn [List.length]. lia.
  - fold (total_de (Mun.agregar p m d)). fold (total_de d). lia.
Qed.

(** What the body of the loop does with one entry of the master list. *)
Lemma agrupar_uno_inv mun d d' :
  agrupar_uno mun d = Ok d' ->
  (con_id mun = false /\ d' = d)
  \/ (con_id mun = true
      /\ exists m, bien_archivada (nombre_provincia (Mun.codigo m)) m
                   /\ d' = Mun.agregar (nombre_provincia (Mun.codigo m)) m d).
Proof.
  unfold agrupar_uno, con_id.
  destruct (Py.get mun "id" (PStr "")) as [[| | | |id| |]|x]; cbn [bind];
    try discriminate.
  destruct (String.prefix "id" id); cbn [negb].
  2:{ intros H. injection H as <-. now left. }
  cbv zeta.
  destruct (Py.get mun "nombre" (PStr "")) as [nom|]; cbn [bind]; [|discriminate].
  destruct (Py.get mun "num_hab" (PStr "0")) as [nh|]; cbn [bind]; [|discriminate].
  destruct (entero (o_cero nh)) as [hab|]; cbn [bind]; [|discriminate].
  destruct (Py.get mun "altitud" (PStr "0")) as [al|]; cbn [bind]; [|discriminate].
  destruct (entero (o_cero al)) as [alt|]; cbn [bind]; [|discriminate].
  intros H. right. split; [reflexivity|].
  exists {| Mun.codigo := substring 2 (String.length id - 2) id; Mun.nombre := nom;
            Mun.habitantes := hab; Mun.altitud := alt;
            Mun.es_capital :=
              existsb (String.eqb (substring 2 (String.length id - 2) id))
                CAPITALES_CODIGOS |}.
  split; [split; reflexivity|].
  symmetry. exact (f_equal (fun r => match r with Ok x => x | Raise _ => d end) H).
Qed.

Lemma agrupar_inv l : forall d g,
  agrupar l d = Ok g -> dir_bien d ->
  dir_bien g
  /\ total_de g = total_de d + Z.of_nat (List.length (filter con_id l)).
Proof.
  induction l as [|mun l IH]; intros d g; cbn [agrupar filter].
  - intros H Hd. injection H as <-. split; [exact Hd | cbn; lia].
  - destruct (agrupar_uno mun d) as [d1|] eqn:E1; cbn [bind]; [|discriminate].
    intros H Hd.
    destruct (agrupar_uno_inv _ _ _ E1) as [[Hc ->]|(Hc & m & Hm & ->)]; rewrite Hc.
    + apply IH; assumption.
    + destruct (IH _ _ H (agregar_bien _ _ _ Hm Hd)) as [Hg Ht].
      split; [exact Hg|]. rewrite Ht, total_de_agregar. cbn [List.length]. lia.
Qed.



Lemma dir_bien_vacio : dir_bien [].
Proof. split; constructor. Qed.







(** X7. The degraded fallback of the directory.  When the download gives
    nothing: without a cache file the result is the empty mapping; with a
    cache file that holds a JSON object of another day the result is the
    value under its ["provincias"], or the empty mapping when it has none.
    In both cases the cache file stays as it was. *)
Theorem obtener_municipios_fallback (w : mundo) (s s1 : estado) (d : pyval) :
  Py.truthy d = false ->
  (cache_file s = None ->
   aemet_request w Maestro 3 s = (Ok d, s1) ->
   obtener_municipios w s = (Ok (PDict []), s1) /\ cache_file s1 = None)
  /\ (forall c,
        cache_file s = Some (Json (PDict c)) ->
        Py.eq_str (match Py.lookup "fecha" c with Some x => x | None => PNone end)
          (Fecha.iso (fecha_de (calendario w (n_calendario s)))) = false ->
        aemet_request w Maestro 3 (snd (datetime_now w s)) = (Ok d, s1) ->
        obtener_municipios w s
        = (Ok (match Py.lookup "provincias" c with Some p => p | None => PDict [] end),
           s1)
        /\ cache_file s1 = cache_file s).
Proof.
  intros Hd. split.
  - intros Hc Hr. split; [now apply (obtener_municipios_sin_nada w s d s1)|].
    destruct (aemet_request_mismos w Maestro 3 s) as (Hc1 & _).
    rewrite Hr in Hc1. cbn [snd] in Hc1. now rewrite Hc1.
  - intros c Hc Hf Hr.
    split; [now apply (obtener_municipios_cache_antigua w s c d s1)|].
    destruct (aemet_request_mismos w Maestro 3 (snd (datetime_now w s))) as (Hc1 & _).
    rewrite Hr in Hc1. cbn [snd] in Hc1. exact Hc1.
Qed.

(** [obtener_municipios_fallback] on a network that fails, without a cache
    file and with the cache of the day before. *)
Lemma obtener_municipios_fallback_witness :
  let w := Ejemplo.mundo_de [] in
  let ayer := [ ("fecha", PStr "2024-03-04"); ("total", PInt 4);
                ("provincias", Mun.dir_a_py Ejemplo.directorio) ] in
  (exists s1,
      obtener_municipios w (Ejemplo.estado_de None None) = (Ok (PDict []), s1)
      /\ cache_file s1 = None)
  /\ (exists s1,
         obtener_municipios w (Ejemplo.estado_de (Some (Json (PDict ayer))) None)
         = (Ok (Mun.dir_a_py Ejemplo.directorio), s1)
         /\ cache_file s1 = Some (Json (PDict ayer))).
Proof.
  cbv zeta. split.
  - eexists.
    refine (proj1 (obtener_municipios_fallback (Ejemplo.mundo_de [])
                     (Ejemplo.estado_de None None) _ PNone _) _ _); por_calculo.
  - eexists.
    refine (proj2 (obtener_municipios_fallback (Ejemplo.mundo_de [])
                     (Ejemplo.estado_de _ None) _ PNone _)
              [ ("fecha", PStr "2024-03-04"); ("total", PInt 4);
                ("provincias", Mun.dir_a_py Ejemplo.directorio) ] _ _ _); por_calculo.
Defined.

Lemma agrupar_no_dict l : forall d mun,
  In mun l -> Py.is_dict mun = false -> exists x, agrupar l d = Raise x.
Proof.
  induction l as [|m l IH]; intros d mun [].
  - subst m. intros Hm. cbn [agrupar]. unfold agrupar_uno.
    destruct mun; try discriminate; cbn; eauto.
  - intros Hm. cbn [agrupar].
    destruct (agrupar_uno m d) as [d1|x]; cbn [bind]; eauto.
Qed.

(** X8. A malformed master list.  When the master list that arrives has
    an entry that is not an object, [obtener_municipios] raises, and the
    cache file is not written. *)
Theorem obtener_municipios_bad_entry (w : mundo) (s s0 s1 : estado)
  (l : list pyval) (mun : pyval) :
  cache_de_hoy w s = (Ok None, s0) ->
  aemet_request w Maestro 3 s0 = (Ok (PList l), s1) ->
  In mun l -> Py.is_dict mun = false ->
  exists x,
    obtener_municipios w s = (Raise x, s1) /\ cache_file s1 = cache_file s0.
Proof.
  intros Hc Hr Hin Hm.
  destruct (agrupar_no_dict l [] mun Hin Hm) as (x & Hx).
  exists x. split.
  - unfold obtener_municipios. unfold seguir at 1. rewrite Hc.
    unfold seguir, puro. rewrite Hr.
    destruct l as [|m0 l0]; [destruct Hin|].
    cbn [Py.truthy negb Py.iter]. rewrite Hx. reflexivity.
  - destruct (aemet_request_mismos w Maestro 3 s0) as (Hc1 & _).
    rewrite Hr in Hc1. exact Hc1.
Qed.

(** [obtener_municipios_bad_entry] on a master list with a string among
    its entries. *)
Lemma obtener_municipios_bad_entry_witness :
  exists x,
    obtener_municipios
      (Muestra.mundo_maestro (PList (Muestra.maestro ++ [PStr "id28079"])))
      (Ejemplo.estado_de None None)
    = (Raise x,
       snd (aemet_request
              (Muestra.mundo_maestro (PList (Muestra.maestro ++ [PStr "id28079"])))
              Maestro 3 (Ejemplo.estado_de None None)))
    /\ cache_file
         (snd (aemet_request
                 (Muestra.mundo_maestro (PList (Muestra.maestro ++ [PStr "id28079"])))
                 Maestro 3 (Ejemplo.estado_de None None)))
       = None.
Proof.
  refine (obtener_municipios_bad_entry
            (Muestra.mundo_maestro (PList (Muestra.maestro ++ [PStr "id28079"])))
            (Ejemplo.estado_de None None) (Ejemplo.estado_de None None) _
            (Muestra.maestro ++ [PStr "id28079"])%list (PStr "id28079") _ _ _ _).
  - por_calculo.
  - por_calculo.
  - apply in_or_app. right. left. reflexivity.
  - reflexivity.
Defined.

(** No two codes of [CAPITALES_CODIGOS] are filed under the same province. *)
Lemma capitales_una_por_provincia c1 c2 :
  In c1 CAPITALES_CODIGOS -> In c2 CAPITALES_CODIGOS ->
  nombre_provincia c1 = nombre_provincia c2 -> c1 = c2.
Proof.
  assert (H : forallb
                (fun a =>
                   forallb
                     (fun b =>
                        implb (String.eqb (nombre_provincia a) (nombre_provincia b))
                          (String.eqb a b))
                     CAPITALES_CODIGOS)
                CAPITALES_CODIGOS = true) by (vm_compute; reflexivity).
  intros H1 H2 E. rewrite forallb_forall in H. specialize (H c1 H1).
  rewrite forallb_forall in H. specialize (H c2 H2).
  rewrite E, String.eqb_refl in H. cbn in H. now apply String.eqb_eq.
Qed.

(** X9. One capital for each province.  In a directory as the grouping
    builds it, the entries of a province that are flagged as capital all
    carry the same code: the two tables of the script give every province
    at most one capital. *)
Theorem one_capital_per_province (d : Mun.directorio) (p : string)
  (l : list Mun.t) (m1 m2 : Mun.t) :
  dir_bien d -> In (p, l) d -> In m1 l -> In m2 l ->
  Mun.es_capital m1 = true -> Mun.es_capital m2 = true ->
  Mun.codigo m1 = Mun.codigo m2.
Proof.
  intros [_ Hd] Hp H1 H2 C1 C2.
  rewrite Forall_forall in Hd. destruct (Hd _ Hp) as [_ Hl]. cbn [fst snd] in Hl.
  rewrite Forall_forall in Hl.
  destruct (Hl _ H1) as [P1 F1]. destruct (Hl _ H2) as [P2 F2].
  rewrite C1 in F1. rewrite C2 in F2. symmetry in F1, F2.
  apply existsb_exists in F1 as (c1 & I1 & E1).
  apply existsb_exists in F2 as (c2 & I2 & E2).
  apply String.eqb_eq in E1, E2. subst c1 c2.
  apply capitales_una_por_provincia; congruence.
Qed.

Lemma filter_insertar k m l :
  filter (fun x => Mun.habitantes x =? k) (Mun.insertar m l)
  = filter (fun x => Mun.habitantes x =? k) (m :: l).
Proof.
  induction l as [|m' l IH]; [reflexivity|].
  cbn [Mun.insertar].
  destruct (Z.leb_spec (Mun.habitantes m') (Mun.habitantes m)) as [Hle|Hlt];
    [reflexivity|].
  cbn [filter] in *. rewrite IH.
  destruct (Z.eqb_spec (Mun.habitantes m') k) as [E1|N1];
    destruct (Z.eqb_spec (Mun.habitantes m) k) as [E2|N2]; try reflexivity.
  lia.
Qed.

(** X10. The sort of a province.  The sort by population returns the same
    entries, the larger population first, and it is stable: entries of
    equal population keep the order they had. *)
Theorem ordenar_stable_sort (l : list Mun.t) :
  Permutation l (Mun.ordenar l)
  /\ Mun.descendente (Mun.ordenar l)
  /\ forall k : Z,
       filter (fun m => Mun.habitantes m =? k) (Mun.ordenar l)
       = filter (fun m => Mun.habitantes m =? k) l.
Proof.
  split; [apply ordenar_perm|]. split; [apply ordenar_descendente|].
  intros k. induction l as [|m l IH]; [reflexivity|].
  cbn [Mun.ordenar fold_right]. fold (Mun.ordenar l).
  rewrite filter_insertar. cbn [filter]. rewrite IH. reflexivity.
Qed.

(** [one_capital_per_province] on the directory of the sample master list
    with the code of Madrid twice. *)
Lemma one_capital_per_province_witness :
  Mun.codigo Muestra.madrid = Mun.codigo Muestra.madrid_centro.
Proof.
  eapply (one_capital_per_province Muestra.repetido "Madrid").
  - refine (proj1 (agrupar_inv
                     (Muestra.maestro
                      ++ [Muestra.entrada "id28079" "Madrid centro" "150000" "650"])%list
                     [] Muestra.repetido _ dir_bien_vacio)).
    vm_compute. reflexivity.
  - left. reflexivity.
  - right. left. reflexivity.
  - right. right. left. reflexivity.
  - reflexivity.
  - reflexivity.
Defined.

(** * More on the extractor *)

Lemma buscar_dia_primero pre dia post objetivo st :
  Forall (no_coincide objetivo) pre -> coincide objetivo dia ->
  buscar_dia (pre ++ dia :: post) objetivo st = leer_dia dia st.
Proof.
  intros Hpre (fd & Hfd & Heq).
  induction Hpre as [|d pre (fd' & Hfd' & Hne) _ IH]; cbn [app buscar_dia].
  - rewrite Hfd, Heq. reflexivity.
  - rewrite Hfd', Hne. exact IH.
Qed.

Lemma extraer_bloque_prediccion dias objetivo st :
  extraer_bloque (prediccion_de dias) objetivo st
  = match buscar_dia dias objetivo st with
    | (st1, Some e) => (st1, Some e)
    | (st1, None) => primer_dia (PList dias) st1
    end.
Proof. reflexivity. Qed.


(** X12. A day with the target date and no values.  When the day with the
    target date has a direct block without values, the extractor takes the
    fallback as if no day had matched: it returns the values of the first
    day entry of the list, when that entry's block is the direct
    structure. *)
Theorem extraer_matched_day_empty (d0 : pyval) (pre post : list pyval) (dia : pyval)
  (tm tm0 : list (string * pyval)) (objetivo : string) :
  Forall (no_coincide objetivo) (d0 :: pre) ->
  coincide objetivo dia ->
  Py.get dia "temperatura" (PDict []) = Ok (PDict tm) ->
  valor_de "minima" tm = PNone -> valor_de "maxima" tm = PNone ->
  Py.get d0 "temperatura" (PDict []) = Ok (PDict tm0) ->
  _extraer_temp_dia (prediccion_de (d0 :: pre ++ dia :: post)) objetivo
  = (mn <- a_entero (valor_de "minima" tm0) ;;
     mx <- a_entero (valor_de "maxima" tm0) ;;
     Ok (mn, mx)).
Proof.
  intros Hpre Hdia Ht Hmn Hmx Ht0.
  unfold _extraer_temp_dia. rewrite extraer_bloque_prediccion.
  change (d0 :: pre ++ dia :: post)%list with ((d0 :: pre) ++ dia :: post)%list.
  rewrite (buscar_dia_primero _ _ _ _ _ Hpre Hdia).
  unfold leer_dia. rewrite Ht. cbn [Py.get]. fold (valor_de "maxima" tm).
  fold (valor_de "minima" tm). rewrite Hmn, Hmx.
  unfold primer_dia.
  cbn [t_min t_max Py.is_none Py.truthy andb app Py.getitem0].
  rewrite Ht0. cbn [Py.is_dict Py.get]. fold (valor_de "maxima" tm0).
  fold (valor_de "minima" tm0). cbn [atrapa bind t_min t_max]. reflexivity.
Qed.











(** [extraer_matched_day_empty] on a day with the target date whose block
    is empty, after a day with values. *)
Lemma extraer_matched_day_empty_witness :
  _extraer_temp_dia
    (prediccion_de
       [ dia_directo "2024-03-04T00:00:00" (PInt 1) (PInt 2);
         PDict [("fecha", PStr "2024-03-05T00:00:00"); ("temperatura", PDict [])] ])
    "2024-03-05"
  = Ok (PInt 1, PInt 2).
Proof.
  refine (extraer_matched_day_empty
            (dia_directo "2024-03-04T00:00:00" (PInt 1) (PInt 2)) [] []
            (PDict [("fecha", PStr "2024-03-05T00:00:00"); ("temperatura", PDict [])])
            [] [("maxima", PInt 2); ("minima", PInt 1)] "2024-03-05" _ _ _ _ _ _).
  - constructor; [|constructor]. eexists. split; reflexivity.
  - eexists. split; reflexivity.
  - reflexivity.
  - reflexivity.
  - reflexivity.
  - reflexivity.
Defined.

(** * Full mode *)

Lemma pausa_lote_efecto w c s :
  (batch_count c < 22)%nat ->
  exists c1 s1,
    pausa_lote w c s = (Ok c1, s1)
    /\ batch_count c1 = (S (batch_count c) mod 22)%nat
    /\ procesados c1 = procesados c /\ errores c1 = errores c
    /\ n_reloj s1 = (n_reloj s + 2 * (S (batch_count c) / 22))%nat
    /\ n_red s1 = n_red s
    /\ cache_file s1 = cache_file s /\ json_file s1 = json_file s
    /\ n_calendario s1 = n_calendario s.
Proof.
  intros Hb. unfold pausa_lote. cbv zeta.
  destruct (Nat.leb_spec 22 (S (batch_count c))) as [H|H].
  - assert (E : batch_count c = 21%nat) by lia.
    unfold seguir, time_time, sleep, ret. cbn [n_reloj].
    destruct (Qlt_bool _ _); cbv beta iota; do 2 eexists;
      (split; [reflexivity|]);
      cbn [batch_count procesados errores n_reloj n_red cache_file json_file
             n_calendario];
      rewrite E; change (22 mod 22)%nat with 0%nat; change (22 / 22)%nat with 1%nat;
      repeat split; lia.
  - do 2 eexists. split; [reflexivity|].
    cbn [batch_count procesados errores n_reloj n_red cache_file json_file
           n_calendario].
    rewrite Nat.mod_small by lia. rewrite Nat.div_small by lia.
    repeat split; lia.
Qed.

Lemma progreso_cuenta p :
  ((if (S p mod 100 =? 0)%nat then 1 else 0) = S p / 100 - p / 100)%nat.
Proof.
  destruct (Nat.eqb_spec (S p mod 100) 0) as [E|E].
  - pose proof (Nat.div_mod_eq (S p) 100). pose proof (Nat.div_mod_eq p 100).
    pose proof (Nat.mod_upper_bound p 100). lia.
  - pose proof (Nat.div_mod_eq (S p) 100). pose proof (Nat.div_mod_eq p 100).
    pose proof (Nat.mod_upper_bound p 100). pose proof (Nat.mod_upper_bound (S p) 100).
    lia.
Qed.

(** One municipality of full mode. *)
Lemma completo_uno_inv w hoy p m c s r c' s' :
  (batch_count c < 22)%nat ->
  completo_uno w hoy p (Mun.a_py m) c s = (Ok (r, c'), s') ->
  registro_completo w hoy p m r
  /\ batch_count c' = (S (batch_count c) mod 22)%nat
  /\ (procesados c' + errores c' = S (procesados c + errores c))%nat
  /\ (procesados c <= procesados c' <= S (procesados c))%nat
  /\ n_reloj s'
     = (n_reloj s + 2 * (S (batch_count c) / 22)
        + (procesados c' / 100 - procesados c / 100))%nat
  /\ cache_file s' = cache_file s /\ json_file s' = json_file s
  /\ n_calendario s' = n_calendario s.
Proof.
  intros Hb. unfold completo_uno.
  cbn [Mun.a_py Py.getitem Py.lookup String.eqb Ascii.eqb Bool.eqb].
  unfold seguir at 1, puro at 1. unfold seguir at 1, puro at 1.
  unfold seguir at 1.
  destruct (pausa_lote_efecto w c s Hb)
    as (c1 & s1 & -> & Hbc & Hp & He & Hr & _ & Hcf & Hjf & Hcal).
  unfold seguir at 1.
  assert (Hv : forall v,
             fst (aemet_request w (Diaria (PStr (Mun.codigo m))) 3 s1) = Ok v ->
             v = PNone
             \/ exists k,
                  (n_red s1
                   <= k < n_red (snd (aemet_request w (Diaria (PStr (Mun.codigo m)))
                                        3 s1)))%nat
                  /\ red w k = Respuesta 200 (Json v))
    by apply (intentos_cotas w (Diaria (PStr (Mun.codigo m))) 3 3 0 s1).
  pose proof (aemet_request_mismos w (Diaria (PStr (Mun.codigo m))) 3 s1)
    as (Hcf2 & Hjf2 & Hcal2 & Hr2).
  destruct (aemet_request w (Diaria (PStr (Mun.codigo m))) 3 s1) as [[datos|x] s2];
    [|discriminate].
  cbn [fst snd] in *.
  destruct (Py.truthy datos) eqn:Ht; cbn [negb].
  - unfold seguir at 1, puro at 1.
    destruct (_extraer_temp_dia datos hoy) as [[mn mx]|x] eqn:Ex; [|discriminate].
    unfold seguir, puro, time_time, sleep, ret.
    pose proof (progreso_cuenta (procesados c1)) as Hpc. rewrite Hp in *.
    destruct (S (procesados c) mod 100 =? 0)%nat; intros H; injection H as <- <- <-;
      cbn [batch_count procesados errores n_reloj cache_file json_file n_calendario
             Lec.codigo Lec.municipio Lec.habitantes Lec.es_capital Lec.provincia
             Lec.fecha Lec.t_min Lec.t_max fst snd];
      (split; [repeat split; right;
               destruct (Hv datos eq_refl) as [->|(k & _ & Hk)];
               [discriminate | exists k, datos; split; assumption] |]);
      repeat split; try congruence; try lia.
  - unfold seguir, puro, sleep, ret. intros H. injection H as <- <- <-.
    cbn [batch_count procesados errores n_reloj cache_file json_file n_calendario
           Lec.codigo Lec.municipio Lec.habitantes Lec.es_capital Lec.provincia
           Lec.fecha Lec.t_min Lec.t_max fst snd].
    split; [repeat split; left; split; reflexivity|].
    rewrite Hp in *. repeat split; try congruence; try lia.
Qed.

(** The loop over the municipalities of one province. *)
Lemma completo_de_inv w hoy p l : forall c s recs c' s',
  (batch_count c < 22)%nat ->
  completo_de w hoy p (map Mun.a_py l) c s = (Ok (recs, c'), s') ->
  Forall2 (registro_completo w hoy p) l recs
  /\ batch_count c' = ((batch_count c + List.length l) mod 22)%nat
  /\ (procesados c' + errores c' = procesados c + errores c + List.length l)%nat
  /\ (procesados c <= procesados c')%nat
  /\ n_reloj s'
     = (n_reloj s + 2 * ((batch_count c + List.length l) / 22)
        + (procesados c' / 100 - procesados c / 100))%nat
  /\ cache_file s' = cache_file s /\ json_file s' = json_file s
  /\ n_calendario s' = n_calendario s.
Proof.
  induction l as [|m l IH]; intros c s recs c' s' Hb.
  - cbn [map completo_de]. unfold ret. intros H. injection H as <- <- <-.
    cbn [List.length].
    rewrite Nat.add_0_r, Nat.mod_small, Nat.div_small by lia.
    repeat split; try lia. constructor.
  - cbn [map completo_de]. unfold seguir at 1.
    destruct (completo_uno w hoy p (Mun.a_py m) c s) as [[[r c1]|x] s1] eqn:E1;
      [|discriminate].
    apply completo_uno_inv in E1 as (Hr & Hbc & Hpe & Hp & Hn & Hcf & Hjf & Hcal);
      [|exact Hb].
    cbn [fst snd]. unfold seguir at 1.
    destruct (completo_de w hoy p (map Mun.a_py l) c1 s1) as [[[rs c2]|x] s2] eqn:E2;
      [|discriminate].
    assert (Hb1 : (batch_count c1 < 22)%nat).
    { rewrite Hbc. apply Nat.mod_upper_bound. lia. }
    apply IH in E2 as (Hrs & Hbc2 & Hpe2 & Hp2 & Hn2 & Hcf2 & Hjf2 & Hcal2);
      [|exact Hb1].
    unfold ret. intros H. injection H as <- <- <-. cbn [fst snd List.length].
    split; [constructor; assumption|].
    split.
    { rewrite Hbc2, Hbc, Nat.Div0.add_mod_idemp_l. f_equal. lia. }
    split; [lia|]. split; [lia|].
    split; [|repeat split; congruence].
    rewrite Hn2, Hn, Hbc.
    assert (Hd : ((S (batch_count c) mod 22 + List.length l) / 22 + S (batch_count c) / 22
                  = (batch_count c + S (List.length l)) / 22)%nat).
    { destruct (Nat.eq_dec (batch_count c) 21) as [E|E].
      - rewrite E. change (22 mod 22)%nat with 0%nat. change (22 / 22)%nat with 1%nat.
        replace (21 + S (List.length l))%nat with (List.length l + 1 * 22)%nat by lia.
        rewrite Nat.div_add by lia. cbn [Nat.add]. lia.
      - rewrite Nat.mod_small, (Nat.div_small (S (batch_count c))) by lia.
        rewrite Nat.add_0_r. f_equal. lia. }
    assert (Hm1 : (procesados c / 100 <= procesados c1 / 100)%nat)
      by (apply Nat.Div0.div_le_mono; lia).
    assert (Hm2 : (procesados c1 / 100 <= procesados c2 / 100)%nat)
      by (apply Nat.Div0.div_le_mono; lia).
    lia.
Qed.

Lemma completo_provincias_inv w hoy (dir : Mun.directorio) : forall c r0 s res s',
  (batch_count c < 22)%nat ->
  completo_provincias w hoy (items_de dir) c r0 s = (Ok res, s') ->
  NoDup (map fst dir) ->
  (forall p l,
      In (p, l) dir ->
      exists recs,
        Lec.buscar p res = Some recs /\ Forall2 (registro_completo w hoy p) l recs)
  /\ (forall q, ~ In q (map fst dir) -> Lec.buscar q res = Lec.buscar q r0)
  /\ (forall q recs, In (q, recs) res -> In q (map fst dir) \/ In (q, recs) r0)
  /\ json_file s' = json_file s /\ cache_file s' = cache_file s.
Proof.
  induction dir as [|[p l] dir IH]; intros c r0 s res s' Hb.
  - cbn. intros H _. injection H as <- <-.
    split; [intros ? ? []|]. split; [reflexivity|]. split; [auto|]. split; reflexivity.
  - unfold items_de. cbn [map fst snd completo_provincias]. fold (items_de dir).
    unfold seguir at 1, puro. cbn [Py.iter]. unfold seguir at 1.
    destruct (completo_de w hoy p (map Mun.a_py l) c s) as [[[recs c1]|x] s1] eqn:E1;
      [|discriminate].
    apply completo_de_inv in E1 as (Hrecs & Hbc & _ & _ & _ & Hcf & Hjf & _);
      [|exact Hb].
    cbn [fst snd]. intros H Hnd. inversion Hnd as [|? ? Hp Hnd']; subst.
    assert (Hb1 : (batch_count c1 < 22)%nat).
    { rewrite Hbc. apply Nat.mod_upper_bound. lia. }
    destruct (IH _ _ _ _ _ Hb1 H Hnd') as (I1 & I2 & I3 & I4 & I5).
    split; [|split; [|split; [|split; congruence]]].
    + intros q m [Hq|Hq].
      * injection Hq as <- <-. exists recs. split; [|exact Hrecs].
        rewrite (I2 p Hp). apply buscar_poner.
      * now apply I1.
    + intros q Hq. cbn [map fst] in Hq.
      rewrite I2 by (intros Hc; apply Hq; now right).
      apply buscar_poner_otro. intros ->. apply Hq. now left.
    + intros q rq Hin. destruct (I3 q rq Hin) as [Hk|Hk].
      * left. now right.
      * apply poner_In in Hk as [(-> & _)|Hk]; [left; now left | now right].
Qed.

Lemma filter_items_de (f : string -> bool) dir :
  filter (fun kv => f (fst kv)) (items_de dir)
  = items_de (filter (fun pl => f (fst pl)) dir).
Proof.
  unfold items_de. induction dir as [|[p l] dir IH]; [reflexivity|].
  cbn [map filter fst snd]. rewrite IH. destruct (f p); reflexivity.
Qed.

(** The provinces that full mode goes through. *)
Lemma filtradas_tipadas filtro dir :
  match filtro with
  | Some f =>
      if String.eqb f "" then items_de dir
      else filter (fun kv => contiene (lower f) (lower (fst kv))) (items_de dir)
  | None => items_de dir
  end
  = items_de (filter (fun pl => filtro_pasa filtro (fst pl)) dir).
Proof.
  assert (Hid : forall d : Mun.directorio, filter (fun _ => true) d = d).
  { intros d. apply filter_todo. apply Forall_forall. reflexivity. }
  destruct filtro as [f|]; cbn [filtro_pasa]; [|now rewrite Hid].
  destruct (String.eqb f ""); [now rewrite Hid|].
  apply (filter_items_de (fun p => contiene (lower f) (lower p))).
Qed.

Lemma sorted_items_de dir : sorted_items (items_de dir) = items_de (sorted_items dir).
Proof. apply sorted_items_tipado. Qed.

(** What a run of full mode that returns has done. *)
Lemma completo_inv w filtro s res s' dir :
  obtener_temperaturas_completo w filtro s = (Ok res, s') ->
  fst (obtener_municipios w (snd (datetime_now w s))) = Ok (Mun.dir_a_py dir) ->
  NoDup (map fst dir) ->
  let hoy := Fecha.iso (fecha_de (calendario w (n_calendario s))) in
  (forall p l,
      In (p, l) dir -> filtro_pasa filtro p = true ->
      exists recs,
        Lec.buscar p res = Some recs /\ Forall2 (registro_completo w hoy p) l recs)
  /\ (forall q recs,
        In (q, recs) res -> filtro_pasa filtro q = true /\ In q (map fst dir)).
Proof.
  intros Hrun Hdir Hnd hoy.
  unfold obtener_temperaturas_completo in Hrun.
  unfold seguir at 1 in Hrun. cbn [datetime_now] in Hrun, Hdir.
  unfold seguir at 1 in Hrun.
  destruct (obtener_municipios w _) as [[pm|] s1]; [|discriminate].
  cbn [fst] in Hdir. injection Hdir as ->.
  destruct (negb (Py.truthy (Mun.dir_a_py dir))) eqn:Ht.
  { destruct dir; [|discriminate]. unfold ret in Hrun. injection Hrun as <- _.
    split; [intros ? ? []|intros ? ? []]. }
  unfold seguir at 1, puro at 1 in Hrun. rewrite items_dir in Hrun.
  fold (items_de dir) in Hrun. rewrite filtradas_tipadas in Hrun.
  set (dirf := filter (fun pl => filtro_pasa filtro (fst pl)) dir) in *.
  assert (Hdirf : forall p l, In (p, l) dirf <-> In (p, l) dir /\ filtro_pasa filtro p = true).
  { intros p l. unfold dirf. rewrite filter_In. reflexivity. }
  destruct (items_de dirf) as [|it its] eqn:Eit.
  { unfold ret in Hrun. injection Hrun as <- _.
    destruct dirf as [|[p0 l0] d0]; [|discriminate].
    split; [|intros ? ? []].
    intros p l Hin Hp. destruct (proj2 (Hdirf p l) (conj Hin Hp)). }
  rewrite <- Eit in Hrun. clear Eit it its.
  unfold seguir at 1, puro at 1 in Hrun.
  destruct (suma_len (items_de dirf)) as [tot|]; [|discriminate].
  unfold seguir at 1, time_time at 1 in Hrun.
  unfold seguir at 1, time_time at 1 in Hrun.
  unfold seguir at 1 in Hrun. rewrite sorted_items_de in Hrun.
  match type of Hrun with
  | context [completo_provincias w ?h ?d ?c ?r ?st] =>
      destruct (completo_provincias w h d c r st) as [[r1|] s2] eqn:Ep; [|discriminate]
  end.
  unfold seguir, time_time, ret in Hrun. injection Hrun as <- _.
  assert (Hnd' : NoDup (map fst (sorted_items dirf))).
  { eapply Permutation_NoDup; [apply Permutation_map, sorted_items_perm|].
    unfold dirf. clear - Hnd. induction dir as [|[p l] dir IH]; [constructor|].
    cbn [map fst] in Hnd. inversion Hnd as [|? ? Hp Hnd']; subst.
    cbn [filter fst]. destruct (filtro_pasa filtro p); [|now apply IH].
    cbn [map fst]. constructor; [|now apply IH].
    intros Hin. apply Hp. apply in_map_iff in Hin as ([q m] & <- & Hq).
    apply filter_In in Hq as [Hq _]. apply in_map_iff. exists (q, m). now split. }
  apply completo_provincias_inv in Ep as (I1 & _ & I3 & _);
    [|cbn [batch_count]; lia | exact Hnd'].
  split.
  - intros p l Hin Hp. apply I1.
    eapply Permutation_in; [apply sorted_items_perm|]. apply Hdirf. now split.
  - intros q recs Hin. destruct (I3 q recs Hin) as [Hk|[]].
    apply in_map_iff in Hk as ([q' m] & <- & Hq).
    eapply Permutation_in in Hq; [|apply Permutation_sym, sorted_items_perm].
    apply Hdirf in Hq as [Hq Hp]. split; [exact Hp|].
    apply in_map_iff. exists (q', m). now split.
Qed.









(** X15. The province filter of full mode.  Every province in the result
    of a run of full mode is a province of the directory whose name, in
    lower case, contains the filter in lower case; and when no province of
    the directory does, the result is empty.  The filter and the province
    names are taken in Latin-1 (code points up to U+00FF), as the names of
    [PROVINCIAS] are: there [lower] is the lower case of Python. *)
Theorem full_mode_filter (w : mundo) (filtro : option string) (s s' : estado)
  (res : Lec.por_provincia) (dir : Mun.directorio) :
  filtro_latin1 filtro = true ->
  forallb (fun pl => es_latin1 (fst pl)) dir = true ->
  obtener_temperaturas_completo w filtro s = (Ok res, s') ->
  fst (obtener_municipios w (snd (datetime_now w s))) = Ok (Mun.dir_a_py dir) ->
  NoDup (map fst dir) ->
  (forall q recs,
      In (q, recs) res -> filtro_pasa filtro q = true /\ In q (map fst dir))
  /\ ((forall p, In p (map fst dir) -> filtro_pasa filtro p = false) -> res = []).
Proof.
  intros _ _ Hrun Hdir Hnd.
  destruct (completo_inv w filtro s res s' dir Hrun Hdir Hnd) as [_ H].
  split; [exact H|].
  intros Hno. destruct res as [|[q recs] res]; [reflexivity|].
  destruct (H q recs (or_introl eq_refl)) as [Hq Hin].
  rewrite (Hno q Hin) in Hq. discriminate.
Qed.


(** X17. The batch counter of full mode.  In the loop over the entries of
    a province, entered with a batch counter [b] below 22 and run to its
    end over [n] entries: the batch counter ends at [(b + n) mod 22]; every
    entry is counted once, as processed or as failed; and the clock is
    read twice for each of the [(b + n) / 22] times the counter reaches 22,
    and once whenever the number of processed entries reaches a multiple
    of 100.  The cache file and the data file are not touched. *)
Theorem batch_counter (w : mundo) (hoy p : string) (l : list Mun.t)
  (c c' : contador) (s s' : estado) (recs : list Lec.t) :
  (batch_count c < 22)%nat ->
  completo_de w hoy p (map Mun.a_py l) c s = (Ok (recs, c'), s') ->
  batch_count c' = ((batch_count c + List.length l) mod 22)%nat
  /\ (procesados c' + errores c' = procesados c + errores c + List.length l)%nat
  /\ List.length recs = List.length l
  /\ n_reloj s'
     = (n_reloj s + 2 * ((batch_count c + List.length l) / 22)
        + (procesados c' / 100 - procesados c / 100))%nat
  /\ cache_file s' = cache_file s /\ json_file s' = json_file s.
Proof.
  intros Hb Hrun.
  destruct (completo_de_inv w hoy p l c s recs c' s' Hb Hrun)
    as (Hrecs & Hbc & Hpe & _ & Hn & Hcf & Hjf & _).
  repeat split; try assumption.
  symmetry. eapply Forall2_length, Hrecs.
Qed.

(** X18. Fetch failure isolation in capitals-only mode.  When the network
    never answers with status 200 and the directory comes from the cache,
    a run of capitals-only mode still returns, and every province has a
    record for each entry the mode selects, the two temperatures absent. *)
Theorem capitals_failure_isolation (w : mundo) (s : estado) (dir : Mun.directorio) :
  sin_200 w ->
  fst (obtener_municipios w (snd (datetime_now w s))) = Ok (Mun.dir_a_py dir) ->
  NoDup (map fst dir) ->
  exists res s',
    obtener_temperaturas_capitales w s = (Ok res, s')
    /\ forall p l,
         In (p, l) dir ->
         Lec.buscar p res
         = Some (map (registro_sin_datos
                        (Fecha.iso (fecha_de (calendario w (n_calendario s)))) p)
                   (Mun.elegidos l)).
Proof.
  intros Hw Hdir Hnd.
  destruct (capitales_sin_red w s dir Hw Hdir Hnd) as [(s' & Hrun) H].
  eexists. exists s'. split; [exact Hrun | exact H].
Qed.

(** A network that always fails never answers with status 200. *)
Lemma mundo_sin_red : sin_200 (Ejemplo.mundo_de []).
Proof. intros [|k] c; discriminate. Defined.


(** [full_mode_filter] on the sample run with the filter [MADR]. *)
Lemma full_mode_filter_witness :
  (forall q recs,
      In (q, recs) Corrida.resultado_filtrado ->
      filtro_pasa (Some "MADR") q = true /\ In q (map fst Ejemplo.directorio))
  /\ ((forall p, In p (map fst Ejemplo.directorio) ->
                 filtro_pasa (Some "MADR") p = false) ->
      Corrida.resultado_filtrado = []).
Proof.
  refine (full_mode_filter Corrida.mundo_completo (Some "MADR")
            Ejemplo.estado_capitales
            (snd (obtener_temperaturas_completo Corrida.mundo_completo (Some "MADR")
                    Ejemplo.estado_capitales))
            Corrida.resultado_filtrado Ejemplo.directorio
            _ _ _ _ directorio_sin_repetir).
  - reflexivity.
  - reflexivity.
  - por_calculo.
  - por_calculo.
Defined.


(** [capitals_failure_isolation] on the directory of the example and a
    network that always fails. *)
Lemma capitals_failure_isolation_witness :
  exists res s',
    obtener_temperaturas_capitales (Ejemplo.mundo_de []) Ejemplo.estado_capitales
    = (Ok res, s')
    /\ forall p l,
         In (p, l) Ejemplo.directorio ->
         Lec.buscar p res
         = Some (map (registro_sin_datos "2024-03-05" p) (Mun.elegidos l)).
Proof.
  refine (capitals_failure_isolation (Ejemplo.mundo_de []) Ejemplo.estado_capitales
            Ejemplo.directorio mundo_sin_red _ directorio_sin_repetir).
  por_calculo.
Defined.

(** [batch_counter] on the two entries of Madrid, entered with the batch
    counter at 21 and 99 entries processed. *)
Lemma batch_counter_witness :
  exists recs c' s',
    completo_de Corrida.mundo_completo "2024-03-05" "Madrid"
      (map Mun.a_py Corrida.madrid) Corrida.contador_21 (Ejemplo.estado_de None None)
    = (Ok (recs, c'), s')
    /\ batch_count c' = 1%nat
    /\ (procesados c' + errores c' = 101)%nat
    /\ List.length recs = 2%nat
    /\ n_reloj s' = 3%nat
    /\ cache_file s' = None /\ json_file s' = None.
Proof.
  do 3 eexists. split; [por_calculo|].
  refine (batch_counter Corrida.mundo_completo "2024-03-05" "Madrid" Corrida.madrid
            Corrida.contador_21 _ (Ejemplo.estado_de None None) _ _ _ _).
  - cbn. lia.
  - por_calculo.
Defined.

(** * More on the data file *)

Lemma compare_lt_trans a b c :
  String.compare a b = Lt -> String.compare b c = Lt -> String.compare a c = Lt.
Proof.
  intros H1 H2. apply OrderedTypeEx.String_as_OT.cmp_lt.
  apply OrderedTypeEx.String_as_OT.cmp_lt in H1, H2.
  eapply OrderedTypeEx.String_as_OT.lt_trans; eassumption.
Qed.

Lemma leb_trans a b c :
  String.leb a b = true -> String.leb b c = true -> String.leb a c = true.
Proof.
  unfold String.leb.
  destruct (String.compare a b) eqn:E1; try discriminate;
    destruct (String.compare b c) eqn:E2; try discriminate; intros _ _.
  - apply String.compare_eq_iff in E1. subst. now rewrite E2.
  - apply String.compare_eq_iff in E1. subst. now rewrite E2.
  - apply String.compare_eq_iff in E2. subst. now rewrite E1.
  - now rewrite (compare_lt_trans _ _ _ E1 E2).
Qed.

Lemma leb_ltb a b : String.leb a b = true -> a <> b -> String.ltb a b = true.
Proof.
  unfold String.leb, String.ltb.
  destruct (String.compare a b) eqn:E; try discriminate; [|reflexivity].
  apply String.compare_eq_iff in E. contradiction.
Qed.

Lemma insertar_str_perm s l : Permutation (s :: l) (insertar_str s l).
Proof.
  induction l as [|s' l IH]; cbn; [apply Permutation_refl|].
  destruct (String.leb s s'); [apply Permutation_refl|].
  eapply perm_trans; [apply perm_swap | now constructor].
Qed.

Lemma ordenar_str_perm l : Permutation l (fold_right insertar_str [] l).
Proof.
  induction l as [|s l IH]; cbn; [constructor|].
  eapply perm_trans; [constructor; exact IH | apply insertar_str_perm].
Qed.

Lemma insertar_str_ordenada s l :
  StronglySorted (fun a b => String.leb a b = true) l ->
  StronglySorted (fun a b => String.leb a b = true) (insertar_str s l).
Proof.
  induction 1 as [|s' l Hl IH Hs']; cbn.
  - constructor; constructor.
  - destruct (String.leb s s') eqn:E.
    + constructor; [now constructor|]. constructor; [exact E|].
      eapply Forall_impl; [|exact Hs']. intros x Hx. eapply leb_trans; eassumption.
    + constructor; [exact IH|].
      eapply Permutation_Forall; [apply insertar_str_perm|].
      constructor; [|exact Hs'].
      destruct (String.leb_total s s') as [H|H]; [congruence | exact H].
Qed.

Lemma ordenar_str_ordenada l :
  StronglySorted (fun a b => String.leb a b = true) (fold_right insertar_str [] l).
Proof.
  induction l as [|s l IH]; cbn; [constructor | now apply insertar_str_ordenada].
Qed.

Lemma ordenada_ascendente l :
  NoDup l -> StronglySorted (fun a b => String.leb a b = true) l -> ascendente l.
Proof.
  intros Hnd H. induction H as [|s l Hl IH Hs]; [constructor|].
  inversion Hnd as [|? ? Hin Hnd']; subst.
  constructor; [now apply IH|].
  rewrite Forall_forall in *. intros x Hx. apply leb_ltb; [now apply Hs|].
  intros ->. contradiction.
Qed.

(** ** [set] *)

Lemma eq_hash_refl v : hashable v = true -> eq_hash v v = true.
Proof.
  destruct v as [|b|z|[|sg|q]|s|l|d]; cbn; try discriminate; intros _;
    try reflexivity.
  all: try (match goal with x : bool |- _ => destruct x; reflexivity end).
  all: try apply Z.eqb_refl.
  all: try apply String.eqb_refl.
  all: try (apply Qeq_bool_iff; reflexivity).
  all: try apply Bool.eqb_reflx.
Qed.

Lemma distintos_incl l v : In v (distintos l) -> In v l.
Proof.
  induction l as [|x l IH]; cbn; [auto|].
  destruct (existsb (eq_hash x) (distintos l)); cbn; intuition.
Qed.

Lemma distintos_cubre l v :
  forallb hashable l = true -> In v l ->
  exists c, In c (distintos l) /\ eq_hash v c = true.
Proof.
  induction l as [|x l IH]; cbn [forallb distintos]; [intros _ []|].
  intros Hh Hin. apply andb_true_iff in Hh as [Hx Hl].
  destruct (existsb (eq_hash x) (distintos l)) eqn:E.
  - destruct Hin as [<-|Hin]; [|now apply IH].
    apply existsb_exists in E as (c & Hc & He). eauto.
  - destruct Hin as [<-|Hin].
    + exists x. split; [now left | now apply eq_hash_refl].
    + destruct (IH Hl Hin) as (c & Hc & He). exists c. split; [now right | exact He].
Qed.

Lemma distintos_sin_iguales l : sin_iguales (distintos l).
Proof.
  induction l as [|x l IH]; cbn; [constructor|].
  destruct (existsb (eq_hash x) (distintos l)) eqn:E; [exact IH|].
  constructor; [|exact IH].
  rewrite Forall_forall. intros c Hc.
  destruct (eq_hash x c) eqn:Ec; [|reflexivity].
  assert (existsb (eq_hash x) (distintos l) = true)
    by (apply existsb_exists; eauto).
  congruence.
Qed.

Lemma eq_hash_cadena v s : eq_hash v (PStr s) = true -> v = PStr s.
Proof.
  destruct v as [|b|z|[|sg|q]|s'|l|d]; cbn; try discriminate.
  all: try (match goal with x : bool |- _ => destruct x; discriminate end).
  intros H. apply String.eqb_eq in H. now subst.
Qed.

Lemma cadenas_In l ss : cadenas l = Some ss -> forall v, In v l <-> exists s, v = PStr s /\ In s ss.
Proof.
  revert ss. induction l as [|x l IH]; intros ss; cbn.
  - intros H. injection H as <-. intros v. split; [intros [] | intros (s & _ & [])].
  - destruct x; try discriminate. destruct (cadenas l) as [ss'|]; [|discriminate].
    cbn. intros H. injection H as <-. intros v. split.
    + intros [<-|Hin]; [eexists; split; [reflexivity | now left]|].
      apply (IH ss' eq_refl) in Hin as (s' & -> & Hs'). eexists; split; [reflexivity | now right].
    + intros (s' & -> & [->|Hs']); [now left|].
      right. apply (IH ss' eq_refl). eauto.
Qed.

Lemma cadenas_NoDup l ss : cadenas l = Some ss -> sin_iguales l -> NoDup ss.
Proof.
  revert ss. induction l as [|x l IH]; intros ss; cbn.
  - intros H _. injection H as <-. constructor.
  - destruct x; try discriminate. destruct (cadenas l) as [ss'|] eqn:E; [|discriminate].
    cbn. intros H Hs. injection H as <-. inversion Hs as [|? ? Hx Hl]; subst.
    constructor; [|now apply IH].
    intros Hin. rewrite Forall_forall in Hx.
    assert (Hv : In (PStr s) l) by (apply (cadenas_In l ss' E); eauto).
    specialize (Hx _ Hv). cbn in Hx. rewrite String.eqb_refl in Hx. discriminate.
Qed.

Lemma columna_de k l vs :
  columna k l = Ok vs ->
  forall v, In v vs <-> exists r, In r l /\ Py.getitem r k = Ok v.
Proof.
  revert vs. induction l as [|x l IH]; intros vs; cbn.
  - intros H. injection H as <-. intros v. split; [intros [] | intros (r & [] & _)].
  - destruct (Py.getitem x k) as [vx|] eqn:Ex; [|discriminate]. cbn.
    destruct (columna k l) as [vs'|]; [|discriminate]. cbn.
    intros H. injection H as <-. intros v. split.
    + intros [<-|Hin]; [exists x; split; [now left | exact Ex]|].
      apply (IH vs' eq_refl) in Hin as (r & Hr & Hv). exists r. split; [now right | exact Hv].
    + intros (r & [<-|Hr] & Hv); [left; congruence|].
      right. apply (IH vs' eq_refl). eauto.
Qed.

(** The steps of a run that returns, the metadata included. *)
Lemma guardar_json_metadatos w dpp n s s' :
  guardar_json w dpp n s = (Ok tt, s') ->
  exists regs fs cs dias act,
    columna "fecha" regs = Ok fs
    /\ forallb hashable fs = true
    /\ sorted_str (distintos fs) = Ok dias
    /\ columna "codigo" regs = Ok cs
    /\ forallb hashable cs = true
    /\ json_file s'
       = Some (Json (PDict
           [ ("actualizado", act); ("dias_disponibles", PList (map PStr dias));
             ("total_municipios", PInt (Z.of_nat (List.length (distintos cs))));
             ("registros", PList regs) ])).
Proof.
  unfold guardar_json, seguir, datetime_now, puro, write_json, read_json.
  cbn -[Fecha.iso iso_minuto Fecha.menos_dias].
  repeat match goal with
         | |- context [match ?x with Ok _ => _ | Raise _ => _ end] =>
             destruct x eqn:?; cbn -[Fecha.iso iso_minuto Fecha.menos_dias];
             try discriminate
         end.
  intros H. injection H as <-. cbn [json_file].
  repeat match goal with
  | Hc : py_set ?cs = Ok _ |- _ =>
      unfold py_set in Hc; destruct (forallb hashable cs) eqn:?; [|discriminate];
      injection Hc as <-
  end.
  eexists _, _, _, _, _.
  repeat split; eassumption || reflexivity.
Qed.

(** X19. The metadata of the data file.  In a file that [guardar_json]
    has written, [dias_disponibles] lists the dates of the records, each
    one once, in the order of the strings, and [total_municipios] is the
    length of a list of the codes of the records in which no two are
    equal and every code of a record has its equal. *)
Theorem guardar_json_metadata (w : mundo) (dpp : Lec.por_provincia) (n : nat)
  (s s' : estado) :
  guardar_json w dpp n s = (Ok tt, s') ->
  exists act dias cods regs,
    json_file s'
    = Some (Json (PDict
        [ ("actualizado", act); ("dias_disponibles", PList (map PStr dias));
          ("total_municipios", PInt (Z.of_nat (List.length cods)));
          ("registros", PList regs) ]))
    /\ ascendente dias
    /\ (forall f, In f dias <->
                  exists r, In r regs /\ Py.getitem r "fecha" = Ok (PStr f))
    /\ sin_iguales cods
    /\ (forall c, In c cods -> exists r, In r regs /\ Py.getitem r "codigo" = Ok c)
    /\ (forall r, In r regs ->
          exists c c', Py.getitem r "codigo" = Ok c /\ In c' cods
                       /\ eq_hash c c' = true).
Proof.
  intros H.
  destruct (guardar_json_metadatos w dpp n s s' H)
    as (regs & fs & cs & dias & act & Hfs & Hhf & Hdias & Hcs & Hhc & Hfile).
  exists act, dias, (distintos cs), regs. split; [exact Hfile|].
  unfold sorted_str in Hdias.
  destruct (cadenas (distintos fs)) as [ss|] eqn:Ess; [|discriminate].
  injection Hdias as <-.
  assert (Hnd : NoDup ss) by (eapply cadenas_NoDup; [exact Ess | apply distintos_sin_iguales]).
  split; [|split; [|split; [|split]]].
  - apply ordenada_ascendente; [|apply ordenar_str_ordenada].
    eapply Permutation_NoDup; [apply ordenar_str_perm | exact Hnd].
  - intros f. rewrite <- (columna_de _ _ _ Hfs (PStr f)). split.
    + intros Hin. apply distintos_incl. apply (cadenas_In _ _ Ess).
      exists f. split; [reflexivity|].
      eapply Permutation_in; [apply Permutation_sym, ordenar_str_perm | exact Hin].
    + intros Hin. destruct (distintos_cubre fs (PStr f) Hhf Hin) as (c & Hc & He).
      apply (cadenas_In _ _ Ess) in Hc as (s0 & -> & Hs0).
      cbn in He. apply String.eqb_eq in He. subst s0.
      eapply Permutation_in; [apply ordenar_str_perm | exact Hs0].
  - apply distintos_sin_iguales.
  - intros c Hc. apply (columna_de _ _ _ Hcs). now apply distintos_incl.
  - intros r Hr. destruct (columna_In _ _ _ _ Hcs Hr) as (c & Hc & Hin).
    destruct (distintos_cubre cs c Hhc Hin) as (c' & Hc' & He). eauto.
Qed.

(** X20. A data file that cannot be loaded.  When the data file holds
    JSON that is not an object, [guardar_json] raises [AttributeError] at
    the [get] of step 1; when reading or parsing the file raises an
    exception other than the two that the handler of step 1 names,
    [guardar_json] raises that exception.  Both happen before the file is
    opened for writing: the data file and the cache file are as they
    were. *)
Theorem guardar_json_unloadable_file (w : mundo) (dpp : Lec.por_provincia)
  (n : nat) (s : estado) (lim : Fecha.t) (x : exn) :
  Fecha.menos_dias (fecha_de (calendario w (S (n_calendario s)))) n = Ok lim ->
  ((exists v, json_file s = Some (Json v) /\ Py.is_dict v = false /\ x = AttributeError)
   \/ (json_file s = Some (Rompe x) /\ x <> JSONDecodeError /\ x <> KeyError)) ->
  exists s',
    guardar_json w dpp n s = (Raise x, s')
    /\ json_file s' = json_file s /\ cache_file s' = cache_file s.
Proof.
  intros Hlim Hf.
  unfold guardar_json, seguir, datetime_now, puro, read_json.
  cbn -[Fecha.iso iso_minuto Fecha.menos_dias cargar_existentes].
  rewrite Hlim. cbn -[Fecha.iso iso_minuto cargar_existentes].
  assert (Hc : cargar_existentes (json_file s) = Raise x).
  { destruct Hf as [(v & -> & Hv & ->)|(-> & H1 & H2)].
    - destruct v; try discriminate; reflexivity.
    - destruct x; try reflexivity; contradiction. }
  rewrite Hc. eexists. split; [reflexivity|]. split; reflexivity.
Qed.

(** [guardar_json_unloadable_file] on a data file that holds a JSON
    list. *)
Lemma guardar_json_unloadable_file_witness :
  exists s',
    guardar_json (Ejemplo.mundo_de []) Ejemplo.lote 7
      (Ejemplo.estado_de None (Some (Json (PList [])))) = (Raise AttributeError, s')
    /\ json_file s' = Some (Json (PList [])) /\ cache_file s' = None.
Proof.
  eapply (guardar_json_unloadable_file (Ejemplo.mundo_de []) Ejemplo.lote 7
            (Ejemplo.estado_de None (Some (Json (PList [])))) _ AttributeError).
  - vm_compute. reflexivity.
  - left. exists (PList []). repeat split.
Defined.



(** [guardar_json_metadata] on the batch of the example and the seeded
    data file. *)
Lemma guardar_json_metadata_witness :
  exists act dias cods regs,
    json_file (snd (guardar_json (Ejemplo.mundo_de []) Ejemplo.lote 7
                      (Ejemplo.estado_de None Ejemplo.datos_sembrados)))
    = Some (Json (PDict
        [ ("actualizado", act); ("dias_disponibles", PList (map PStr dias));
          ("total_municipios", PInt (Z.of_nat (List.length cods)));
          ("registros", PList regs) ]))
    /\ ascendente dias
    /\ (forall f, In f dias <->
                  exists r, In r regs /\ Py.getitem r "fecha" = Ok (PStr f))
    /\ sin_iguales cods
    /\ (forall c, In c cods -> exists r, In r regs /\ Py.getitem r "codigo" = Ok c)
    /\ (forall r, In r regs ->
          exists c c', Py.getitem r "codigo" = Ok c /\ In c' cods
                       /\ eq_hash c c' = true).
Proof.
  apply (guardar_json_metadata (Ejemplo.mundo_de []) Ejemplo.lote 7
           (Ejemplo.estado_de None Ejemplo.datos_sembrados)).
  por_calculo.
Defined.

(** X22. The file of one run is the input of the next.  The records of a
    file that [guardar_json] has written are what the next run loads, and
    each of them is an object with a string under ["fecha"] and a hashable
    value under ["codigo"]: the next run can filter them by date and count
    their codes. *)
Theorem guardar_json_output_is_input (w : mundo) (dpp : Lec.por_provincia)
  (n : nat) (s s' : estado) :
  guardar_json w dpp n s = (Ok tt, s') ->
  exists regs,
    cargar_existentes (json_file s') = Ok (PList regs)
    /\ Forall registro_ok regs.
Proof.
  intros H.
  destruct (guardar_json_inv w dpp n s s' H) as (viejos & rh & act & dias & tot & _ & Hf).
  exists (viejos ++ rh)%list. split; [rewrite Hf; reflexivity|].
  apply (guardar_json_escribe_bien w dpp n s s' _ H). rewrite Hf. reflexivity.
Qed.

(** [guardar_json_output_is_input] on the batch of the example and the
    seeded data file. *)
Lemma guardar_json_output_is_input_witness :
  exists regs,
    cargar_existentes
      (json_file (snd (guardar_json (Ejemplo.mundo_de []) Ejemplo.lote 7
                         (Ejemplo.estado_de None Ejemplo.datos_sembrados))))
    = Ok (PList regs)
    /\ Forall registro_ok regs.
Proof.
  apply (guardar_json_output_is_input (Ejemplo.mundo_de []) Ejemplo.lote 7
           (Ejemplo.estado_de None Ejemplo.datos_sembrados)).
  por_calculo.
Defined.

(** * What a whole run respects *)

Create HintDb marco.

Section Marco.

Variable R : estado -> estado -> Prop.
Hypothesis R_refl : forall s, R s s.
Hypothesis R_trans : forall s1 s2 s3, R s1 s2 -> R s2 s3 -> R s1 s3.
Hypothesis R_sleep : forall d, (0 < d)%Q -> respeta R (sleep d).
Hypothesis R_time : forall w, respeta R (time_time w).
Hypothesis R_now : forall w, respeta R (datetime_now w).
Hypothesis R_write_cache : forall v, respeta R (write_cache v).
Hypothesis R_aemet : forall w e m, respeta R (aemet_request w e m).

Lemma respeta_ret {A} (a : A) : respeta R (ret a).
Proof. intros s. apply R_refl. Qed.

Lemma respeta_raise {A} (x : exn) : respeta R (raise (A := A) x).
Proof. intros s. apply R_refl. Qed.

Lemma respeta_puro {A} (r : result A) : respeta R (puro r).
Proof. intros s. apply R_refl. Qed.

Lemma respeta_seguir {A B} (m : accion A) (k : A -> accion B) :
  respeta R m -> (forall a, respeta R (k a)) -> respeta R (seguir m k).
Proof.
  intros Hm Hk s. unfold seguir. specialize (Hm s).
  destruct (m s) as [[a|x] s1]; cbn [snd] in *; [|exact Hm].
  eapply R_trans; [exact Hm | apply Hk].
Qed.

Lemma respeta_o_pass (m : accion (option pyval)) :
  respeta R m -> respeta R (o_pass m).
Proof.
  intros Hm s. unfold o_pass. specialize (Hm s).
  destruct (m s) as [[a|x] s1]; cbn [snd] in *; [exact Hm|].
  destruct (atrapa _ x); exact Hm.
Qed.

Lemma respeta_read_cache : respeta R read_cache.
Proof. intros s. apply R_refl. Qed.

#[local] Hint Resolve respeta_ret respeta_raise respeta_puro respeta_read_cache
  respeta_o_pass respeta_seguir : marco.
#[local] Hint Extern 1 (respeta _ (time_time _)) => apply R_time : marco.
#[local] Hint Extern 1 (respeta _ (datetime_now _)) => apply R_now : marco.
#[local] Hint Extern 1 (respeta _ (write_cache _)) => apply R_write_cache : marco.
#[local] Hint Extern 1 (respeta _ (aemet_request _ _ _)) => apply R_aemet : marco.
#[local] Hint Extern 1 (respeta _ (sleep _)) => apply R_sleep; reflexivity : marco.
#[local] Hint Extern 2 (respeta _ (if ?b then _ else _)) => destruct b : marco.
#[local] Hint Extern 2 (respeta _ (match ?x with _ => _ end)) => destruct x : marco.
#[local] Hint Extern 2 (respeta _ (let _ := _ in _)) => cbv zeta : marco.

Lemma respeta_obtener_municipios w : respeta R (obtener_municipios w).
Proof.
  unfold obtener_municipios, cache_de_hoy, cache_antigua. eauto 30 with marco.
Qed.

Lemma respeta_capital_una w hoy p mun : respeta R (capital_una w hoy p mun).
Proof. unfold capital_una. eauto 30 with marco. Qed.

Lemma respeta_capitales_de w hoy p l : respeta R (capitales_de w hoy p l).
Proof.
  induction l as [|mun l IH]; cbn [capitales_de];
    eauto 30 using respeta_capital_una with marco.
Qed.

Lemma respeta_capitales_provincias w hoy provs :
  forall r, respeta R (capitales_provincias w hoy provs r).
Proof.
  induction provs as [|[p muns] provs IH]; intros r; cbn [capitales_provincias];
    eauto 30 using respeta_capitales_de with marco.
Qed.

Lemma respeta_capitales w : respeta R (obtener_temperaturas_capitales w).
Proof.
  unfold obtener_temperaturas_capitales.
  eauto 30 using respeta_obtener_municipios, respeta_capitales_provincias with marco.
Qed.

Lemma respeta_pausa_lote w c : respeta R (pausa_lote w c).
Proof.
  unfold pausa_lote. cbv zeta.
  destruct (22 <=? S (batch_count c))%nat; [|eauto with marco].
  apply respeta_seguir; [eauto with marco|]. intros t.
  apply respeta_seguir; [|eauto 10 with marco].
  destruct (Qlt_bool (t - batch_start c) 62) eqn:E; [|eauto with marco].
  apply R_sleep. unfold Qlt_bool in E. apply negb_true_iff in E.
  destruct (Qlt_le_dec (t - batch_start c) 62) as [Hlt|Hle].
  - apply Qlt_minus_iff in Hlt. exact Hlt.
  - apply Qle_bool_iff in Hle. congruence.
Qed.

Lemma respeta_completo_uno w hoy p mun c : respeta R (completo_uno w hoy p mun c).
Proof. unfold completo_uno. eauto 40 using respeta_pausa_lote with marco. Qed.

Lemma respeta_completo_de w hoy p l : forall c, respeta R (completo_de w hoy p l c).
Proof.
  induction l as [|mun l IH]; intros c; cbn [completo_de];
    eauto 30 using respeta_completo_uno with marco.
Qed.

Lemma respeta_completo_provincias w hoy provs :
  forall c r, respeta R (completo_provincias w hoy provs c r).
Proof.
  induction provs as [|[p muns] provs IH]; intros c r; cbn [completo_provincias];
    eauto 30 using respeta_completo_de with marco.
Qed.

Lemma respeta_completo w filtro : respeta R (obtener_temperaturas_completo w filtro).
Proof.
  unfold obtener_temperaturas_completo.
  eauto 40 using respeta_obtener_municipios, respeta_completo_provincias with marco.
Qed.

Lemma respeta_recoger w a : respeta R (recoger w a).
Proof.
  unfold recoger. destruct (solo_capitales a);
    [apply respeta_capitales | apply respeta_completo].
Qed.

End Marco.

(** ** The data file *)

Lemma mismo_json_recoger w a : respeta mismo_json (recoger w a).
Proof.
  apply respeta_recoger; unfold respeta, mismo_json; try reflexivity.
  - intros s1 s2 s3 H1 H2. congruence.
  - intros w' e m s. now destruct (aemet_request_mismos w' e m s) as (_ & H & _).
Qed.

(** X23. The data file before the save.  The collection phase of [main],
    in either mode and whatever the network answers, leaves the data file
    as it was; and a run of [main] that does not reach the save (no key,
    an exception from the collection, or a collection that returns an
    empty mapping) ends with the data file as it was before the run. *)
Theorem main_before_save_keeps_data (w : mundo) (a : args) (s : estado) :
  json_file (snd (recoger w a s)) = json_file s
  /\ ((forall k pl dpp, get_api_key w (api_key a) = Ok k ->
                        fst (recoger w a s) <> Ok (pl :: dpp)) ->
      json_file (snd (main w a s)) = json_file s).
Proof.
  pose proof (mismo_json_recoger w a s) as Hr. unfold mismo_json in Hr.
  split; [exact Hr|].
  unfold main, seguir, puro.
  destruct (get_api_key w (api_key a)) as [k|x]; [|reflexivity].
  intros Hno.
  destruct (recoger w a s) as [[[|pl dpp]|x] s1]; cbn [fst snd] in *;
    try exact Hr.
  now contradiction (Hno k pl dpp eq_refl).
Qed.

(** [main_before_save_keeps_data] on a run with a key, no cache and a
    network that always fails: the collection returns an empty mapping. *)
Lemma main_before_save_keeps_data_witness :
  fst (main (Ejemplo.mundo_de []) Ejemplo.solo_capitales_con_clave
         (Ejemplo.estado_de None Ejemplo.datos_sembrados)) = Raise (SystemExit 1)
  /\ json_file (snd (main (Ejemplo.mundo_de []) Ejemplo.solo_capitales_con_clave
                       (Ejemplo.estado_de None Ejemplo.datos_sembrados)))
     = Ejemplo.datos_sembrados.
Proof.
  split; [por_calculo|].
  refine (proj2 (main_before_save_keeps_data (Ejemplo.mundo_de [])
                   Ejemplo.solo_capitales_con_clave
                   (Ejemplo.estado_de None Ejemplo.datos_sembrados)) _).
  intros k pl dpp _. vm_compute. discriminate.
Defined.

(** ** The pauses *)

Lemma pausas_refl s : pausas_positivas s s.
Proof. exists []. split; [reflexivity | constructor]. Qed.

Lemma pausas_trans s1 s2 s3 :
  pausas_positivas s1 s2 -> pausas_positivas s2 s3 -> pausas_positivas s1 s3.
Proof.
  intros (n1 & E1 & P1) (n2 & E2 & P2). exists (n2 ++ n1)%list. split.
  - rewrite E2, E1, app_assoc. reflexivity.
  - apply Forall_app. split; assumption.
Qed.

Lemma pausas_aemet w e m : respeta pausas_positivas (aemet_request w e m).
Proof.
  intros s. destruct (intentos_pausas w e m m 0 s) as (nuevos & E & _ & P).
  exists (rev nuevos). split; [exact E|].
  apply Forall_rev. rewrite Forall_forall. intros d Hd.
  apply In_nth_error in Hd as (i & Hi).
  destruct (P i d Hi) as [->| ->]; [reflexivity|].
  apply Qmult_lt_0_compat; [reflexivity|].
  apply Qlt_le_trans with (y := 1%Q); [reflexivity|].
  rewrite <- (Qplus_0_l 1) at 1. apply Qplus_le_l.
  change 0%Q with (inject_Z 0). rewrite <- Zle_Qle. lia.
Qed.

Lemma pausas_recoger w a : respeta pausas_positivas (recoger w a).
Proof.
  apply respeta_recoger.
  - apply pausas_refl.
  - apply pausas_trans.
  - intros d Hd s. exists [d]. split; [reflexivity|]. constructor; [exact Hd | constructor].
  - intros w' s. exists []. split; [reflexivity | constructor].
  - intros w' s. exists []. split; [reflexivity | constructor].
  - intros v s. exists []. split; [reflexivity | constructor].
  - apply pausas_aemet.
Qed.

Lemma guardar_json_dormido w dpp n s :
  dormido (snd (guardar_json w dpp n s)) = dormido s.
Proof.
  unfold guardar_json, seguir, datetime_now, puro, write_json, read_json.
  cbn -[Fecha.iso iso_minuto Fecha.menos_dias].
  repeat match goal with
         | |- context [match ?x with Ok _ => _ | Raise _ => _ end] =>
             destruct x eqn:?; cbn -[Fecha.iso iso_minuto Fecha.menos_dias]
         end;
    reflexivity.
Qed.

(** X24. The pauses of a run.  Every pause that a run of [main] takes,
    in whatever mode and whatever the network and the clock do, has a
    positive length: the backoff of the client, the pause after each
    municipality, and the batch pause of full mode, which is taken only
    when the time left in the window of 62 seconds is positive. *)
Theorem main_sleeps_positive (w : mundo) (a : args) (s : estado) :
  exists nuevos : list Q,
    dormido (snd (main w a s)) = (nuevos ++ dormido s)%list
    /\ Forall (fun d => (0 < d)%Q) nuevos.
Proof.
  unfold main, seguir, puro.
  destruct (get_api_key w (api_key a)) as [k|x]; [|apply pausas_refl].
  pose proof (pausas_recoger w a s) as Hr.
  destruct (recoger w a s) as [[[|pl dpp]|x] s1]; cbn [snd] in *; try exact Hr.
  destruct Hr as (nuevos & E & P). exists nuevos. split; [|exact P].
  rewrite guardar_json_dormido. exact E.
Qed.

(** * The key *)

Lemma lstrip_cabeza l c l' : Py.lstrip l = c :: l' -> Py.is_space c = false.
Proof.
  induction l as [|x l IH]; cbn [Py.lstrip]; [discriminate|].
  destruct (Py.is_space x) eqn:E; [exact IH|].
  intros H. injection H as <- _. exact E.
Qed.

Lemma lstrip_fijo l :
  (forall c l', l = c :: l' -> Py.is_space c = false) -> Py.lstrip l = l.
Proof.
  destruct l as [|c l]; [reflexivity|]. intros H. cbn [Py.lstrip].
  now rewrite (H c l eq_refl).
Qed.

Lemma lstrip_idem l : Py.lstrip (Py.lstrip l) = Py.lstrip l.
Proof.
  apply lstrip_fijo. intros c l' H. eapply lstrip_cabeza, H.
Qed.

Lemma lstrip_sufijo l : exists pre, l = (pre ++ Py.lstrip l)%list.
Proof.
  induction l as [|x l (pre & IH)]; [now exists []|].
  cbn [Py.lstrip]. destruct (Py.is_space x).
  - exists (x :: pre). cbn. now rewrite <- IH.
  - now exists [].
Qed.

Lemma strip_idem l : Py.strip (Py.strip l) = Py.strip l.
Proof.
  unfold Py.strip.
  set (a := Py.lstrip l). set (b := Py.lstrip (rev a)).
  assert (H1 : Py.lstrip (rev b) = rev b).
  { apply lstrip_fijo. intros c l' Hb.
    destruct (lstrip_sufijo (rev a)) as (pre & Hpre). fold b in Hpre.
    apply (f_equal (@rev ascii)) in Hpre. rewrite rev_involutive, rev_app_distr in Hpre.
    rewrite Hb in Hpre. cbn in Hpre. unfold a in Hpre.
    eapply lstrip_cabeza, Hpre. }
  rewrite H1, rev_involutive. unfold b at 1. rewrite lstrip_idem. reflexivity.
Qed.

Lemma str_strip_idem s : str_strip (str_strip s) = str_strip s.
Proof.
  unfold str_strip. rewrite list_ascii_of_string_of_list_ascii, strip_idem.
  reflexivity.
Qed.

(** X25. Where the key comes from.  A key that [get_api_key] returns has
    no white space around it, and it is: the key of the command line,
    stripped, when that one is given and not empty, even when nothing but
    white space is in it; or else the variable of the environment,
    stripped, when that leaves something; or else the content of the key
    file, stripped, when that leaves something.  The three texts are taken
    in ASCII, as the keys of AEMET are: there the white space that [strip]
    removes is the white space of ASCII. *)
Theorem get_api_key_sources (w : mundo) (cli : option string) (k : string) :
  opcion_ascii cli = true ->
  es_ascii (env_key w) = true ->
  opcion_ascii (key_file w) = true ->
  get_api_key w cli = Ok k ->
  str_strip k = k
  /\ ((exists c, cli = Some c /\ c <> "" /\ k = str_strip c)
      \/ ((cli = None \/ cli = Some "")
          /\ ((k <> "" /\ k = str_strip (env_key w))
              \/ (str_strip (env_key w) = "" /\ k <> ""
                  /\ exists t, key_file w = Some t /\ k = str_strip t)))).
Proof.
  intros _ _ _. unfold get_api_key. cbv zeta.
  destruct (String.eqb_spec (match cli with Some c => c | None => "" end) "")
    as [Hc|Hc]; cbn [negb].
  2:{ intros H. injection H as <-. split; [apply str_strip_idem|].
      left. destruct cli as [c|]; [|contradiction]. exists c. auto. }
  assert (Hcli : cli = None \/ cli = Some "").
  { destruct cli as [c|]; [right; now subst | now left]. }
  destruct (String.eqb_spec (str_strip (env_key w)) "") as [He|He]; cbn [negb].
  2:{ intros H. injection H as <-. split; [apply str_strip_idem|].
      right. split; [exact Hcli|]. left. split; [exact He | reflexivity]. }
  destruct (key_file w) as [t|]; [|discriminate].
  destruct (String.eqb_spec (str_strip t) "") as [Ht|Ht]; cbn [negb]; [discriminate|].
  intros H. injection H as <-. split; [apply str_strip_idem|].
  right. split; [exact Hcli|]. right. split; [exact He|]. split; [exact Ht|].
  exists t. split; reflexivity.
Qed.

(** [get_api_key_sources] on a key in the environment, with blanks around
    it, and another in the key file. *)
Lemma get_api_key_sources_witness :
  str_strip "clave-de-entorno" = "clave-de-entorno"
  /\ ((exists c, None = Some c /\ c <> "" /\ "clave-de-entorno" = str_strip c)
      \/ ((@None string = None \/ None = Some "")
          /\ (("clave-de-entorno" <> ""
               /\ "clave-de-entorno" = str_strip (env_key Corrida.mundo_con_clave))
              \/ (str_strip (env_key Corrida.mundo_con_clave) = ""
                  /\ "clave-de-entorno" <> ""
                  /\ exists t, key_file Corrida.mundo_con_clave = Some t
                               /\ "clave-de-entorno" = str_strip t)))).
Proof.
  apply (get_api_key_sources Corrida.mundo_con_clave None "clave-de-entorno").
  - reflexivity.
  - reflexivity.
  - reflexivity.
  - por_calculo.
Defined.

(** * A run that succeeds *)

Lemma quitar_hoy_filtra hoy l : forall l2,
  quitar_hoy hoy l = Ok l2 -> l2 = filter (fun r => negb (fecha_es hoy r)) l.
Proof.
  induction l as [|r l IH]; intros l2; cbn [quitar_hoy filter].
  - intros H. now injection H as <-.
  - unfold fecha_es. destruct (Py.get r "fecha" PNone) as [f|]; [|discriminate].
    cbn [bind]. destruct (quitar_hoy hoy l) as [rs|]; [|discriminate].
    cbn [bind]. intros H. injection H as <-. rewrite (IH rs eq_refl).
    reflexivity.
Qed.

Lemma podar_filtra lim l : forall l3,
  podar lim l = Ok l3 -> l3 = filter (reciente lim) l.
Proof.
  induction l as [|r l IH]; intros l3; cbn [podar filter].
  - intros H. now injection H as <-.
  - unfold reciente. destruct (Py.get r "fecha" (PStr "")) as [f|]; [|discriminate].
    cbn [bind]. destruct f; try discriminate. cbn [ge_str bind].
    destruct (podar lim l) as [rs|]; [|discriminate].
    cbn [bind]. intros H. injection H as <-. rewrite (IH rs eq_refl).
    reflexivity.
Qed.

(** The steps of a run of [guardar_json] that returns. *)
Lemma guardar_json_etapas w dpp n s s' :
  guardar_json w dpp n s = (Ok tt, s') ->
  exists lim ex l rh,
    Fecha.menos_dias (fecha_de (calendario w (S (n_calendario s)))) n = Ok lim
    /\ cargar_existentes (json_file s) = Ok ex
    /\ Py.iter ex = Ok l
    /\ registros_hoy dpp = Ok rh
    /\ registros_de (json_file s')
       = Some (retenidos (Fecha.iso (fecha_de (calendario w (n_calendario s))))
                 (Fecha.iso lim) l ++ rh)%list.
Proof.
  unfold guardar_json, seguir, datetime_now, puro, write_json, read_json.
  cbn -[Fecha.iso iso_minuto Fecha.menos_dias cargar_existentes].
  destruct (Fecha.menos_dias _ n) as [lim|] eqn:Hlim;
    cbn -[Fecha.iso iso_minuto cargar_existentes]; [|discriminate].
  destruct (cargar_existentes (json_file s)) as [ex|] eqn:Hex;
    cbn -[Fecha.iso iso_minuto]; [|discriminate].
  destruct (Py.iter ex) as [l|] eqn:Hl; cbn -[Fecha.iso iso_minuto]; [|discriminate].
  destruct (quitar_hoy _ l) as [l2|] eqn:H2; cbn -[Fecha.iso iso_minuto]; [|discriminate].
  destruct (podar _ l2) as [l3|] eqn:H3; cbn -[Fecha.iso iso_minuto]; [|discriminate].
  destruct (registros_hoy dpp) as [rh|] eqn:Hrh; cbn -[Fecha.iso iso_minuto];
    [|discriminate].
  repeat match goal with
         | |- context [match ?x with Ok _ => _ | Raise _ => _ end] =>
             destruct x eqn:?; cbn -[Fecha.iso iso_minuto]; try discriminate
         end.
  intros H. injection H as <-. cbn [json_file registros_de].
  apply quitar_hoy_filtra in H2. apply podar_filtra in H3. subst l2 l3.
  exists lim, ex, l, rh.
  split; [reflexivity|]. split; [reflexivity|]. split; [exact Hl|].
  split; [reflexivity|]. reflexivity.
Qed.

(** X26. What exit status 0 means.  When [main] returns, a key was found,
    the collection returned a mapping that is not empty and left the data
    file as it was, and the data file now holds, in this order: the
    records that the file held before the run, without those dated today
    and those older than seven days; and the records built from the
    collection, one for each reading, in the order of the collection. *)
Theorem main_success (w : mundo) (a : args) (s s' : estado) :
  main w a s = (Ok tt, s') ->
  exists k dpp s1 lim ex l rh,
    get_api_key w (api_key a) = Ok k
    /\ recoger w a s = (Ok dpp, s1)
    /\ dpp <> []
    /\ Fecha.menos_dias (fecha_de (calendario w (S (n_calendario s1)))) 7 = Ok lim
    /\ cargar_existentes (json_file s) = Ok ex
    /\ Py.iter ex = Ok l
    /\ registros_hoy dpp = Ok rh
    /\ Forall2 (fun pd r => registro_hoy (fst pd) (snd pd) = Ok r) (lecturas dpp) rh
    /\ registros_de (json_file s')
       = Some (retenidos (Fecha.iso (fecha_de (calendario w (n_calendario s1))))
                 (Fecha.iso lim) l ++ rh)%list.
Proof.
  unfold main, seguir, puro.
  destruct (get_api_key w (api_key a)) as [k|x]; [|discriminate].
  pose proof (mismo_json_recoger w a s) as Hr. unfold mismo_json in Hr.
  destruct (recoger w a s) as [[[|pl dpp]|x] s1]; try discriminate.
  cbn [snd] in Hr. intros H.
  destruct (guardar_json_etapas _ _ _ _ _ H) as (lim & ex & l & rh & Hlim & Hex & Hl & Hrh & Hf).
  exists k, (pl :: dpp), s1, lim, ex, l, rh.
  split; [reflexivity|]. split; [reflexivity|]. split; [discriminate|].
  split; [exact Hlim|]. split; [now rewrite <- Hr|]. split; [exact Hl|].
  split; [exact Hrh|]. split; [now apply registros_hoy_Forall2|].
  exact Hf.
Qed.

(** [main_success] on the run of capitals-only mode of the example, over
    the seeded data file. *)
Lemma main_success_witness :
  let s := Ejemplo.estado_de (Ejemplo.cache_de (Mun.dir_a_py Ejemplo.directorio))
             Ejemplo.datos_sembrados in
  exists k dpp s1 lim ex l rh,
    get_api_key Ejemplo.mundo_capitales (api_key Ejemplo.solo_capitales_con_clave) = Ok k
    /\ recoger Ejemplo.mundo_capitales Ejemplo.solo_capitales_con_clave s = (Ok dpp, s1)
    /\ dpp <> []
    /\ Fecha.menos_dias
         (fecha_de (calendario Ejemplo.mundo_capitales (S (n_calendario s1)))) 7 = Ok lim
    /\ cargar_existentes (json_file s) = Ok ex
    /\ Py.iter ex = Ok l
    /\ registros_hoy dpp = Ok rh
    /\ Forall2 (fun pd r => registro_hoy (fst pd) (snd pd) = Ok r) (lecturas dpp) rh
    /\ registros_de
         (json_file (snd (main Ejemplo.mundo_capitales Ejemplo.solo_capitales_con_clave s)))
       = Some (retenidos
                 (Fecha.iso (fecha_de (calendario Ejemplo.mundo_capitales (n_calendario s1))))
                 (Fecha.iso lim) l ++ rh)%list.
Proof.
  cbv zeta.
  apply (main_success Ejemplo.mundo_capitales Ejemplo.solo_capitales_con_clave
           (Ejemplo.estado_de (Ejemplo.cache_de (Mun.dir_a_py Ejemplo.directorio))
              Ejemplo.datos_sembrados)).
  por_calculo.
Defined.

(** * The order of the provinces *)

Lemma poner_claves p l r :
  ~ In p (map fst r) -> map fst (Lec.poner p l r) = (map fst r ++ [p])%list.
Proof.
  induction r as [|[q l'] r IH]; cbn; [reflexivity|].
  intros H. destruct (String.eqb_spec p q) as [->|Hne]; [tauto|].
  cbn. f_equal. apply IH. tauto.
Qed.

Lemma NoDup_app_cons {A} (l : list A) x l' :
  NoDup (l ++ x :: l') -> ~ In x l /\ NoDup ((l ++ [x]) ++ l').
Proof.
  intros H. split.
  - apply NoDup_remove_2 in H. intros Hin. apply H. apply in_or_app. now left.
  - rewrite <- app_assoc. exact H.
Qed.

Lemma capitales_provincias_claves w hoy provs : forall r0 s res s',
  capitales_provincias w hoy provs r0 s = (Ok res, s') ->
  NoDup (map fst r0 ++ map fst provs) ->
  map fst res = (map fst r0 ++ map fst provs)%list.
Proof.
  induction provs as [|[p muns] provs IH]; intros r0 s res s'.
  - cbn. intros H _. injection H as <- _. now rewrite app_nil_r.
  - cbn [capitales_provincias map fst]. unfold seguir at 1, puro.
    destruct (seleccion muns) as [sel|]; [|discriminate].
    unfold seguir at 1.
    destruct (capitales_de w hoy p sel s) as [[recs|] s1]; [|discriminate].
    intros H Hnd. apply NoDup_app_cons in Hnd as [Hp Hnd].
    rewrite (IH _ _ _ _ H); rewrite (poner_claves p recs r0 Hp).
    + now rewrite <- app_assoc.
    + exact Hnd.
Qed.

Lemma completo_provincias_claves w hoy provs : forall c r0 s res s',
  completo_provincias w hoy provs c r0 s = (Ok res, s') ->
  NoDup (map fst r0 ++ map fst provs) ->
  map fst res = (map fst r0 ++ map fst provs)%list.
Proof.
  induction provs as [|[p muns] provs IH]; intros c r0 s res s'.
  - cbn. intros H _. injection H as <- _. now rewrite app_nil_r.
  - cbn [completo_provincias map fst]. unfold seguir at 1, puro.
    destruct (Py.iter muns) as [l|]; [|discriminate].
    unfold seguir at 1.
    destruct (completo_de w hoy p l c s) as [[[recs c1]|] s1]; [|discriminate].
    cbn [fst snd]. intros H Hnd. apply NoDup_app_cons in Hnd as [Hp Hnd].
    rewrite (IH _ _ _ _ _ H); rewrite (poner_claves p recs r0 Hp).
    + now rewrite <- app_assoc.
    + exact Hnd.
Qed.

Lemma insertar_item_ordenado {A} (kv : string * A) l :
  StronglySorted (fun a b => String.leb (fst a) (fst b) = true) l ->
  StronglySorted (fun a b => String.leb (fst a) (fst b) = true) (insertar_item kv l).
Proof.
  induction 1 as [|kv' l Hl IH Hkv']; cbn.
  - constructor; constructor.
  - destruct (String.leb (fst kv) (fst kv')) eqn:E.
    + constructor; [now constructor|]. constructor; [exact E|].
      eapply Forall_impl; [|exact Hkv']. intros x Hx. eapply leb_trans; eassumption.
    + constructor; [exact IH|].
      eapply Permutation_Forall; [apply insertar_item_perm|].
      constructor; [|exact Hkv'].
      destruct (String.leb_total (fst kv) (fst kv')) as [H|H]; [congruence | exact H].
Qed.

Lemma sorted_items_ordenado {A} (d : list (string * A)) :
  StronglySorted (fun a b => String.leb (fst a) (fst b) = true) (sorted_items d).
Proof.
  induction d as [|kv d IH]; cbn; [constructor | now apply insertar_item_ordenado].
Qed.

Lemma claves_ascendentes {A} (d : list (string * A)) :
  NoDup (map fst d) -> ascendente (map fst (sorted_items d)).
Proof.
  intros Hnd. apply ordenada_ascendente.
  - eapply Permutation_NoDup; [apply Permutation_map, sorted_items_perm | exact Hnd].
  - pose proof (sorted_items_ordenado d) as H.
    induction H as [|kv l Hl IH Hkv]; cbn; [constructor|].
    constructor; [exact IH|]. rewrite Forall_map. exact Hkv.
Qed.

Lemma NoDup_filter_claves {A} (f : string * A -> bool) (d : list (string * A)) :
  NoDup (map fst d) -> NoDup (map fst (filter f d)).
Proof.
  induction d as [|[p l] d IH]; cbn [map fst filter]; [constructor|].
  intros H. inversion H as [|? ? Hp Hd]; subst.
  destruct (f (p, l)); [|now apply IH].
  cbn [map fst]. constructor; [|now apply IH].
  intros Hin. apply Hp. apply in_map_iff in Hin as ([q m] & <- & Hq).
  apply filter_In in Hq as [Hq _]. apply in_map_iff. exists (q, m). now split.
Qed.

(** X27. The order of the provinces.  In both modes the mapping that the
    collection returns has its provinces in the order of their names as
    strings, each one once; this is the order in which [guardar_json]
    writes the records of the day. *)
Theorem provinces_in_order (w : mundo) (a : args) (s s' : estado)
  (res : Lec.por_provincia) (dir : Mun.directorio) :
  recoger w a s = (Ok res, s') ->
  fst (obtener_municipios w (snd (datetime_now w s))) = Ok (Mun.dir_a_py dir) ->
  NoDup (map fst dir) ->
  ascendente (map fst res).
Proof.
  unfold recoger. intros Hrun Hdir Hnd. destruct (solo_capitales a).
  - unfold obtener_temperaturas_capitales in Hrun.
    unfold seguir at 1 in Hrun. cbn [datetime_now] in Hrun, Hdir.
    unfold seguir at 1 in Hrun.
    destruct (obtener_municipios w _) as [[pm|] s1]; [|discriminate].
    cbn [fst] in Hdir. injection Hdir as ->.
    unfold seguir at 1, puro in Hrun. rewrite items_dir in Hrun.
    fold (items_de dir) in Hrun. rewrite sorted_items_de in Hrun.
    assert (Hk : map fst (items_de (sorted_items dir)) = map fst (sorted_items dir)).
    { unfold items_de. rewrite map_map. reflexivity. }
    apply capitales_provincias_claves in Hrun.
    + rewrite Hrun, Hk. now apply claves_ascendentes.
    + cbn [map app]. rewrite Hk.
      eapply Permutation_NoDup; [apply Permutation_map, sorted_items_perm | exact Hnd].
  - unfold obtener_temperaturas_completo in Hrun.
    unfold seguir at 1 in Hrun. cbn [datetime_now] in Hrun, Hdir.
    unfold seguir at 1 in Hrun.
    destruct (obtener_municipios w _) as [[pm|] s1]; [|discriminate].
    cbn [fst] in Hdir. injection Hdir as ->.
    destruct (negb (Py.truthy (Mun.dir_a_py dir))).
    { unfold ret in Hrun. injection Hrun as <- _. constructor. }
    unfold seguir at 1, puro at 1 in Hrun. rewrite items_dir in Hrun.
    fold (items_de dir) in Hrun. rewrite filtradas_tipadas in Hrun.
    set (dirf := filter (fun pl => filtro_pasa (provincia a) (fst pl)) dir) in *.
    destruct (items_de dirf) as [|it its] eqn:Eit.
    { unfold ret in Hrun. injection Hrun as <- _. constructor. }
    rewrite <- Eit in Hrun. clear Eit it its.
    unfold seguir at 1, puro at 1 in Hrun.
    destruct (suma_len (items_de dirf)) as [tot|]; [|discriminate].
    unfold seguir at 1, time_time at 1 in Hrun.
    unfold seguir at 1, time_time at 1 in Hrun.
    unfold seguir at 1 in Hrun. rewrite sorted_items_de in Hrun.
    match type of Hrun with
    | context [completo_provincias w ?h ?d ?c ?r ?st] =>
        destruct (completo_provincias w h d c r st) as [[r1|] s2] eqn:Ep; [|discriminate]
    end.
    unfold seguir, time_time, ret in Hrun. injection Hrun as <- _.
    assert (Hk : map fst (items_de (sorted_items dirf)) = map fst (sorted_items dirf)).
    { unfold items_de. rewrite map_map. reflexivity. }
    assert (Hndf : NoDup (map fst dirf)) by (apply NoDup_filter_claves, Hnd).
    apply completo_provincias_claves in Ep.
    + rewrite Ep, Hk. now apply claves_ascendentes.
    + cbn [map app]. rewrite Hk.
      eapply Permutation_NoDup; [apply Permutation_map, sorted_items_perm | exact Hndf].
Qed.

(** [provinces_in_order] on the run of capitals-only mode of the example. *)
Lemma provinces_in_order_witness :
  ascendente (map fst Ejemplo.resultado_capitales).
Proof.
  refine (provinces_in_order Ejemplo.mundo_capitales Ejemplo.solo_capitales_con_clave
            Ejemplo.estado_capitales
            (snd (recoger Ejemplo.mundo_capitales Ejemplo.solo_capitales_con_clave
                    Ejemplo.estado_capitales))
            Ejemplo.resultado_capitales Ejemplo.directorio _ _ directorio_sin_repetir).
  - por_calculo.
  - por_calculo.
Defined.
